(** * Weather ETL pipeline: geocoding, staging, transform and MongoDB load

    A shallow embedding of [weather_pipeline.py] and of the Prefect flow of
    [weather_pipeline_prefect.py].  Functions that talk to the outside
    (HTTP, the clock, MongoDB) are written in a state-and-exception monad
    over a [world]; the pandas and pymongo operations the pipeline calls are
    given their documented behaviour. *)

From Stdlib Require Import ZArith QArith Qcanon Ascii.
From stdpp Require Import numbers base tactics option list sorting strings gmap.

(* ================================================================== *)
(** * Part I.  Definitions                                             *)
(* ================================================================== *)

(** ** Python strings

    Strings are byte strings; [upper] and [lower] are [str.upper] and
    [str.lower] on the ASCII letters and leave every other byte alone. *)

Definition upper_ascii (c : ascii) : ascii :=
  let n := N_of_ascii c in
  if ((97 <=? n) && (n <=? 122))%N then ascii_of_N (n - 32) else c.

Definition lower_ascii (c : ascii) : ascii :=
  let n := N_of_ascii c in
  if ((65 <=? n) && (n <=? 90))%N then ascii_of_N (n + 32) else c.

Fixpoint upper (s : string) : string :=
  match s with
  | EmptyString => EmptyString
  | String c s' => String (upper_ascii c) (upper s')
  end.

Fixpoint lower (s : string) : string :=
  match s with
  | EmptyString => EmptyString
  | String c s' => String (lower_ascii c) (lower s')
  end.

(** [o or ""] for a value that is a string or [None]. *)
Definition or_empty (o : option string) : string := default "" o.

(** Truth value of a string or [None]: [None] and [""] are falsy. *)
Definition truthy (o : option string) : bool :=
  match o with
  | Some s => negb (bool_decide (s = ""))
  | None => false
  end.

(** [sep.join(l)]. *)
Fixpoint join (sep : string) (l : list string) : string :=
  match l with
  | [] => ""
  | [s] => s
  | s :: l' => s +:+ sep +:+ join sep l'
  end.

(** [[p for p in pieces if p]]. *)
Definition non_empty_pieces (pieces : list (option string)) : list string :=
  omap (λ p, if truthy p then p else None) pieces.

(** ** Timestamps

    A timestamp is kept as its calendar fields, at the resolution the
    store encodes dates with. *)

Record datetime := DateTime {
  dt_year : nat; dt_month : nat; dt_day : nat;
  dt_hour : nat; dt_minute : nat; dt_second : nat; dt_millis : nat
}.

Global Instance datetime_eq_dec : EqDecision datetime.
Proof. solve_decision. Defined.

Definition digit (n : nat) : string :=
  String (ascii_of_nat (48 + n mod 10)) EmptyString.

Definition pad2 (n : nat) : string := digit (n / 10) +:+ digit n.

Definition pad4 (n : nat) : string :=
  digit (n / 1000) +:+ digit (n / 100) +:+ digit (n / 10) +:+ digit n.

(** [str(t.date())]. *)
Definition date_str (t : datetime) : string :=
  pad4 (dt_year t) +:+ "-" +:+ pad2 (dt_month t) +:+ "-" +:+ pad2 (dt_day t).

(** ** Cell values

    What a JSON array of the forecast, a DataFrame cell or a field of a
    stored document holds.  [VNull] stands for [None], [NaN] and [NaT];
    a number is the rational it denotes. *)

Inductive value :=
  | VNull
  | VBool (b : bool)
  | VNum (q : Qc)
  | VStr (s : string)
  | VTime (t : datetime).

Global Instance value_eq_dec : EqDecision value.
Proof. solve_decision. Defined.

Definition of_int (n : nat) : Qc := Q2Qc (inject_Z (Z.of_nat n)).

Definition notnull (v : value) : bool :=
  match v with VNull => false | _ => true end.

Definition str_or_none (o : option string) : value :=
  match o with Some s => VStr s | None => VNull end.

(** ** Exceptions *)

(** The messages of the [ValueError]s the pipeline and pandas raise. *)
Inductive message :=
  (** "No se encontraron resultados para city=..., country_code=..." *)
  | NoResultsFound (city country_code : string)
  (** "Geocoding ambiguo: no hubo resultados con country_code=... Top
      result fue: name / country (country_code)" *)
  | GeocodingAmbiguous (country_code : string)
                       (top_name top_country top_country_code : option string)
  (** "Geocoding no coincide con country_code solicitado." ([run_pipeline])
      and "Security check failed: geocoding country_code mismatch."
      ([weather_etl_flow]) *)
  | CountryCodeMismatch (expected : string) (got : string)
  (** "MONGO_URI no está definida en ..." *)
  | MongoUriUndefined
  (** pandas: "All arrays must be of the same length" *)
  | ArraysNotSameLength
  (** pandas: "Length of values does not match length of index" *)
  | LengthMismatch.

Inductive exn :=
  | ValueError (m : message)
  | KeyError (key : string)
  | AttributeError
  | RequestException
  | ServerSelectionTimeoutError
  | DuplicateKeyError
  | BulkWriteError
  | NetworkTimeout
  | ConfigurationError
  | OperationFailure.

Inductive result (A : Type) :=
  | Ok (a : A)
  | Raise (e : exn).
Arguments Ok {A} a.
Arguments Raise {A} e.

Definition rbind {A B} (r : result A) (k : A → result B) : result B :=
  match r with Ok a => k a | Raise e => Raise e end.

Notation "'let?' x := r 'in' k" := (rbind r (λ x, k))
  (at level 10, x binder, r at level 100, k at level 200, only parsing).

(** [[f(x) for x in l]] where [f] may raise. *)
Fixpoint for_each {A B} (f : A → result B) (l : list A) : result (list B) :=
  match l with
  | [] => Ok []
  | x :: l' =>
      let? y := f x in
      let? ys := for_each f l' in
      Ok (y :: ys)
  end.

(** ** The services the pipeline talks to *)

(** A result of the geocoding service: the fields [get_lat_lon] reads.
    [None] is a key that is absent or [null]. *)
Record candidate := Candidate {
  cand_name : option string;
  cand_admin1 : option string;
  cand_country : option string;
  cand_country_code : option string;
  cand_latitude : option Qc;
  cand_longitude : option Qc
}.

Global Instance candidate_eq_dec : EqDecision candidate.
Proof. solve_decision. Defined.

(** The body of a geocoding reply: [data.get("results")]. *)
Record geo_data := GeoData { results : option (list candidate) }.

Record geo_params := GeoParams {
  gp_name : string; gp_count : nat; gp_language : string;
  gp_format : string; gp_country_code : string
}.

(** The ["hourly"] entry of a forecast reply. *)
Inductive hourly_entry :=
  | HourlyAbsent
  | HourlyNull
  | Hourly (arrays : gmap string (list value)).

Record weather_json := WeatherJson { hourly : hourly_entry }.

Record forecast_params := ForecastParams {
  fp_latitude : Qc; fp_longitude : Qc; fp_hourly : string; fp_timezone : string
}.

(** How a batch of writes can fail once it was sent: the server reports
    write errors ([BulkWriteError]), or its reply does not come within
    [socketTimeoutMS] ([NetworkTimeout]). *)
Inductive batch_failure := WriteErrors | SocketTimeout.

(** What the process cannot control.  The [n]-th request to a service gets
    the reply the service gives to request number [n]; [None] is a request
    that fails (no connection, an HTTP error status, a body that is not
    JSON).

    Of the MongoDB server: whether it answers the [n]-th connection; for
    the [n]-th batch of writes, the order in which it applies the
    operations of the batch, given as the choices read by [arrange] below,
    and whether the batch fails, and then after how many of the operations
    so ordered were applied; whether [MongoClient] accepts [MONGO_URI] (a
    URI it can parse, an SRV record it can resolve); whether the databases
    can be listed on the [n]-th connection. *)
Record services := Services {
  geocoding_service : nat → geo_params → option geo_data;
  forecast_service : nat → forecast_params → option weather_json;
  utc_clock : nat → datetime;
  MONGO_URI : option string;
  mongo_reachable : nat → bool;
  bulk_order : nat → list nat;
  bulk_failure : nat → option (nat * batch_failure);
  uri_accepted : bool;
  databases_listed : nat → bool
}.

(** The collection [DB_NAME.COLLECTION_NAME]: its documents in insertion
    order and the names of its indexes.  The [_id] the server gives a new
    document is left out: the pipeline neither reads nor writes it. *)
Record collection := Collection {
  documents : list (gmap string value);
  indexes : gset string
}.

Record world := World {
  env : services;
  geocoding_requests : nat;
  forecast_requests : nat;
  clock_reads : nat;
  mongo_connections : nat;
  mongo_writes : nat;
  store : collection
}.

Definition M (A : Type) : Type := world → result A * world.

Definition ret {A} (a : A) : M A := λ w, (Ok a, w).

Definition raise {A} (e : exn) : M A := λ w, (Raise e, w).

Definition bind {A B} (c : M A) (k : A → M B) : M B := λ w,
  match c w with
  | (Ok a, w') => k a w'
  | (Raise e, w') => (Raise e, w')
  end.

Definition lift {A} (r : result A) : M A := λ w, (r, w).

Notation "'let*' x := c 'in' k" := (bind c (λ x, k))
  (at level 10, x binder, c at level 100, k at level 200, only parsing).

(** The outcome of [requests.get], [raise_for_status] and [json]. *)
Definition http_reply {A} (reply : option A) : result A :=
  match reply with
  | Some body => Ok body
  | None => Raise RequestException
  end.

(** ** 1) Extract: geocoding *)

Record Location := mkLocation {
  city_input : string;
  country_code : option string;
  location_name : string;
  latitude : Qc;
  longitude : Qc
}.

(** [requests.get(GEOCODING_URL, params=params, timeout=30)],
    [r.raise_for_status()] and [r.json()]. *)
Definition requests_get_geocoding (params : geo_params) : M geo_data := λ w,
  (http_reply (geocoding_service (env w) (geocoding_requests w) params),
   World (env w) (S (geocoding_requests w)) (forecast_requests w)
         (clock_reads w) (mongo_connections w) (mongo_writes w) (store w)).

(** The closure [score] of [get_lat_lon]; [cc] is the upper-cased requested
    country code it captures. *)
Definition score (cc : string) (x : candidate) : nat :=
  let s := 0 in
  let s := if bool_decide (upper (or_empty (cand_country_code x)) = cc)
           then s + 10 else s in
  let s := if bool_decide (lower (or_empty (cand_country x))
                           ∈ ["costa rica"; "costa rica "])
           then s + 5 else s in
  let s := if truthy (cand_admin1 x) then s + 1 else s in
  s.

(** [sorted(l, key=key, reverse=True)]: a stable sort, so elements with
    equal keys keep their order. *)
Fixpoint insert_desc {A} (key : A → nat) (x : A) (l : list A) : list A :=
  match l with
  | [] => [x]
  | y :: l' => if key y <=? key x then x :: l else y :: insert_desc key x l'
  end.

Definition sorted_desc {A} (key : A → nat) (l : list A) : list A :=
  foldr (insert_desc key) [] l.

(** Lines 62 to 87: the candidate [chosen]. *)
Definition choose (country_code : string) (results : list candidate)
  : result candidate :=
  let cc := upper country_code in
  let candidates :=
    filter (λ x, upper (or_empty (cand_country_code x)) = cc) results in
  match sorted_desc (score cc) candidates with
  | chosen :: _ => Ok chosen
  | [] =>
      let top := head results in
      Raise (ValueError (GeocodingAmbiguous country_code
                           (top ≫= cand_name) (top ≫= cand_country)
                           (top ≫= cand_country_code)))
  end.

(** [float(chosen[key])]. *)
Definition float_field (key : string) (v : option Qc) : result Qc :=
  match v with
  | Some q => Ok q
  | None => Raise (KeyError key)
  end.

(** Lines 89 to 100: the [Location] made of [chosen]. *)
Definition build_location (city : string) (chosen : candidate) : result Location :=
  let? lat := float_field "latitude" (cand_latitude chosen) in
  let? lon := float_field "longitude" (cand_longitude chosen) in
  let pieces := [cand_name chosen; cand_admin1 chosen; cand_country chosen] in
  let location_name := join ", " (non_empty_pieces pieces) in
  Ok (mkLocation city (cand_country_code chosen) location_name lat lon).

Definition get_lat_lon (city country_code : string) : M Location :=
  let params := GeoParams city 10 "es" "json" country_code in
  let* data := requests_get_geocoding params in
  let results := default [] (results data) in
  match results with
  | [] => raise (ValueError (NoResultsFound city country_code))
  | _ :: _ =>
      let* chosen := lift (choose country_code results) in
      lift (build_location city chosen)
  end.

(** ** 2) Extract: forecast *)

Definition DEFAULT_HOURLY_VARS : string :=
  "temperature_2m,relative_humidity_2m,precipitation,windspeed_10m".

Definition fetch_hourly_weather (lat lon : Qc) (timezone_name hourly_vars : string)
  : M weather_json := λ w,
  (http_reply (forecast_service (env w) (forecast_requests w)
                 (ForecastParams lat lon hourly_vars timezone_name)),
   World (env w) (geocoding_requests w) (S (forecast_requests w))
         (clock_reads w) (mongo_connections w) (mongo_writes w) (store w)).

(** ** pandas DataFrames

    A frame is stored by column, as pandas stores it: the row labels and,
    for every column name, the cells of that column in row order. *)

Record DataFrame := mkDataFrame {
  index : list nat;
  columns : gmap string (list value)
}.

Global Instance value_inhabited : Inhabited value := populate VNull.

(** [len(df)]. *)
Definition nrows (df : DataFrame) : nat := length (index df).

(** [pd.DataFrame({k: v, ...})] from lists: all of one length, or a
    [ValueError]; the rows are labelled [0 .. n-1]. *)
Definition DataFrame_of_dict (d : list (string * list value)) : result DataFrame :=
  match d with
  | [] => Ok (mkDataFrame [] ∅)
  | (_, c) :: _ =>
      let n := length c in
      if forallb (λ kv, length kv.2 =? n) d
      then Ok (mkDataFrame (seq 0 n) (list_to_map d))
      else Raise (ValueError ArraysNotSameLength)
  end.

(** [df[name]]. *)
Definition getitem (name : string) (df : DataFrame) : result (list value) :=
  match columns df !! name with
  | Some c => Ok c
  | None => Raise (KeyError name)
  end.

(** [df[name] = v] for a scalar [v]: the same cell in every row. *)
Definition setitem_scalar (name : string) (v : value) (df : DataFrame) : DataFrame :=
  mkDataFrame (index df) (<[name := replicate (nrows df) v]> (columns df)).

(** [df[name] = col] for a column computed from the rows of [df]. *)
Definition setitem (name : string) (col : list value) (df : DataFrame)
  : result DataFrame :=
  if length col =? nrows df
  then Ok (mkDataFrame (index df) (<[name := col]> (columns df)))
  else Raise (ValueError LengthMismatch).

(** Keep the positions at which [mask] is true. *)
Fixpoint select {A} (mask : list bool) (l : list A) : list A :=
  match mask, l with
  | b :: mask', x :: l' => if b then x :: select mask' l' else select mask' l'
  | _, _ => []
  end.

(** Whether every given column is non-null, position by position. *)
Definition notnull_mask (n : nat) (cols : list (list value)) : list bool :=
  map (λ i, forallb (λ c : list value, notnull (c !!! i)) cols) (seq 0 n).

(** [df.dropna(subset=subset)]: the rows keep their labels. *)
Definition dropna (subset : list string) (df : DataFrame) : result DataFrame :=
  let? cols := for_each (λ name, getitem name df) subset in
  let mask := notnull_mask (nrows df) cols in
  Ok (mkDataFrame (select mask (index df)) (select mask <$> columns df)).

(** [s.fillna(v)] on one cell. *)
Definition fillna (v : value) (x : value) : value :=
  match x with VNull => v | _ => x end.

(** [s > 0] on one cell of a numeric series; [NaN > 0] is false. *)
Definition gt_zero (x : value) : bool :=
  match x with
  | VNum q => bool_decide (0 < q)%Qc
  | _ => false
  end.

(** [df.where(pd.notnull(df), None)]. *)
Definition where_notnull (df : DataFrame) : DataFrame :=
  mkDataFrame (index df)
    (map (λ x, if notnull x then x else VNull) <$> columns df).

(** [df.empty]: no rows or no columns. *)
Definition df_empty (df : DataFrame) : bool :=
  bool_decide (index df = []) || bool_decide (columns df = ∅).

(** [df.to_dict(orient="records")]. *)
Definition to_dict_records (df : DataFrame) : list (gmap string value) :=
  map (λ i, (λ c : list value, c !!! i) <$> columns df) (seq 0 (nrows df)).

(** The two coercions of pandas the pipeline uses, each on a whole column
    with [errors="coerce"]: a cell becomes a timestamp or [NaT], a number
    or [NaN]. *)
Record pandas := Pandas {
  to_datetime : list value → list (option datetime);
  to_numeric : list value → list (option Qc)
}.

Definition time_cell (o : option datetime) : value :=
  match o with Some t => VTime t | None => VNull end.

Definition num_cell (o : option Qc) : value :=
  match o with Some q => VNum q | None => VNull end.

(** [s.dt.date.astype(str)] and [s.dt.hour.astype(int)] on one cell of a
    timestamp series without [NaT]. *)
Definition dt_date_str (x : value) : value :=
  match x with VTime t => VStr (date_str t) | _ => VNull end.

Definition dt_hour_int (x : value) : value :=
  match x with VTime t => VNum (of_int (dt_hour t)) | _ => VNull end.

(** ** 3) Stage: JSON to DataFrame *)

(** [datetime.now(timezone.utc)]. *)
Definition datetime_now : M datetime := λ w,
  (Ok (utc_clock (env w) (clock_reads w)),
   World (env w) (geocoding_requests w) (forecast_requests w)
         (S (clock_reads w)) (mongo_connections w) (mongo_writes w) (store w)).

(** [weather_json.get("hourly") or {}]. *)
Definition hourly_or_empty (weather_json : weather_json)
  : gmap string (list value) :=
  match hourly weather_json with Hourly h => h | _ => ∅ end.

(** The dictionary handed to [pd.DataFrame]: [hourly.get(name, [])] for
    each of the five arrays. *)
Definition hourly_columns (hourly : gmap string (list value))
  : list (string * list value) :=
  [ ("time", default [] (hourly !! "time"));
    ("temperature_2m", default [] (hourly !! "temperature_2m"));
    ("relative_humidity_2m", default [] (hourly !! "relative_humidity_2m"));
    ("precipitation", default [] (hourly !! "precipitation"));
    ("windspeed_10m", default [] (hourly !! "windspeed_10m")) ].

(** Lines 138 to 147: the context columns and the source tag. *)
Definition add_context (location : Location) (timezone_name : string)
    (df : DataFrame) : DataFrame :=
  let df := setitem_scalar "location_name" (VStr (location_name location)) df in
  let df := setitem_scalar "city_input" (VStr (city_input location)) df in
  let df := setitem_scalar "country_code" (str_or_none (country_code location)) df in
  let df := setitem_scalar "latitude" (VNum (latitude location)) df in
  let df := setitem_scalar "longitude" (VNum (longitude location)) df in
  let df := setitem_scalar "timezone_name" (VStr timezone_name) df in
  setitem_scalar "source" (VStr "open-meteo") df.

Definition to_staging_df (weather_json : weather_json) (location : Location)
    (timezone_name : string) : M DataFrame :=
  let hourly := hourly_or_empty weather_json in
  let* df := lift (DataFrame_of_dict (hourly_columns hourly)) in
  let df := add_context location timezone_name df in
  let* now := datetime_now in
  ret (setitem_scalar "ingested_at_utc" (VTime now) df).

(** ** 4) Transform: cleaning and features *)

(** [out[name] = pd.to_numeric(out[name], errors="coerce")]. *)
Definition coerce_numeric (pd : pandas) (name : string) (out : DataFrame)
  : result DataFrame :=
  let? c := getitem name out in
  setitem name (num_cell <$> to_numeric pd c) out.

(** One cell of [out["precipitation"].fillna(0) > 0]. *)
Definition rain_cell (x : value) : value := VBool (gt_zero (fillna (VNum 0) x)).

(** Lines 159 to 163: the five coercions. *)
Definition coerce_columns (pd : pandas) (out : DataFrame) : result DataFrame :=
  let? c := getitem "time" out in
  let? out := setitem "time" (time_cell <$> to_datetime pd c) out in
  let? out := coerce_numeric pd "temperature_2m" out in
  let? out := coerce_numeric pd "relative_humidity_2m" out in
  let? out := coerce_numeric pd "precipitation" out in
  coerce_numeric pd "windspeed_10m" out.

Definition transform (pd : pandas) (df : DataFrame) : result DataFrame :=
  let out := df in
  let? out := coerce_columns pd out in
  let? out := dropna ["time"; "temperature_2m"] out in
  let? c := getitem "precipitation" out in
  let? out := setitem "is_rain" (rain_cell <$> c) out in
  let? c := getitem "time" out in
  let? out := setitem "date" (dt_date_str <$> c) out in
  let? c := getitem "time" out in
  let? out := setitem "hour" (dt_hour_int <$> c) out in
  Ok (where_notnull out).

(** ** 5) Load: MongoDB *)

(** The value a query sees at a field: a missing field reads as [null]. *)
Definition field (d : gmap string value) (k : string) : value :=
  default VNull (d !! k).

(** A document satisfies an equality filter when every field of the filter
    has the filter's value in the document. *)
Definition matches (q d : gmap string value) : Prop :=
  map_Forall (λ k v, field d k = v) q.

Global Instance matches_dec q d : Decision (matches q d).
Proof. unfold matches. apply _. Defined.

(** The key of the unique index [uq_location_time]. *)
Definition doc_key (d : gmap string value) : value * value :=
  (field d "location_name", field d "time").

(** [UpdateOne(filter, {"$set": set}, upsert=upsert)]. *)
Record UpdateOne := mkUpdateOne {
  uo_filter : gmap string value;
  uo_set : gmap string value;
  uo_upsert : bool
}.

(** [upserted_ids] is kept as the positions, in the order of application,
    of the operations that inserted; the pipeline reads its length only. *)
Record BulkWriteResult := mkBulkWriteResult {
  matched_count : nat;
  modified_count : nat;
  upserted_ids : list nat
}.

(** One update of a batch, the [i]-th: the first matching document gets
    the fields of [$set] and keeps its other fields, and counts as
    modified when that changed it; without a match an upsert inserts the
    filter's fields overlaid with those of [$set]. *)
Definition update_one (i : nat) (op : UpdateOne)
    (docs : list (gmap string value)) (res : BulkWriteResult)
  : list (gmap string value) * BulkWriteResult :=
  match list_find (matches (uo_filter op)) docs with
  | Some (j, old) =>
      let new := uo_set op ∪ old in
      (<[j := new]> docs,
       mkBulkWriteResult (S (matched_count res))
         (if bool_decide (new = old) then modified_count res
          else S (modified_count res))
         (upserted_ids res))
  | None =>
      if uo_upsert op
      then (docs ++ [uo_set op ∪ uo_filter op],
            mkBulkWriteResult (matched_count res) (modified_count res)
              (upserted_ids res ++ [i]))
      else (docs, res)
  end.

Fixpoint run_ops (i : nat) (ops : list UpdateOne)
    (docs : list (gmap string value)) (res : BulkWriteResult)
  : list (gmap string value) * BulkWriteResult :=
  match ops with
  | [] => (docs, res)
  | op :: ops' =>
      let '(docs', res') := update_one i op docs res in
      run_ops (S i) ops' docs' res'
  end.

(** An order of the elements of a list, chosen one element at a time:
    the first is put at the position given by the first choice among the
    others so ordered (at the end when that is too far).  Every order of
    the list is the outcome of some choices, and no choices at all leave
    the list as it is. *)
Fixpoint arrange {A} (choices : list nat) (l : list A) : list A :=
  match l with
  | [] => []
  | x :: l' =>
      let rest := arrange (tail choices) l' in
      take (hd 0 choices) rest ++ x :: drop (hd 0 choices) rest
  end.

Definition batch_exn (f : batch_failure) : exn :=
  match f with
  | WriteErrors => BulkWriteError
  | SocketTimeout => NetworkTimeout
  end.

(** [col.bulk_write(ops, ordered=False)]: one batch.  The server applies
    the operations in an order of its own.  When the batch fails the
    operations applied until then stay applied and the driver raises. *)
Definition bulk_write (ops : list UpdateOne) : M BulkWriteResult := λ w,
  let served := arrange (bulk_order (env w) (mongo_writes w)) ops in
  let sent (docs : list (gmap string value)) :=
    World (env w) (geocoding_requests w) (forecast_requests w) (clock_reads w)
          (mongo_connections w) (S (mongo_writes w))
          (Collection docs (indexes (store w))) in
  match bulk_failure (env w) (mongo_writes w) with
  | None =>
      let '(docs, res) :=
        run_ops 0 served (documents (store w)) (mkBulkWriteResult 0 0 []) in
      (Ok res, sent docs)
  | Some (applied, failure) =>
      let '(docs, _) :=
        run_ops 0 (take applied served) (documents (store w))
                (mkBulkWriteResult 0 0 []) in
      (Raise (batch_exn failure), sent docs)
  end.

(** [get_mongo_client]: the client connects lazily, so only the check of
    [MONGO_URI] can fail here; the URI is taken to be one that
    [MongoClient] accepts. *)
Definition get_mongo_client : M unit := λ w,
  if truthy (MONGO_URI (env w)) then (Ok (), w)
  else (Raise (ValueError MongoUriUndefined), w).

(** [client.admin.command("ping")]: the first contact with the server. *)
Definition ping : M unit := λ w,
  let w' := World (env w) (geocoding_requests w) (forecast_requests w)
                  (clock_reads w) (S (mongo_connections w)) (mongo_writes w)
                  (store w) in
  if mongo_reachable (env w) (mongo_connections w) then (Ok (), w')
  else (Raise ServerSelectionTimeoutError, w').

(** [col.create_index(..., name=name)]; creating an index that exists is
    a no-op.  A unique index is refused while two documents share its
    key, and once it exists the server keeps the keys distinct. *)
Definition create_index (unique : bool) (name : string) : M unit := λ w,
  if unique && negb (bool_decide (NoDup (doc_key <$> documents (store w))))
  then (Raise DuplicateKeyError, w)
  else (Ok (),
        World (env w) (geocoding_requests w) (forecast_requests w)
              (clock_reads w) (mongo_connections w) (mongo_writes w)
              (Collection (documents (store w)) ({[name]} ∪ indexes (store w)))).

Definition ensure_indexes : M unit :=
  let* _ := create_index true "uq_location_time" in
  let* _ := create_index false "idx_date" in
  create_index false "idx_city_input".

(** [t.to_pydatetime()]: the same instant. *)
Definition to_pydatetime (t : datetime) : datetime := t.

(** The loop that makes the [time] of a record a native datetime. *)
Definition native_time (d : gmap string value) : gmap string value :=
  match d !! "time" with
  | Some (VTime t) => <["time" := VTime (to_pydatetime t)]> d
  | _ => d
  end.

(** [d[k]]. *)
Definition dict_get (d : gmap string value) (k : string) : result value :=
  match d !! k with
  | Some v => Ok v
  | None => Raise (KeyError k)
  end.

(** The loop that builds [ops]. *)
Definition upsert_op (d : gmap string value) : result UpdateOne :=
  let? ln := dict_get d "location_name" in
  let? t := dict_get d "time" in
  let key : gmap string value := {[ "location_name" := ln; "time" := t ]} in
  Ok (mkUpdateOne key d true).

Definition summary (matched modified upserted : nat) : gmap string nat :=
  {[ "matched" := matched; "modified" := modified; "upserted" := upserted ]}.

Definition load_to_mongo (df : DataFrame) : M (gmap string nat) :=
  if df_empty df then ret (summary 0 0 0)
  else
    let* client := get_mongo_client in
    let* _ := ping in
    let* _ := ensure_indexes in
    let docs := to_dict_records df in
    let docs := native_time <$> docs in
    let* ops := lift (for_each upsert_op docs) in
    let* res := bulk_write ops in
    let upserted := length (upserted_ids res) in
    ret (summary (matched_count res) (modified_count res) upserted).

(** ** The pipeline *)

(** The check both orchestrators make on the resolved location:
    [loc.country_code.upper() != country_code.upper()]. *)
Definition security_validation (loc : Location) (country_code_req : string)
  : result unit :=
  match country_code loc with
  | None => Raise AttributeError
  | Some got =>
      if bool_decide (upper got ≠ upper country_code_req)
      then Raise (ValueError (CountryCodeMismatch country_code_req got))
      else Ok ()
  end.

Definition run_pipeline (pd : pandas) (city country_code timezone_name : string)
  : M (gmap string nat) :=
  let* loc := get_lat_lon city country_code in
  let* _ := lift (security_validation loc country_code) in
  let* weather_json :=
    fetch_hourly_weather (latitude loc) (longitude loc) timezone_name
      DEFAULT_HOURLY_VARS in
  let* staging := to_staging_df weather_json loc timezone_name in
  let* curated := lift (transform pd staging) in
  let* result := load_to_mongo curated in
  ret result.

(** ** The Prefect flow *)

(** A task with [retries=n]: run again after a failure, at most [n] more
    times; the last failure is the task's. *)
Fixpoint with_retries {A} (n : nat) (task : M A) : M A := λ w,
  match task w with
  | (Ok a, w') => (Ok a, w')
  | (Raise e, w') =>
      match n with
      | 0 => (Raise e, w')
      | S n' => with_retries n' task w'
      end
  end.

Definition task_geocode (city country_code : string) : M Location :=
  with_retries 2 (get_lat_lon city country_code).

Definition task_fetch_forecast (latitude longitude : Qc)
    (timezone_name hourly_vars : string) : M weather_json :=
  with_retries 2
    (let* weather_json :=
       fetch_hourly_weather latitude longitude timezone_name hourly_vars in
     match hourly weather_json with
     | HourlyNull => raise AttributeError
     | _ => ret weather_json
     end).

Definition task_stage (weather_json : weather_json) (location : Location)
    (timezone_name : string) : M DataFrame :=
  with_retries 0 (to_staging_df weather_json location timezone_name).

Definition task_transform (pd : pandas) (staging_df : DataFrame) : M DataFrame :=
  with_retries 0 (lift (transform pd staging_df)).

Definition task_load (transformed_df : DataFrame) : M (gmap string nat) :=
  with_retries 1 (load_to_mongo transformed_df).

Definition weather_etl_flow (pd : pandas) (city country_code timezone_name : string)
  : M (gmap string nat) :=
  let* _ := datetime_now in
  let* location := task_geocode city country_code in
  let* _ := lift (security_validation location country_code) in
  let* weather_json :=
    task_fetch_forecast (latitude location) (longitude location) timezone_name
      DEFAULT_HOURLY_VARS in
  let* staging_df := task_stage weather_json location timezone_name in
  let* transformed_df := task_transform pd staging_df in
  let* result := task_load transformed_df in
  ret result.

(** ** The connection test, [mongo_test.py]

    The script stops with a [ValueError] when [MONGO_URI] is not set.
    Then it builds the client, outside the [try]: a URI that [MongoClient]
    does not accept ends the script with the client's error.  Inside the
    [try] it pings the server, lists the databases and creates the index
    on [time], which pymongo names [time_1]; the handler prints whatever
    one of these raises, the steps after it being skipped, and nothing is
    raised from there. *)



(** ** Notions used in the statements: candidates *)

(** The candidate with its country name, or its administrative region,
    taken away. *)
Definition without_country (x : candidate) : candidate :=
  Candidate (cand_name x) (cand_admin1 x) None (cand_country_code x)
            (cand_latitude x) (cand_longitude x).

Definition without_admin1 (x : candidate) : candidate :=
  Candidate (cand_name x) None (cand_country x) (cand_country_code x)
            (cand_latitude x) (cand_longitude x).

(** ** Sample data *)

Definition san_jose_cr : candidate :=
  Candidate (Some "San Jose") (Some "San Jose") (Some "Costa Rica") (Some "CR")
            (Some (Q2Qc (993 # 100))) (Some (Q2Qc (-8408 # 100))).

Definition san_jose_cr_plain : candidate := without_admin1 san_jose_cr.

Definition san_jose_us : candidate :=
  Candidate (Some "San Jose") (Some "California") (Some "Estados Unidos")
            (Some "US") (Some (Q2Qc (3734 # 100))) (Some (Q2Qc (-12189 # 100))).

Definition madrid_es : candidate :=
  Candidate (Some "Madrid") (Some "Madrid") (Some "Espana") (Some "ES")
            (Some (Q2Qc (4042 # 100))) (Some (Q2Qc (-370 # 100))).

Definition noon : datetime := DateTime 2024 5 17 12 0 0 0.

Definition san_jose_location : Location :=
  mkLocation "San Jose" (Some "CR") "San Jose, San Jose, Costa Rica"
             (Q2Qc (993 # 100)) (Q2Qc (-8408 # 100)).

(** A forecast with two hours of times and no other array. *)
Definition times_only : weather_json :=
  WeatherJson (Hourly {[ "time" := [VStr "2024-05-17T00:00";
                                    VStr "2024-05-17T01:00"] ]}).

(** Services that give the same reply to every request, with a server
    that applies every batch in full, in the order it was sent. *)
Definition fixed_services (geo : option geo_data) (fc : option weather_json)
  : services :=
  Services (λ _ _, geo) (λ _ _, fc) (λ _, noon) (Some "mongodb+srv://cluster")
           (λ _, true) (λ _, []) (λ _, None) true (λ _, true).

Definition fresh_world (sv : services) (docs : list (gmap string value)) : world :=
  World sv 0 0 0 0 0 (Collection docs ∅).

(** A reading of the minute stamps of the forecast, "YYYY-MM-DDTHH:MM",
    and of plain numbers: enough of pandas for the samples. *)
Definition digit_value (c : ascii) : option nat :=
  let n := nat_of_ascii c in
  if (48 <=? n) && (n <=? 57) then Some (n - 48) else None.

Fixpoint decimal (s : string) (acc : nat) : option nat :=
  match s with
  | EmptyString => Some acc
  | String c s' => d ← digit_value c; decimal s' (10 * acc + d)
  end.

Definition read_stamp (s : string) : option datetime :=
  if String.length s =? 16 then
    y ← decimal (String.substring 0 4 s) 0;
    mo ← decimal (String.substring 5 2 s) 0;
    d ← decimal (String.substring 8 2 s) 0;
    h ← decimal (String.substring 11 2 s) 0;
    mi ← decimal (String.substring 14 2 s) 0;
    Some (DateTime y mo d h mi 0 0)
  else None.

Definition sample_pandas : pandas :=
  Pandas
    (map (λ x, match x with
               | VStr s => read_stamp s
               | VTime t => Some t
               | _ => None
               end))
    (map (λ x, match x with VNum q => Some q | _ => None end)).

(** Three hours of forecast: the second without temperature, the third
    without precipitation. *)
Definition sample_forecast : weather_json :=
  WeatherJson (Hourly
    {[ "time" := [VStr "2024-05-17T00:00"; VStr "2024-05-17T01:00";
                  VStr "2024-05-17T02:00"];
       "temperature_2m" := [VNum (of_int 21); VNull; VNum (of_int 19)];
       "relative_humidity_2m" := [VNum (of_int 80); VNum (of_int 81);
                                  VNum (of_int 82)];
       "precipitation" := [VNum (Q2Qc (1 # 2)); VNum (of_int 0); VNull];
       "windspeed_10m" := [VNum (of_int 5); VNum (of_int 6); VNum (of_int 7)] ]}).

Definition sample_world : world :=
  fresh_world (fixed_services (Some (GeoData (Some [san_jose_us; san_jose_cr])))
                 (Some sample_forecast)) [].


(** The sample services with a collection in which two documents share
    a key. *)
Definition clashing_world : world :=
  fresh_world (fixed_services (Some (GeoData (Some [san_jose_us; san_jose_cr])))
                 (Some sample_forecast))
              [ {[ "location_name" := VStr "San Jose"; "time" := VTime noon ]};
                {[ "location_name" := VStr "San Jose"; "time" := VTime noon;
                   "station" := VStr "SJO" ]} ].


(** A server whose reply to a batch does not come in time, one operation
    of the batch having been applied, and that cannot be reached again
    after that. *)
Definition timeout_world : world :=
  fresh_world (Services (λ _ _, Some (GeoData (Some [san_jose_us; san_jose_cr])))
                 (λ _ _, Some sample_forecast) (λ _, noon)
                 (Some "mongodb+srv://cluster") (λ n, n =? 0)
                 (λ _, []) (λ _, Some (1, SocketTimeout)) true (λ _, true))
              [].

Definition sample_staging : DataFrame :=
  match (to_staging_df sample_forecast san_jose_location "America/Costa_Rica"
           sample_world).1 with
  | Ok df => df
  | Raise _ => mkDataFrame [] ∅
  end.

(** One reading, and two readings of the same place and hour. *)
Definition reading (temperature : nat) : gmap string value :=
  {[ "location_name" := VStr "San Jose, San Jose, Costa Rica";
     "time" := VTime noon;
     "temperature_2m" := VNum (of_int temperature) ]}.

Definition one_reading : DataFrame :=
  mkDataFrame [0]
    {[ "location_name" := [VStr "San Jose, San Jose, Costa Rica"];
       "time" := [VTime noon];
       "temperature_2m" := [VNum (of_int 21)] ]}.

Definition two_readings : DataFrame :=
  mkDataFrame [0; 1]
    {[ "location_name" := [VStr "San Jose, San Jose, Costa Rica";
                           VStr "San Jose, San Jose, Costa Rica"];
       "time" := [VTime noon; VTime noon];
       "temperature_2m" := [VNum (of_int 21); VNum (of_int 22)] ]}.

(** A stored document of that place and hour with a field of its own. *)
Definition annotated_reading : gmap string value :=
  <["station" := VStr "SJO"]> (reading 20).

Definition mongo_world (docs : list (gmap string value)) : world :=
  fresh_world (fixed_services None None) docs.

(** The same with a server that applies a batch of two operations the
    second first. *)
Definition reversing_world (docs : list (gmap string value)) : world :=
  fresh_world (Services (λ _ _, None) (λ _ _, None) (λ _, noon)
                 (Some "mongodb+srv://cluster") (λ _, true)
                 (λ _, [1]) (λ _, None) true (λ _, true))
              docs.

(** ** Notions used in the statements: frames and documents *)

(** The column of a frame, empty when the frame has no such column. *)
Definition column (name : string) (df : DataFrame) : list value :=
  default [] (columns df !! name).

(** Every column has one cell per row. *)
Definition well_formed (df : DataFrame) : Prop :=
  map_Forall (λ _ c, length c = nrows df) (columns df).

(** The coercions keep the length of the column they are given. *)
Definition length_preserving (pd : pandas) : Prop :=
  (∀ c, length (to_datetime pd c) = length c)
  ∧ (∀ c, length (to_numeric pd c) = length c).

(** Whether the row at position [i] has its time and its temperature after
    coercion. *)
Definition complete_row (pd : pandas) (df : DataFrame) (i : nat) : bool :=
  bool_decide (is_Some (mjoin (to_datetime pd (column "time" df) !! i)))
  && bool_decide (is_Some (mjoin (to_numeric pd (column "temperature_2m" df) !! i))).

Definition complete_rows (pd : pandas) (df : DataFrame) : list bool :=
  map (complete_row pd df) (seq 0 (nrows df)).

(** How many rows lack one of the two. *)
Definition dropped_rows (pd : pandas) (df : DataFrame) : nat :=
  length (filter (λ b : bool, b = false) (complete_rows pd df)).

(** The five columns the forecast fills. *)
Definition WEATHER_COLUMNS : list string :=
  ["time"; "temperature_2m"; "relative_humidity_2m"; "precipitation";
   "windspeed_10m"].

(** A staged frame: well formed, with the five weather columns. *)
Definition staged (df : DataFrame) : Prop :=
  well_formed df
  ∧ Forall (λ name, is_Some (columns df !! name)) WEATHER_COLUMNS.

(** The staged frame with its five weather columns coerced. *)
Definition coerced_frame (pd : pandas) (df : DataFrame) : DataFrame :=
  mkDataFrame (index df)
    (<["windspeed_10m" := num_cell <$> to_numeric pd (column "windspeed_10m" df)]>
    (<["precipitation" := num_cell <$> to_numeric pd (column "precipitation" df)]>
    (<["relative_humidity_2m" :=
         num_cell <$> to_numeric pd (column "relative_humidity_2m" df)]>
    (<["temperature_2m" := num_cell <$> to_numeric pd (column "temperature_2m" df)]>
    (<["time" := time_cell <$> to_datetime pd (column "time" df)]>
       (columns df)))))).

(** The frame [transform] makes of a staged frame. *)
Definition curated_frame (pd : pandas) (df : DataFrame) : DataFrame :=
  let mask := complete_rows pd df in
  let cf := coerced_frame pd df in
  mkDataFrame (select mask (index df))
    (<["hour" := dt_hour_int <$> select mask (column "time" cf)]>
    (<["date" := dt_date_str <$> select mask (column "time" cf)]>
    (<["is_rain" := rain_cell <$> select mask (column "precipitation" cf)]>
    (select mask <$> columns cf)))).

(** A record that has both fields of the key. *)
Definition keyed (d : gmap string value) : Prop :=
  is_Some (d !! "location_name") ∧ is_Some (d !! "time").

(** The operation [load_to_mongo] builds for a keyed record. *)
Definition key_op (d : gmap string value) : UpdateOne :=
  mkUpdateOne {[ "location_name" := field d "location_name";
                 "time" := field d "time" ]} d true.

(** The world after [load_to_mongo] has connected, ensured the indexes and
    sent one batch that left [docs] in the collection. *)
Definition loaded (w : world) (docs : list (gmap string value)) : world :=
  World (env w) (geocoding_requests w) (forecast_requests w) (clock_reads w)
        (S (mongo_connections w)) (S (mongo_writes w))
        (Collection docs
           ({["idx_city_input"]} ∪ ({["idx_date"]}
              ∪ ({["uq_location_time"]} ∪ indexes (store w))))).

(** A document after the records of its key, among [rs], were merged into
    it one after the other. *)
Definition merged (key : value * value) (rs : list (gmap string value))
    (o : gmap string value) : gmap string value :=
  foldl (λ acc r, if bool_decide (doc_key r = key) then r ∪ acc else acc) o rs.

(** The number a cell stands for when a missing value counts as zero. *)
Definition number_or_zero (x : value) : Qc :=
  match x with VNum q => q | _ => 0%Qc end.

(** The error of the orchestrators' check on the resolved country. *)
Definition is_mismatch (e : exn) : bool :=
  match e with
  | ValueError (CountryCodeMismatch _ _) => true
  | _ => false
  end.

Definition raises_mismatch {A} (r : result A) : bool :=
  match r with
  | Raise e => is_mismatch e
  | Ok _ => false
  end.

(** A computation that never ends in that error. *)
Definition no_mismatch {A} (c : M A) : Prop :=
  ∀ w, raises_mismatch (c w).1 = false.

(** ** Notions used in the statements: the world *)

(** The world with its counters and its collection replaced. *)
Definition with_geocoding_requests (n : nat) (w : world) : world :=
  World (env w) n (forecast_requests w) (clock_reads w) (mongo_connections w)
        (mongo_writes w) (store w).

Definition with_forecast_requests (n : nat) (w : world) : world :=
  World (env w) (geocoding_requests w) n (clock_reads w) (mongo_connections w)
        (mongo_writes w) (store w).

Definition with_clock_reads (n : nat) (w : world) : world :=
  World (env w) (geocoding_requests w) (forecast_requests w) n
        (mongo_connections w) (mongo_writes w) (store w).

(** Nothing was written between two worlds: the same services, the same
    documents in the collection and the same number of batches sent. *)
Definition nothing_written (w w' : world) : Prop :=
  env w' = env w
  ∧ documents (store w') = documents (store w)
  ∧ mongo_writes w' = mongo_writes w.

(** The error of a batch that failed after it was sent. *)
Definition batch_error (e : exn) : Prop :=
  e = BulkWriteError ∨ e = NetworkTimeout.

(** The order in which the server applies the next batch, on records. *)
Definition served {A} (w : world) (l : list A) : list A :=
  arrange (bulk_order (env w) (mongo_writes w)) l.

(** The indexes [ensure_indexes] creates. *)
Definition PIPELINE_INDEXES : gset string :=
  {[ "uq_location_time"; "idx_date"; "idx_city_input" ]}.

(** How many of the records change the document they are merged into. *)
Fixpoint changed (rs os : list (gmap string value)) : nat :=
  match rs, os with
  | r :: rs', o :: os' =>
      (if bool_decide (r ∪ o = o) then 0 else 1) + changed rs' os'
  | _, _ => 0
  end.

(** ** Tactics *)

(** Membership of a given name in a given list of names. *)
Ltac not_among :=
  rewrite !not_elem_of_cons; repeat split; try done; apply not_elem_of_nil.

Ltac among := unfold WEATHER_COLUMNS; rewrite !elem_of_cons; auto 10.

(* ================================================================== *)
(** * Part II.  Properties                                             *)
(* ================================================================== *)

(** ** Strings *)

Lemma upper_eq_empty (s : string) : upper s = "" → s = "".
Proof. destruct s; [done | discriminate]. Qed.

Lemma truthy_Some (s : string) : truthy (Some s) = true ↔ s ≠ "".
Proof.
  unfold truthy. rewrite negb_true_iff, bool_decide_eq_false. done.
Qed.

(** ** Sorting *)

Section sorting.
Context {A : Type} (key : A → nat).

Lemma insert_desc_not_nil (x : A) (l : list A) : insert_desc key x l ≠ [].
Proof. destruct l as [|y l]; simpl; [done | by case_match]. Qed.

Lemma sorted_desc_nil (l : list A) : sorted_desc key l = [] → l = [].
Proof.
  destruct l as [|x l]; [done | simpl].
  intros H. by apply insert_desc_not_nil in H.
Qed.

(** The head of the sorted list is the first element of the input that
    has the greatest key. *)
Lemma sorted_desc_head (l : list A) (c : A) (rest : list A) :
  sorted_desc key l = c :: rest →
  ∃ l1 l2, l = l1 ++ c :: l2
           ∧ Forall (λ y, key y < key c) l1
           ∧ Forall (λ y, key y ≤ key c) l2.
Proof.
  revert c rest. induction l as [|x l IH]; intros c rest; [done | simpl].
  destruct (sorted_desc key l) as [|y r] eqn:Hs.
  - apply sorted_desc_nil in Hs as ->. simpl. intros [= <- <-].
    exists [], []. by repeat split.
  - destruct (IH y r eq_refl) as (l1 & l2 & -> & H1 & H2).
    simpl. destruct (key y <=? key x) eqn:Hle.
    + apply Nat.leb_le in Hle. intros [= <- <-].
      exists [], (l1 ++ y :: l2). split; [done |]. split; [done |].
      apply Forall_app. split.
      * eapply Forall_impl; [exact H1 |]. simpl; intros; lia.
      * constructor; [done |].
        eapply Forall_impl; [exact H2 |]. simpl; intros; lia.
    + apply Nat.leb_gt in Hle. intros [= <- <-].
      exists (x :: l1), l2. split; [done |]. split; [| done].
      by constructor.
Qed.

Lemma insert_desc_perm (x : A) (l : list A) : insert_desc key x l ≡ₚ x :: l.
Proof.
  induction l as [|y l IH]; [done | simpl].
  case_match; [done |]. rewrite IH. apply Permutation_swap.
Qed.

Lemma sorted_desc_perm (l : list A) : sorted_desc key l ≡ₚ l.
Proof.
  induction l as [|x l IH]; [done | simpl].
  by rewrite insert_desc_perm, IH.
Qed.

(** The result is in descending order of key. *)
Lemma sorted_desc_sorted (l : list A) :
  StronglySorted (λ a b, key b ≤ key a) (sorted_desc key l).
Proof.
  induction l as [|x l IH]; [constructor | simpl].
  induction IH as [|y s Hs IHs Hy]; simpl; [by repeat constructor |].
  destruct (key y <=? key x) eqn:Hle.
  - apply Nat.leb_le in Hle. constructor; [by constructor |].
    constructor; [done |].
    eapply Forall_impl; [exact Hy |]. simpl; intros; lia.
  - apply Nat.leb_gt in Hle. constructor; [done |].
    rewrite insert_desc_perm. constructor; [lia | done].
Qed.
End sorting.

(** ** Geocoding *)

Lemma get_lat_lon_result (city cc : string) (w : world) :
  (get_lat_lon city cc w).1 =
    match geocoding_service (env w) (geocoding_requests w)
            (GeoParams city 10 "es" "json" cc) with
    | None => Raise RequestException
    | Some data =>
        match default [] (results data) with
        | [] => Raise (ValueError (NoResultsFound city cc))
        | rs => let? chosen := choose cc rs in build_location city chosen
        end
    end.
Proof.
  unfold get_lat_lon, bind, requests_get_geocoding, lift, raise.
  destruct (geocoding_service _ _ _) as [data|]; simpl; [| done].
  destruct (default [] (results data)) as [|r rs]; simpl; [done |].
  by destruct (choose cc (r :: rs)).
Qed.

(** Whatever [choose] returns passed the country filter. *)
Lemma choose_in_country (cc : string) (rs : list candidate) (c : candidate) :
  choose cc rs = Ok c →
  c ∈ rs ∧ upper (or_empty (cand_country_code c)) = upper cc.
Proof.
  unfold choose.
  destruct (sorted_desc _ _) as [|c' rest] eqn:Hs; [done |].
  intros [= ->].
  assert (c ∈ c :: rest) as Hin by constructor.
  rewrite <- Hs, sorted_desc_perm in Hin.
  by apply list_elem_of_filter in Hin as [? ?].
Qed.

Lemma choose_none (cc : string) (rs : list candidate) :
  Forall (λ x, upper (or_empty (cand_country_code x)) ≠ upper cc) rs →
  choose cc rs =
    Raise (ValueError (GeocodingAmbiguous cc (head rs ≫= cand_name)
             (head rs ≫= cand_country) (head rs ≫= cand_country_code))).
Proof.
  intros Hnone. unfold choose.
  replace (filter _ rs) with (@nil candidate); [done |].
  symmetry. induction Hnone as [|x l Hx _ IH]; [done |].
  by rewrite filter_cons_False.
Qed.

Lemma build_location_country (city : string) (c : candidate) (loc : Location) :
  build_location city c = Ok loc → country_code loc = cand_country_code c.
Proof.
  unfold build_location, float_field.
  destruct (cand_latitude c), (cand_longitude c); simpl; try done.
  by intros [= <-].
Qed.

(** C3.  When the geocoding reply has no results [get_lat_lon] raises the
    "no results" error; when it has results but none whose country code
    equals the requested one up to case it raises the "ambiguous" error;
    and a location it returns is always built from a result whose country
    code equals the requested one up to case. *)
Theorem resolve_failures (city cc : string) (w : world) (data : geo_data) :
  geocoding_service (env w) (geocoding_requests w)
    (GeoParams city 10 "es" "json" cc) = Some data →
  let rs := default [] (results data) in
  (rs = [] →
     (get_lat_lon city cc w).1 = Raise (ValueError (NoResultsFound city cc)))
  ∧ (rs ≠ [] →
     Forall (λ x, upper (or_empty (cand_country_code x)) ≠ upper cc) rs →
     (get_lat_lon city cc w).1 =
       Raise (ValueError (GeocodingAmbiguous cc (head rs ≫= cand_name)
                (head rs ≫= cand_country) (head rs ≫= cand_country_code))))
  ∧ (∀ loc, (get_lat_lon city cc w).1 = Ok loc →
       ∃ c, c ∈ rs
            ∧ upper (or_empty (cand_country_code c)) = upper cc
            ∧ build_location city c = Ok loc).
Proof.
  intros Hreply rs. rewrite get_lat_lon_result, Hreply. fold rs.
  split; [| split].
  - by intros ->.
  - intros Hne Hnone. destruct rs as [|r rs'] eqn:Ers; [done |].
    by rewrite choose_none.
  - intros loc. destruct rs as [|r rs'] eqn:Ers; [done |].
    destruct (choose cc (r :: rs')) as [c|e] eqn:Hc; [| done].
    simpl. intros Hloc. exists c.
    by destruct (choose_in_country _ _ _ Hc).
Qed.

(** A reply with one result, in another country than the one requested. *)
Lemma resolve_failures_witness :
  geocoding_service (env (fresh_world (fixed_services
      (Some (GeoData (Some [san_jose_us]))) None) [])) 0
    (GeoParams "San Jose" 10 "es" "json" "CR")
  = Some (GeoData (Some [san_jose_us]))
  ∧ (get_lat_lon "San Jose" "CR"
       (fresh_world (fixed_services (Some (GeoData (Some [san_jose_us]))) None)
          [])).1
    = Raise (ValueError (GeocodingAmbiguous "CR" (Some "San Jose")
               (Some "Estados Unidos") (Some "US"))).
Proof.
  split; [reflexivity |].
  refine (proj1 (proj2 (resolve_failures "San Jose" "CR"
            (fresh_world (fixed_services (Some (GeoData (Some [san_jose_us])))
               None) [])
            (GeoData (Some [san_jose_us])) eq_refl)) _ _).
  - discriminate.
  - repeat constructor. vm_compute. discriminate.
Defined.

(** The points for the country name depend on the candidate alone. *)
Lemma score_country_points (cc : string) (x : candidate) :
  score cc x =
    score cc (without_country x)
    + (if bool_decide (lower (or_empty (cand_country x))
                       ∈ ["costa rica"; "costa rica "]) then 5 else 0).
Proof.
  unfold score, without_country; simpl.
  destruct (bool_decide (upper _ = cc)), (truthy (cand_admin1 x));
    case_bool_decide; simpl; lia.
Qed.

(** C5 (as amended).  The five points go to a candidate exactly when its
    country name, lower-cased, is "costa rica" (with or without a trailing
    blank), whatever country was requested; a candidate with any other
    country name gets nothing for it. *)
Theorem country_bonus_costa_rica (cc : string) (x : candidate) :
  (score cc x = score cc (without_country x) + 5
   ↔ lower (or_empty (cand_country x)) ∈ ["costa rica"; "costa rica "])
  ∧ (lower (or_empty (cand_country x)) ∉ ["costa rica"; "costa rica "] →
     score cc x = score cc (without_country x)).
Proof.
  rewrite (score_country_points cc x).
  case_bool_decide as Hc; (split; [split |]); intros; first [done | lia].
Qed.

(** A Spanish candidate under a request for Spain. *)
Lemma country_bonus_costa_rica_witness :
  (lower (or_empty (cand_country madrid_es)) ∉ ["costa rica"; "costa rica "])
  ∧ score (upper "ES") madrid_es = score (upper "ES") (without_country madrid_es).
Proof.
  assert (lower (or_empty (cand_country madrid_es))
          ∉ ["costa rica"; "costa rica "]) as H.
  { vm_compute. intros H. inversion H as [|? ? ? H1]; subst.
    inversion H1 as [|? ? ? H2]; subst. inversion H2. }
  split; [exact H |].
  exact (proj2 (country_bonus_costa_rica (upper "ES") madrid_es) H).
Defined.

(** C5 (as stated) fails: no naming of countries that tells Spain from
    Costa Rica makes the five points depend on the requested country.  A
    Spanish candidate requested with "ES" gets none, and a candidate named
    "Costa Rica" gets them under a request for "US". *)
Lemma country_bonus_ignores_request :
  score (upper "ES") madrid_es = 11
  ∧ score (upper "US") (Candidate None None (Some "Costa Rica") (Some "US")
                          None None) = 15
  ∧ ¬ ∃ display_name : string → string,
        lower (display_name "ES") ≠ lower (display_name "CR")
        ∧ ∀ cc x, score (upper cc) x = score (upper cc) (without_country x) + 5
                  ↔ lower (or_empty (cand_country x)) = lower (display_name cc).
Proof.
  split; [reflexivity |]. split; [reflexivity |].
  intros (dn & Hne & Hclaim).
  pose (x := Candidate None None (Some (dn "ES")) None None None).
  assert (score (upper "ES") x = score (upper "ES") (without_country x) + 5)
    as Hes by (by apply Hclaim).
  assert (score (upper "CR") x = score (upper "CR") (without_country x) + 5)
    as Hcr.
  { rewrite score_country_points in Hes |- *.
    case_bool_decide; [done | lia]. }
  apply Hclaim in Hcr. by apply Hne.
Qed.

(** A candidate with an administrative region scores one more than the
    same candidate without. *)
Lemma score_admin1_point (cc : string) (a b : candidate) :
  truthy (cand_admin1 a) = true →
  truthy (cand_admin1 b) = false →
  without_admin1 a = without_admin1 b →
  score cc a = S (score cc b).
Proof.
  destruct a, b; unfold without_admin1, score; simpl.
  intros -> -> [= -> -> -> -> ->].
  repeat case_bool_decide; lia.
Qed.

Lemma choose_first_max (cc : string) (rs : list candidate) :
  filter (λ x, upper (or_empty (cand_country_code x)) = upper cc) rs ≠ [] →
  ∃ chosen l1 l2,
    choose cc rs = Ok chosen
    ∧ filter (λ x, upper (or_empty (cand_country_code x)) = upper cc) rs
      = l1 ++ chosen :: l2
    ∧ Forall (λ y, score (upper cc) y < score (upper cc) chosen) l1
    ∧ Forall (λ y, score (upper cc) y ≤ score (upper cc) chosen) l2.
Proof.
  intros Hne. unfold choose.
  destruct (sorted_desc _ _) as [|c rest] eqn:Hs.
  - by apply sorted_desc_nil in Hs.
  - destruct (sorted_desc_head _ _ _ _ Hs) as (l1 & l2 & ? & ? & ?).
    by exists c, l1, l2.
Qed.

Lemma choose_with_admin1 (cc : string) (rs : list candidate) (a b : candidate) :
  truthy (cand_admin1 a) = true →
  truthy (cand_admin1 b) = false →
  without_admin1 a = without_admin1 b →
  filter (λ x, upper (or_empty (cand_country_code x)) = upper cc) rs = [a; b]
  ∨ filter (λ x, upper (or_empty (cand_country_code x)) = upper cc) rs = [b; a] →
  choose cc rs = Ok a.
Proof.
  intros Ha Hb Hab Hcands.
  pose proof (score_admin1_point (upper cc) a b Ha Hb Hab) as Hscore.
  unfold choose. destruct Hcands as [-> | ->]; simpl.
  - destruct (_ <=? _) eqn:Hle; [done |]. apply Nat.leb_gt in Hle. lia.
  - destruct (_ <=? _) eqn:Hle; [| done]. apply Nat.leb_le in Hle. lia.
Qed.

(** C6.  Among the results that pass the country filter, [get_lat_lon]
    builds its location from the first one, in the order of the reply, whose
    score is greatest: every earlier one scores strictly less and every
    later one at most as much.  In particular, when the filter leaves two
    candidates that differ only in that one has an administrative region
    and the other has none, the one with the region is taken, whichever
    comes first. *)
Theorem selection_first_max (city cc : string) (w : world) (data : geo_data) :
  geocoding_service (env w) (geocoding_requests w)
    (GeoParams city 10 "es" "json" cc) = Some data →
  let candidates :=
    filter (λ x, upper (or_empty (cand_country_code x)) = upper cc)
           (default [] (results data)) in
  (candidates ≠ [] →
     ∃ chosen l1 l2,
       candidates = l1 ++ chosen :: l2
       ∧ Forall (λ y, score (upper cc) y < score (upper cc) chosen) l1
       ∧ Forall (λ y, score (upper cc) y ≤ score (upper cc) chosen) l2
       ∧ (get_lat_lon city cc w).1 = build_location city chosen)
  ∧ (∀ a b,
       truthy (cand_admin1 a) = true →
       truthy (cand_admin1 b) = false →
       without_admin1 a = without_admin1 b →
       candidates = [a; b] ∨ candidates = [b; a] →
       (get_lat_lon city cc w).1 = build_location city a).
Proof.
  intros Hreply candidates. rewrite get_lat_lon_result, Hreply.
  subst candidates. destruct (default [] (results data)) as [|r rs'] eqn:Ers.
  { split; [done |]. intros a b _ _ _ [? | ?]; done. }
  split.
  - intros Hne.
    destruct (choose_first_max cc (r :: rs') Hne) as (c & l1 & l2 & Hc & ? & ? & ?).
    exists c, l1, l2. by rewrite Hc.
  - intros a b Ha Hb Hab Hcands.
    by rewrite (choose_with_admin1 cc (r :: rs') a b Ha Hb Hab Hcands).
Qed.

(** Two results in Costa Rica, the one without region first. *)
Lemma selection_first_max_witness :
  geocoding_service
    (env (fresh_world (fixed_services
       (Some (GeoData (Some [san_jose_us; san_jose_cr_plain; san_jose_cr])))
       None) [])) 0
    (GeoParams "San Jose" 10 "es" "json" "cr")
  = Some (GeoData (Some [san_jose_us; san_jose_cr_plain; san_jose_cr]))
  ∧ (get_lat_lon "San Jose" "cr"
       (fresh_world (fixed_services
          (Some (GeoData (Some [san_jose_us; san_jose_cr_plain; san_jose_cr])))
          None) [])).1
    = build_location "San Jose" san_jose_cr.
Proof.
  split; [reflexivity |].
  refine (proj2 (selection_first_max "San Jose" "cr"
            (fresh_world (fixed_services
               (Some (GeoData (Some [san_jose_us; san_jose_cr_plain;
                                      san_jose_cr]))) None) [])
            (GeoData (Some [san_jose_us; san_jose_cr_plain; san_jose_cr]))
            eq_refl) san_jose_cr san_jose_cr_plain _ _ _ _).
  - reflexivity.
  - reflexivity.
  - reflexivity.
  - right. reflexivity.
Defined.

(** ** The country check of the orchestrators *)

Create HintDb safe.

Lemma safe_rbind {A B} (r : result A) (k : A → result B) :
  raises_mismatch r = false →
  (∀ a, raises_mismatch (k a) = false) →
  raises_mismatch (rbind r k) = false.
Proof. destruct r; simpl; auto. Qed.

Lemma safe_getitem (name : string) (df : DataFrame) :
  raises_mismatch (getitem name df) = false.
Proof. unfold getitem. by case_match. Qed.

Lemma safe_setitem (name : string) (col : list value) (df : DataFrame) :
  raises_mismatch (setitem name col df) = false.
Proof. unfold setitem. by case_match. Qed.

Lemma safe_for_each {A B} (f : A → result B) (l : list A) :
  (∀ x, raises_mismatch (f x) = false) →
  raises_mismatch (for_each f l) = false.
Proof.
  intros Hf. induction l as [|x l IH]; [done | simpl].
  apply safe_rbind; [done |]. intros y. by apply safe_rbind.
Qed.

Lemma safe_dropna (subset : list string) (df : DataFrame) :
  raises_mismatch (dropna subset df) = false.
Proof.
  unfold dropna. apply safe_rbind; [| done].
  apply safe_for_each. intros. apply safe_getitem.
Qed.

Lemma safe_coerce_numeric (pd : pandas) (name : string) (df : DataFrame) :
  raises_mismatch (coerce_numeric pd name df) = false.
Proof.
  unfold coerce_numeric. apply safe_rbind; [apply safe_getitem |].
  intros. apply safe_setitem.
Qed.

#[local] Hint Resolve safe_getitem safe_setitem safe_dropna
  safe_coerce_numeric : safe.

Lemma safe_coerce_columns (pd : pandas) (df : DataFrame) :
  raises_mismatch (coerce_columns pd df) = false.
Proof.
  unfold coerce_columns.
  repeat (apply safe_rbind; [by auto with safe | intros]). auto with safe.
Qed.

Lemma safe_transform (pd : pandas) (df : DataFrame) :
  raises_mismatch (transform pd df) = false.
Proof.
  unfold transform. apply safe_rbind; [apply safe_coerce_columns | intros].
  repeat (apply safe_rbind; [by auto with safe | intros]). done.
Qed.

Lemma no_mismatch_ret {A} (a : A) : no_mismatch (ret a).
Proof. by intros w. Qed.

Lemma no_mismatch_lift {A} (r : result A) :
  raises_mismatch r = false → no_mismatch (lift r).
Proof. by intros H w. Qed.

(** Sequencing, with what is known of the value the first part returns. *)
Lemma no_mismatch_bind {A B} (P : A → Prop) (c : M A) (k : A → M B) :
  no_mismatch c →
  (∀ w a w', c w = (Ok a, w') → P a) →
  (∀ a, P a → no_mismatch (k a)) →
  no_mismatch (bind c k).
Proof.
  intros Hc HP Hk w. unfold bind.
  destruct (c w) as [[a|e] w'] eqn:Hcw.
  - by apply (Hk a (HP _ _ _ Hcw)).
  - specialize (Hc w). by rewrite Hcw in Hc.
Qed.

Lemma no_mismatch_bind_any {A B} (c : M A) (k : A → M B) :
  no_mismatch c → (∀ a, no_mismatch (k a)) → no_mismatch (bind c k).
Proof.
  intros Hc Hk. apply (no_mismatch_bind (λ _, True)); auto.
Qed.

Lemma with_retries_returns {A} (P : A → Prop) (task : M A) (n : nat) :
  (∀ w a w', task w = (Ok a, w') → P a) →
  ∀ w a w', with_retries n task w = (Ok a, w') → P a.
Proof.
  intros HP. induction n as [|n IH]; intros w a w'; simpl;
    destruct (task w) as [[a0|e] w0] eqn:Ht; try done;
    try (intros [= <- <-]; eauto).
  apply IH.
Qed.

Lemma no_mismatch_with_retries {A} (task : M A) (n : nat) :
  no_mismatch task → no_mismatch (with_retries n task).
Proof.
  intros Ht. induction n as [|n IH]; intros w; simpl;
    destruct (task w) as [[a0|e] w0] eqn:Hw; try done.
  specialize (Ht w). by rewrite Hw in Ht.
Qed.

Lemma no_mismatch_get_lat_lon (city cc : string) :
  no_mismatch (get_lat_lon city cc).
Proof.
  intros w. rewrite get_lat_lon_result.
  destruct (geocoding_service _ _ _) as [data|]; [| done].
  destruct (default [] (results data)) as [|r rs]; [done |].
  unfold choose. destruct (sorted_desc _ _) as [|c rest]; [done | simpl].
  unfold build_location, float_field.
  by destruct (cand_latitude c), (cand_longitude c).
Qed.

(** A location that [get_lat_lon] returns carries the country code of a
    result that passed the filter. *)
Lemma get_lat_lon_country (city cc : string) (w w' : world) (loc : Location) :
  get_lat_lon city cc w = (Ok loc, w') →
  upper (or_empty (country_code loc)) = upper cc.
Proof.
  intros Hrun. pose proof (get_lat_lon_result city cc w) as Hres.
  rewrite Hrun in Hres. simpl in Hres.
  destruct (geocoding_service _ _ _) as [data|]; [| done].
  destruct (default [] (results data)) as [|r rs]; [done |].
  destruct (choose cc (r :: rs)) as [c|e] eqn:Hc; [| done].
  simpl in Hres. symmetry in Hres.
  rewrite (build_location_country _ _ _ Hres).
  by destruct (choose_in_country _ _ _ Hc).
Qed.

Lemma security_validation_safe (loc : Location) (cc : string) :
  upper (or_empty (country_code loc)) = upper cc →
  raises_mismatch (security_validation loc cc) = false.
Proof.
  unfold security_validation. destruct (country_code loc) as [s|]; [| done].
  simpl. intros Hs. by rewrite bool_decide_eq_false_2 by (by intros ?).
Qed.

Lemma security_validation_passes (loc : Location) (cc : string) :
  cc ≠ "" →
  upper (or_empty (country_code loc)) = upper cc →
  ∃ s, country_code loc = Some s ∧ upper s = upper cc
       ∧ security_validation loc cc = Ok ().
Proof.
  intros Hcc. unfold security_validation.
  destruct (country_code loc) as [s|]; simpl.
  - intros Hs. exists s. by rewrite bool_decide_eq_false_2 by (by intros ?).
  - intros Hs. symmetry in Hs. by apply upper_eq_empty in Hs.
Qed.

Lemma no_mismatch_fetch_hourly_weather (lat lon : Qc) (tz vars : string) :
  no_mismatch (fetch_hourly_weather lat lon tz vars).
Proof.
  intros w. unfold fetch_hourly_weather. simpl.
  by destruct (forecast_service _ _ _).
Qed.

Lemma no_mismatch_to_staging_df (wj : weather_json) (loc : Location) (tz : string) :
  no_mismatch (to_staging_df wj loc tz).
Proof.
  unfold to_staging_df. apply no_mismatch_bind_any.
  - apply no_mismatch_lift. unfold DataFrame_of_dict, hourly_columns.
    by case_match.
  - intros df. apply no_mismatch_bind_any; [done |].
    intros now. apply no_mismatch_ret.
Qed.

Lemma no_mismatch_create_index (unique : bool) (name : string) :
  no_mismatch (create_index unique name).
Proof. intros w. unfold create_index. by case_match. Qed.

Lemma no_mismatch_load_to_mongo (df : DataFrame) :
  no_mismatch (load_to_mongo df).
Proof.
  unfold load_to_mongo. destruct (df_empty df); [apply no_mismatch_ret |].
  apply no_mismatch_bind_any.
  { intros w. unfold get_mongo_client. by case_match. }
  intros _. apply no_mismatch_bind_any.
  { intros w. unfold ping. by case_match. }
  intros _. apply no_mismatch_bind_any.
  { unfold ensure_indexes.
    repeat (apply no_mismatch_bind_any; [apply no_mismatch_create_index | intros _]).
    apply no_mismatch_create_index. }
  intros _. apply no_mismatch_bind_any.
  { apply no_mismatch_lift, safe_for_each. intros d.
    unfold upsert_op, dict_get.
    by destruct (d !! "location_name"), (d !! "time"). }
  intros ops. apply no_mismatch_bind_any.
  { intros w. unfold bulk_write.
    destruct (bulk_failure _ _) as [[k []]|]; by destruct (run_ops _ _ _ _). }
  intros res. apply no_mismatch_ret.
Qed.

(** What follows the country check in both orchestrators cannot raise the
    check's error. *)
Lemma no_mismatch_run_pipeline (pd : pandas) (city cc tz : string) :
  no_mismatch (run_pipeline pd city cc tz).
Proof.
  unfold run_pipeline.
  apply (no_mismatch_bind
           (λ loc, upper (or_empty (country_code loc)) = upper cc)).
  { apply no_mismatch_get_lat_lon. }
  { intros w loc w'. apply get_lat_lon_country. }
  intros loc Hloc. apply no_mismatch_bind_any.
  { by apply no_mismatch_lift, security_validation_safe. }
  intros _. apply no_mismatch_bind_any.
  { apply no_mismatch_fetch_hourly_weather. }
  intros wj. apply no_mismatch_bind_any.
  { apply no_mismatch_to_staging_df. }
  intros staging. apply no_mismatch_bind_any.
  { apply no_mismatch_lift, safe_transform. }
  intros curated. apply no_mismatch_bind_any.
  { apply no_mismatch_load_to_mongo. }
  intros r. apply no_mismatch_ret.
Qed.

Lemma no_mismatch_weather_etl_flow (pd : pandas) (city cc tz : string) :
  no_mismatch (weather_etl_flow pd city cc tz).
Proof.
  unfold weather_etl_flow. apply no_mismatch_bind_any; [done |]. intros _.
  apply (no_mismatch_bind
           (λ loc, upper (or_empty (country_code loc)) = upper cc)).
  { apply no_mismatch_with_retries, no_mismatch_get_lat_lon. }
  { apply with_retries_returns. intros w loc w'. apply get_lat_lon_country. }
  intros loc Hloc. apply no_mismatch_bind_any.
  { by apply no_mismatch_lift, security_validation_safe. }
  intros _. apply no_mismatch_bind_any.
  { apply no_mismatch_with_retries, no_mismatch_bind_any.
    - apply no_mismatch_fetch_hourly_weather.
    - intros wj. by destruct (hourly wj). }
  intros wj. apply no_mismatch_bind_any.
  { apply no_mismatch_with_retries, no_mismatch_to_staging_df. }
  intros staging. apply no_mismatch_bind_any.
  { apply no_mismatch_with_retries, no_mismatch_lift, safe_transform. }
  intros curated. apply no_mismatch_bind_any.
  { apply no_mismatch_with_retries, no_mismatch_load_to_mongo. }
  intros r. apply no_mismatch_ret.
Qed.

(** C10.  For a requested country code that is not empty, a location that
    [get_lat_lon] returns has a country code equal to the requested one up
    to case, so the check of the orchestrators passes on it; and neither
    [run_pipeline] nor [weather_etl_flow] ever ends in the error of that
    check. *)
Theorem resolved_country_matches (pd : pandas) (city cc tz : string) (w : world) :
  cc ≠ "" →
  (∀ loc w', get_lat_lon city cc w = (Ok loc, w') →
     ∃ s, country_code loc = Some s ∧ upper s = upper cc
          ∧ security_validation loc cc = Ok ())
  ∧ raises_mismatch (run_pipeline pd city cc tz w).1 = false
  ∧ raises_mismatch (weather_etl_flow pd city cc tz w).1 = false.
Proof.
  intros Hcc. split; [| split].
  - intros loc w' Hrun.
    apply security_validation_passes; [done |].
    by apply (get_lat_lon_country city cc w w').
  - apply no_mismatch_run_pipeline.
  - apply no_mismatch_weather_etl_flow.
Qed.

(** ** Staging *)

Lemma to_staging_df_result (wj : weather_json) (loc : Location) (tz : string)
    (w : world) :
  (to_staging_df wj loc tz w).1 =
    let? df := DataFrame_of_dict (hourly_columns (hourly_or_empty wj)) in
    Ok (setitem_scalar "ingested_at_utc"
          (VTime (utc_clock (env w) (clock_reads w))) (add_context loc tz df)).
Proof.
  unfold to_staging_df, bind, lift, datetime_now, ret.
  by destruct (DataFrame_of_dict _).
Qed.

(** The context columns leave the rows and the weather columns alone. *)
Lemma staged_weather_columns (loc : Location) (tz : string) (now : value)
    (df : DataFrame) (name : string) :
  name ∈ ["time"; "temperature_2m"; "relative_humidity_2m"; "precipitation";
          "windspeed_10m"] →
  index (setitem_scalar "ingested_at_utc" now (add_context loc tz df)) = index df
  ∧ columns (setitem_scalar "ingested_at_utc" now (add_context loc tz df)) !! name
    = columns df !! name.
Proof.
  intros Hname. split; [done |]. simpl. set_unfold in Hname.
  destruct Hname as [-> | [-> | [-> | [-> | [-> | []]]]]];
    by rewrite !lookup_insert_ne by done.
Qed.

Lemma DataFrame_of_hourly (h : gmap string (list value)) :
  DataFrame_of_dict (hourly_columns h) =
    if bool_decide (Forall (λ kv : string * list value,
                              length kv.2 = length (default [] (h !! "time")))
                           (hourly_columns h))
    then Ok (mkDataFrame (seq 0 (length (default [] (h !! "time"))))
                         (list_to_map (hourly_columns h)))
    else Raise (ValueError ArraysNotSameLength).
Proof.
  unfold DataFrame_of_dict, hourly_columns at 1.
  fold (hourly_columns h).
  destruct (forallb _ _) eqn:Hall.
  - rewrite bool_decide_eq_true_2; [done |].
    apply Forall_forall. intros kv Hkv. rewrite list_elem_of_In in Hkv.
    by apply (proj1 (forallb_forall _ _) Hall), Nat.eqb_eq in Hkv.
  - rewrite bool_decide_eq_false_2; [done |].
    intros Hall'. rewrite <- not_true_iff_false in Hall. apply Hall.
    apply forallb_forall. intros kv Hkv. apply Nat.eqb_eq.
    rewrite <- list_elem_of_In in Hkv.
    by apply (proj1 (Forall_forall _ _) Hall').
Qed.

(** C4 (as amended).  [to_staging_df] reads each missing array as the empty
    list.  When the five lists so read have one length it returns a frame
    with that many rows, labelled from 0, whose five weather columns are
    those lists; when they do not it raises pandas' error on arrays of
    different lengths.  When none of the five arrays is present the frame
    has no rows. *)
Theorem staging_of_missing_arrays (wj : weather_json) (loc : Location)
    (tz : string) (w : world) :
  let h := hourly_or_empty wj in
  let n := length (default [] (h !! "time")) in
  (Forall (λ kv : string * list value, length kv.2 = n) (hourly_columns h) →
     ∃ df, (to_staging_df wj loc tz w).1 = Ok df
           ∧ index df = seq 0 n
           ∧ ∀ name, name ∈ (hourly_columns h).*1 →
               columns df !! name = Some (default [] (h !! name)))
  ∧ (¬ Forall (λ kv : string * list value, length kv.2 = n) (hourly_columns h) →
     (to_staging_df wj loc tz w).1 = Raise (ValueError ArraysNotSameLength))
  ∧ ((∀ name, name ∈ (hourly_columns h).*1 → h !! name = None) →
     ∃ df, (to_staging_df wj loc tz w).1 = Ok df ∧ index df = []).
Proof.
  intros h n. subst n.
  rewrite to_staging_df_result, DataFrame_of_hourly. fold h.
  assert (∀ name, name ∈ (hourly_columns h).*1 →
            (list_to_map (hourly_columns h) : gmap string (list value)) !! name
            = Some (default [] (h !! name))) as Hcols.
  { intros name Hname. unfold hourly_columns in Hname |- *.
    simpl in Hname |- *. set_unfold in Hname.
    destruct Hname as [-> | [-> | [-> | [-> | [-> | []]]]]];
      by simplify_map_eq. }
  split; [| split].
  - intros Hall. rewrite bool_decide_eq_true_2 by done. simpl.
    eexists. split; [done |]. split; [done |].
    intros name Hname.
    rewrite (proj2 (staged_weather_columns loc tz _ _ name Hname)).
    by apply Hcols.
  - intros Hnot. by rewrite bool_decide_eq_false_2.
  - intros Hnone.
    assert (Forall (λ kv : string * list value,
                      length kv.2 = length (default [] (h !! "time")))
                   (hourly_columns h)) as Hall.
    { unfold hourly_columns in Hnone |- *. simpl in Hnone.
      rewrite !Hnone by set_solver. by repeat constructor. }
    rewrite bool_decide_eq_true_2 by done. simpl.
    eexists. split; [done |]. simpl.
    rewrite (Hnone "time"); [done |]. unfold hourly_columns. set_solver.
Qed.

(** ** Masks *)

Section select.
Context {A : Type}.
Implicit Types (mask : list bool) (l : list A).

Lemma select_length mask l :
  length mask = length l →
  length (select mask l) + length (filter (λ b : bool, b = false) mask)
  = length l.
Proof.
  revert l. induction mask as [|b mask IH]; intros [|x l]; simpl; try done.
  intros [= Hlen]. specialize (IH l Hlen).
  destruct b.
  - rewrite filter_cons_False by done. simpl. lia.
  - rewrite filter_cons_True by done. simpl. lia.
Qed.

Lemma select_length_eq {B} mask l (k : list B) :
  length l = length mask → length k = length mask →
  length (select mask l) = length (select mask k).
Proof.
  revert l k. induction mask as [|b mask IH]; intros [|x l] [|y k];
    simpl; try done.
  intros [= Hl] [= Hk]. destruct b; simpl; auto.
Qed.

Lemma select_sublist mask l : select mask l `sublist_of` l.
Proof.
  revert l. induction mask as [|b mask IH]; intros [|x l]; simpl;
    try by apply sublist_nil_l.
  destruct b; [by apply sublist_skip | by apply sublist_cons].
Qed.

Lemma select_fmap {B} (f : A → B) mask l :
  select mask (f <$> l) = f <$> select mask l.
Proof.
  revert l. induction mask as [|b mask IH]; intros [|x l]; simpl; try done.
  destruct b; simpl; by rewrite IH.
Qed.

Lemma elem_of_select mask l (x : A) :
  x ∈ select mask l ↔ ∃ i, mask !! i = Some true ∧ l !! i = Some x.
Proof.
  revert l. induction mask as [|b mask IH]; intros [|y l]; simpl.
  - split; [by intros ?%elem_of_nil | by intros (i & ? & ?)].
  - split; [by intros ?%elem_of_nil | by intros (i & ? & ?)].
  - split; [by intros ?%elem_of_nil | by intros (i & ? & ?)].
  - destruct b.
    + rewrite elem_of_cons, IH. split.
      * intros [-> | (i & ? & ?)]; [by exists 0 | by exists (S i)].
      * intros ([|i] & Hm & Hl); simpl in *; [left; congruence | right; eauto].
    + rewrite IH. split.
      * intros (i & ? & ?). by exists (S i).
      * intros ([|i] & Hm & Hl); simpl in *; [done | eauto].
Qed.
End select.

Lemma notnull_time_cell (l : list (option datetime)) (i : nat) :
  notnull ((time_cell <$> l) !!! i) = bool_decide (is_Some (mjoin (l !! i))).
Proof.
  rewrite list_lookup_total_alt, list_lookup_fmap.
  by destruct (l !! i) as [[t|]|].
Qed.

Lemma notnull_num_cell (l : list (option Qc)) (i : nat) :
  notnull ((num_cell <$> l) !!! i) = bool_decide (is_Some (mjoin (l !! i))).
Proof.
  rewrite list_lookup_total_alt, list_lookup_fmap.
  by destruct (l !! i) as [[t|]|].
Qed.

Lemma where_notnull_id (df : DataFrame) : where_notnull df = df.
Proof.
  destruct df as [idx cols]. unfold where_notnull. simpl. f_equal.
  rewrite <- (map_fmap_id cols) at 2. apply map_fmap_ext.
  intros name c _. simpl. rewrite <- (map_id c) at 2.
  apply map_ext. by intros [].
Qed.

(** ** Transform *)

Lemma staged_column (df : DataFrame) (name : string) :
  staged df → name ∈ WEATHER_COLUMNS →
  columns df !! name = Some (column name df)
  ∧ length (column name df) = nrows df.
Proof.
  intros [Hwf Hcols] Hname.
  apply (proj1 (Forall_forall _ _) Hcols) in Hname as [c Hc].
  unfold column. rewrite Hc. split; [done |]. by apply (Hwf name).
Qed.

(** The frame after the five coercions. *)
Lemma coerce_columns_result (pd : pandas) (df : DataFrame) :
  length_preserving pd → staged df →
  coerce_columns pd df = Ok (coerced_frame pd df).
Proof.
  intros [Hdt Hnum] Hst.
  destruct (staged_column df "time" Hst) as [Ht Hlt]; [set_solver |].
  destruct (staged_column df "temperature_2m" Hst) as [Hte Hlte]; [set_solver |].
  destruct (staged_column df "relative_humidity_2m" Hst) as [Hh Hlh]; [set_solver |].
  destruct (staged_column df "precipitation" Hst) as [Hp Hlp]; [set_solver |].
  destruct (staged_column df "windspeed_10m" Hst) as [Hw Hlw]; [set_solver |].
  unfold coerce_columns, coerce_numeric, getitem, setitem. simpl.
  rewrite Ht. simpl.
  rewrite length_fmap, Hdt, Hlt, Nat.eqb_refl. simpl.
  rewrite !lookup_insert_ne by done. rewrite Hte. simpl.
  rewrite length_fmap, Hnum, Hlte. unfold nrows at 1. simpl.
  rewrite Nat.eqb_refl. simpl.
  rewrite !lookup_insert_ne by done. rewrite Hh. simpl.
  rewrite length_fmap, Hnum, Hlh. unfold nrows at 1. simpl.
  rewrite Nat.eqb_refl. simpl.
  rewrite !lookup_insert_ne by done. rewrite Hp. simpl.
  rewrite length_fmap, Hnum, Hlp. unfold nrows at 1. simpl.
  rewrite Nat.eqb_refl. simpl.
  rewrite !lookup_insert_ne by done. rewrite Hw. simpl.
  rewrite length_fmap, Hnum, Hlw. unfold nrows at 1. simpl.
  rewrite Nat.eqb_refl. simpl.
  reflexivity.
Qed.

Lemma complete_rows_mask (pd : pandas) (df : DataFrame) :
  notnull_mask (nrows df)
    [time_cell <$> to_datetime pd (column "time" df);
     num_cell <$> to_numeric pd (column "temperature_2m" df)]
  = complete_rows pd df.
Proof.
  unfold notnull_mask, complete_rows. apply map_ext. intros i. simpl.
  unfold complete_row.
  by rewrite notnull_time_cell, notnull_num_cell, andb_true_r.
Qed.

Lemma coerced_frame_well_formed (pd : pandas) (df : DataFrame) :
  length_preserving pd → staged df → well_formed (coerced_frame pd df).
Proof.
  intros [Hdt Hnum] Hst name c. unfold coerced_frame. simpl.
  rewrite !lookup_insert. repeat case_decide; subst.
  - intros [= <-]. rewrite length_fmap, Hnum.
    by apply (staged_column df "windspeed_10m"); [| set_solver].
  - intros [= <-]. rewrite length_fmap, Hnum.
    by apply (staged_column df "precipitation"); [| set_solver].
  - intros [= <-]. rewrite length_fmap, Hnum.
    by apply (staged_column df "relative_humidity_2m"); [| set_solver].
  - intros [= <-]. rewrite length_fmap, Hnum.
    by apply (staged_column df "temperature_2m"); [| set_solver].
  - intros [= <-]. rewrite length_fmap, Hdt.
    by apply (staged_column df "time"); [| set_solver].
  - apply (proj1 Hst name c).
Qed.

(** The curated frame, column by column. *)
Lemma transform_result (pd : pandas) (df : DataFrame) :
  length_preserving pd → staged df →
  transform pd df = Ok (curated_frame pd df).
Proof.
  intros Hpd Hst. unfold transform, curated_frame.
  rewrite (coerce_columns_result pd df Hpd Hst).
  pose proof (coerced_frame_well_formed pd df Hpd Hst) as Hwf.
  assert (length (complete_rows pd df) = nrows df) as Hmask.
  { unfold complete_rows. by rewrite length_map, length_seq. }
  assert (columns (coerced_frame pd df) !! "time"
          = Some (time_cell <$> to_datetime pd (column "time" df))) as Ht.
  { unfold coerced_frame. simpl.
    rewrite ?lookup_insert_ne by done. by rewrite lookup_insert_eq. }
  assert (columns (coerced_frame pd df) !! "temperature_2m"
          = Some (num_cell <$> to_numeric pd (column "temperature_2m" df))) as Hte.
  { unfold coerced_frame. simpl.
    rewrite ?lookup_insert_ne by done. by rewrite lookup_insert_eq. }
  assert (is_Some (columns (coerced_frame pd df) !! "precipitation")) as [cp Hp].
  { unfold coerced_frame. simpl.
    rewrite ?lookup_insert_ne by done. by rewrite lookup_insert_eq. }
  assert (dropna ["time"; "temperature_2m"] (coerced_frame pd df)
          = Ok (mkDataFrame (select (complete_rows pd df) (index df))
                  (select (complete_rows pd df) <$> columns (coerced_frame pd df))))
    as Hdrop.
  { unfold dropna, getitem. cbn [for_each rbind]. rewrite Ht, Hte.
    cbn [rbind].
    change (nrows (coerced_frame pd df)) with (nrows df).
    by rewrite complete_rows_mask. }
  assert (∀ name c, columns (coerced_frame pd df) !! name = Some c →
            length (select (complete_rows pd df) c)
            = length (select (complete_rows pd df) (index df))) as Hsel.
  { intros name c Hc. apply select_length_eq; [| done].
    rewrite Hmask. by apply (Hwf name). }
  unfold column. rewrite Ht, Hp. simpl default.
  revert Ht Hp Hdrop Hsel. generalize (coerced_frame pd df). intros cf Ht Hp Hdrop Hsel.
  cbn [rbind]. rewrite Hdrop. cbn [rbind].
  unfold getitem, setitem, nrows. cbn [columns index].
  rewrite lookup_fmap, Hp. cbn [fmap option_fmap option_map rbind].
  rewrite length_fmap, (Hsel _ _ Hp), Nat.eqb_refl. cbn [rbind columns index].
  rewrite lookup_insert_ne by done. rewrite lookup_fmap, Ht.
  cbn [fmap option_fmap option_map rbind].
  rewrite length_fmap, (Hsel _ _ Ht), Nat.eqb_refl. cbn [rbind columns index].
  rewrite !lookup_insert_ne by done. rewrite lookup_fmap, Ht.
  cbn [fmap option_fmap option_map rbind].
  rewrite length_fmap, (Hsel _ _ Ht), Nat.eqb_refl. cbn [rbind columns index].
  by rewrite where_notnull_id.
Qed.

Lemma select_nil {A} (mask : list bool) : select mask (@nil A) = [].
Proof. by destruct mask as [|[] ?]. Qed.

Lemma complete_rows_lookup (pd : pandas) (df : DataFrame) (i : nat) :
  i < nrows df → complete_rows pd df !! i = Some (complete_row pd df i).
Proof.
  intros Hi. unfold complete_rows. rewrite list_lookup_fmap.
  by rewrite (proj2 (lookup_seq 0 (nrows df) i i)).
Qed.

Lemma complete_rows_true (pd : pandas) (df : DataFrame) (i : nat) :
  complete_rows pd df !! i = Some true → complete_row pd df i = true.
Proof.
  unfold complete_rows. rewrite list_lookup_fmap.
  destruct (seq 0 (nrows df) !! i) as [j|] eqn:Hj; [| done].
  apply lookup_seq in Hj as [-> _]. simpl. congruence.
Qed.

(** The columns of the curated frame that [transform] does not derive. *)
Lemma curated_column (cols : gmap string (list value)) (mask : list bool)
    (h d r : list value) (name : string) :
  name ∉ ["is_rain"; "date"; "hour"] →
  default [] ((<["hour" := h]> (<["date" := d]> (<["is_rain" := r]>
                 (select mask <$> cols)))) !! name)
  = select mask (default [] (cols !! name)).
Proof.
  intros Hname.
  rewrite !lookup_insert_ne by set_solver. rewrite lookup_fmap.
  destruct (cols !! name); simpl; [done | by rewrite select_nil].
Qed.

(** The staged frame of [to_staging_df] is a staged frame. *)
Lemma to_staging_df_staged (wj : weather_json) (loc : Location) (tz : string)
    (w w' : world) (df : DataFrame) :
  to_staging_df wj loc tz w = (Ok df, w') → staged df.
Proof.
  intros Hrun. pose proof (to_staging_df_result wj loc tz w) as Hres.
  rewrite Hrun, DataFrame_of_hourly in Hres. simpl in Hres.
  case_bool_decide as Hall; [| done]. simpl in Hres. injection Hres as ->.
  set (n := length (default [] (hourly_or_empty wj !! "time"))) in *.
  split.
  - unfold hourly_columns in Hall. rewrite !Forall_cons_iff in Hall.
    destruct Hall as (? & ? & ? & ? & ? & _). simpl in *.
    intros name c. unfold nrows. simpl. rewrite length_seq, !lookup_insert.
    repeat case_decide; subst; try (by rewrite lookup_empty);
      intros [= <-]; try done;
      rewrite length_replicate; unfold nrows; simpl; apply length_seq.
  - unfold WEATHER_COLUMNS. repeat constructor; simpl;
      rewrite !lookup_insert_ne by done; unfold hourly_columns; simpl;
      rewrite ?lookup_insert_ne by done; by rewrite lookup_insert_eq.
Qed.

Lemma curated_notnull (pd : pandas) (df : DataFrame) (c : list value)
    (pick : nat → value) :
  (∀ i x, c !! i = Some x → pick i = x) →
  (∀ i, complete_row pd df i = true → notnull (pick i) = true) →
  Forall (λ x, notnull x = true) (select (complete_rows pd df) c).
Proof.
  intros Hpick Hrow. apply Forall_forall. intros x Hx.
  apply elem_of_select in Hx as (i & Hi & Hc).
  rewrite <- (Hpick i x Hc). by apply Hrow, complete_rows_true.
Qed.

Lemma curated_kept (pd : pandas) (df : DataFrame) (name : string) :
  name ∉ ["is_rain"; "date"; "hour"] →
  column name (curated_frame pd df)
  = select (complete_rows pd df) (column name (coerced_frame pd df)).
Proof. intros Hname. unfold column at 1. simpl. by apply curated_column. Qed.

Lemma curated_is_rain (pd : pandas) (df : DataFrame) :
  column "is_rain" (curated_frame pd df)
  = rain_cell <$> select (complete_rows pd df)
                    (column "precipitation" (coerced_frame pd df)).
Proof.
  unfold column at 1. simpl.
  rewrite lookup_insert_ne, lookup_insert_ne by done.
  by rewrite lookup_insert_eq.
Qed.

Lemma coerced_time (pd : pandas) (df : DataFrame) :
  column "time" (coerced_frame pd df)
  = time_cell <$> to_datetime pd (column "time" df).
Proof.
  unfold column at 1, coerced_frame. simpl.
  rewrite ?lookup_insert_ne by done. by rewrite lookup_insert_eq.
Qed.

Lemma coerced_numeric (pd : pandas) (df : DataFrame) (name : string) :
  name ∈ ["temperature_2m"; "relative_humidity_2m"; "precipitation";
          "windspeed_10m"] →
  column name (coerced_frame pd df)
  = num_cell <$> to_numeric pd (column name df).
Proof.
  intros Hname. unfold column at 1, coerced_frame. simpl.
  set_unfold in Hname.
  destruct Hname as [-> | [-> | [-> | [-> | []]]]];
    rewrite ?lookup_insert_ne by done; by rewrite lookup_insert_eq.
Qed.

(** C7.  On a staged frame, with coercions that keep the length of a
    column, [transform] returns a frame whose rows are the rows of the
    input that have both their time and their temperature after coercion:
    the labels are those of the input at the complete positions, in the
    input's order; a row of the input is in the result exactly when it is
    complete; the number of rows is the input's less the number of
    incomplete rows; no time or temperature of the result is null; and
    every column that is not derived holds the coerced cells of the rows
    kept. *)
Theorem transform_drops_null_rows (pd : pandas) (df : DataFrame) :
  length_preserving pd → staged df →
  ∃ out, transform pd df = Ok out
    ∧ index out = select (complete_rows pd df) (index df)
    ∧ nrows out = nrows df - dropped_rows pd df
    ∧ index out `sublist_of` index df
    ∧ (NoDup (index df) →
       ∀ i label, index df !! i = Some label →
         (label ∈ index out ↔ complete_row pd df i = true))
    ∧ Forall (λ x, notnull x = true) (column "time" out)
    ∧ Forall (λ x, notnull x = true) (column "temperature_2m" out)
    ∧ (∀ name, name ∉ ["is_rain"; "date"; "hour"] →
         column name out
         = select (complete_rows pd df) (column name (coerced_frame pd df))).
Proof.
  intros Hpd Hst. exists (curated_frame pd df).
  split; [by apply transform_result |].
  assert (length (complete_rows pd df) = length (index df)) as Hmask.
  { unfold complete_rows. by rewrite length_map, length_seq. }
  split; [done |]. split; [| split; [| split; [| split; [| split]]]].
  - unfold nrows, dropped_rows. simpl.
    pose proof (select_length _ _ Hmask). lia.
  - apply select_sublist.
  - intros Hnodup i label Hi. simpl. rewrite elem_of_select. split.
    + intros (j & Hj & Hl).
      rewrite (NoDup_lookup _ _ _ _ Hnodup Hi Hl).
      by apply complete_rows_true.
    + intros Hrow. exists i. split; [| done].
      rewrite complete_rows_lookup; [by rewrite Hrow |].
      by apply lookup_lt_Some in Hi.
  - rewrite curated_kept by not_among. rewrite coerced_time.
    apply (curated_notnull pd df _
             (λ i, (time_cell <$> to_datetime pd (column "time" df)) !!! i)).
    + intros i x Hx. by apply list_lookup_total_correct.
    + intros i Hrow. rewrite notnull_time_cell.
      unfold complete_row in Hrow. by apply andb_true_iff in Hrow as [-> _].
  - rewrite curated_kept by not_among.
    rewrite coerced_numeric by among.
    apply (curated_notnull pd df _
             (λ i, (num_cell <$> to_numeric pd (column "temperature_2m" df)) !!! i)).
    + intros i x Hx. by apply list_lookup_total_correct.
    + intros i Hrow. rewrite notnull_num_cell.
      unfold complete_row in Hrow. by apply andb_true_iff in Hrow as [_ ->].
  - intros name Hname. by apply curated_kept.
Qed.

(** C8.  In the frame [transform] returns, every row has a precipitation
    cell that is a number or null and an [is_rain] cell that is a boolean,
    and [is_rain] is true exactly when the precipitation, null counting as
    zero, is greater than zero. *)
Theorem is_rain_iff_positive (pd : pandas) (df : DataFrame) :
  length_preserving pd → staged df →
  ∃ out, transform pd df = Ok out
    ∧ length (column "precipitation" out) = nrows out
    ∧ ∀ i p, column "precipitation" out !! i = Some p →
        (p = VNull ∨ ∃ q, p = VNum q)
        ∧ ∃ b, column "is_rain" out !! i = Some (VBool b)
               ∧ (b = true ↔ (0 < number_or_zero p)%Qc).
Proof.
  intros Hpd Hst. exists (curated_frame pd df).
  split; [by apply transform_result |].
  assert (length (complete_rows pd df) = length (index df)) as Hmask.
  { unfold complete_rows. by rewrite length_map, length_seq. }
  rewrite curated_is_rain, curated_kept by not_among.
  rewrite coerced_numeric by among.
  split.
  - unfold nrows. simpl. apply select_length_eq; [| done].
    rewrite length_fmap, (proj2 Hpd), Hmask.
    by apply (staged_column df "precipitation"); [| among].
  - intros i p Hi. rewrite list_lookup_fmap, Hi. simpl.
    assert (p ∈ select (complete_rows pd df)
                  (num_cell <$> to_numeric pd (column "precipitation" df)))
      as Hin by (by eapply list_elem_of_lookup_2).
    apply elem_of_select in Hin as (j & _ & Hj).
    rewrite list_lookup_fmap in Hj.
    destruct (to_numeric pd (column "precipitation" df) !! j) as [[q|]|];
      simpl in Hj; [| | done]; injection Hj as <-.
    + split; [right; by exists q |].
      eexists. split; [done |]. simpl. apply bool_decide_eq_true.
    + split; [by left |].
      exists false. split; [done |]. split; [done |].
      simpl. intros H. by apply Qclt_not_eq in H.
Qed.

(** ** The store *)

Lemma native_time_id (d : gmap string value) : native_time d = d.
Proof.
  unfold native_time, to_pydatetime.
  destruct (d !! "time") as [[| | | |t]|] eqn:Ht; try done.
  by apply insert_id.
Qed.

Lemma keyed_doc_key (d : gmap string value) :
  keyed d →
  d !! "location_name" = Some (doc_key d).1 ∧ d !! "time" = Some (doc_key d).2.
Proof. intros [[ln Hln] [t Ht]]. unfold doc_key, field. by rewrite Hln, Ht. Qed.

Lemma upsert_op_keyed (d : gmap string value) :
  keyed d → upsert_op d = Ok (key_op d).
Proof.
  intros [[ln Hln] [t Ht]]. unfold upsert_op, key_op, dict_get, field.
  by rewrite Hln, Ht.
Qed.

Lemma upsert_op_Ok (d : gmap string value) (op : UpdateOne) :
  upsert_op d = Ok op → keyed d.
Proof.
  unfold upsert_op, dict_get, keyed.
  by destruct (d !! "location_name"), (d !! "time").
Qed.

(** The filter of [key_op d] selects the documents with the key of [d]. *)
Lemma matches_key_op (d o : gmap string value) :
  matches (uo_filter (key_op d)) o ↔ doc_key o = doc_key d.
Proof.
  unfold matches, key_op, doc_key. simpl.
  rewrite map_Forall_insert by done. rewrite map_Forall_singleton.
  split; [by intros [-> ->] | by intros [= -> ->]].
Qed.

(** The fields of the filter add nothing to a keyed record. *)
Lemma union_key_filter (d : gmap string value) :
  keyed d → d ∪ uo_filter (key_op d) = d.
Proof.
  intros Hd. destruct (keyed_doc_key d Hd) as [Hln Ht].
  apply map_eq. intros k. destruct (d !! k) as [v|] eqn:Hk.
  - by rewrite (lookup_union_Some_l _ _ _ _ Hk).
  - rewrite lookup_union_r by done. unfold key_op. simpl.
    rewrite lookup_insert. case_decide; subst; [congruence |].
    rewrite lookup_singleton. case_decide; subst; [congruence | done].
Qed.

(** Merging a record into a document of its key keeps the key. *)
Lemma doc_key_union (d o : gmap string value) :
  keyed d → doc_key o = doc_key d → doc_key (d ∪ o) = doc_key o.
Proof.
  intros Hd Hkey. destruct (keyed_doc_key d Hd) as [Hln Ht].
  rewrite Hkey. unfold doc_key at 1, field.
  rewrite (lookup_union_Some_l _ _ _ _ Hln), (lookup_union_Some_l _ _ _ _ Ht).
  clear. destruct (doc_key d). reflexivity.
Qed.

Section update_one.
Context (d : gmap string value) (Hd : keyed d).
Context (docs : list (gmap string value)).
Context (Hunique : NoDup (doc_key <$> docs)).

(** With a document of the record's key in the collection, the update
    merges the record into that document. *)
Lemma update_one_found (n j : nat) (o : gmap string value)
    (res : BulkWriteResult) :
  docs !! j = Some o → doc_key o = doc_key d →
  update_one n (key_op d) docs res =
    (<[j := d ∪ o]> docs,
     mkBulkWriteResult (S (matched_count res))
       (if bool_decide (d ∪ o = o) then modified_count res
        else S (modified_count res))
       (upserted_ids res)).
Proof.
  intros Hj Hkey. unfold update_one.
  destruct (list_find _ docs) as [[j' o']|] eqn:Hfind.
  - apply list_find_Some in Hfind as (Hj' & Hm & _).
    apply matches_key_op in Hm.
    assert (j' = j) as ->.
    { apply (NoDup_lookup _ _ _ (doc_key d) Hunique);
        rewrite list_lookup_fmap; [rewrite Hj' | rewrite Hj]; simpl;
        congruence. }
    by replace o' with o by congruence.
  - apply list_find_None in Hfind.
    exfalso. apply (proj1 (Forall_forall _ _) Hfind o).
    + by eapply list_elem_of_lookup_2.
    + by apply matches_key_op.
Qed.

(** Without one, the upsert appends the record. *)
Lemma update_one_absent (n : nat) (res : BulkWriteResult) :
  Forall (λ o, doc_key o ≠ doc_key d) docs →
  update_one n (key_op d) docs res =
    (docs ++ [d],
     mkBulkWriteResult (matched_count res) (modified_count res)
       (upserted_ids res ++ [n])).
Proof.
  intros Hnone. unfold update_one.
  destruct (list_find _ docs) as [[j' o']|] eqn:Hfind.
  - apply list_find_Some in Hfind as (Hj' & Hm & _).
    apply matches_key_op in Hm.
    exfalso. apply (proj1 (Forall_forall _ _) Hnone o'); [| done].
    by eapply list_elem_of_lookup_2.
  - simpl. by rewrite union_key_filter.
Qed.
End update_one.

(** What one update of a keyed record does to every document there was. *)
Lemma update_one_documents (d : gmap string value)
    (docs : list (gmap string value)) (n : nat) (res : BulkWriteResult) :
  keyed d → NoDup (doc_key <$> docs) →
  NoDup (doc_key <$> (update_one n (key_op d) docs res).1)
  ∧ ∀ i o, docs !! i = Some o →
      (update_one n (key_op d) docs res).1 !! i
      = Some (if bool_decide (doc_key o = doc_key d) then d ∪ o else o).
Proof.
  intros Hd Hunique.
  destruct (decide (Forall (λ o, doc_key o ≠ doc_key d) docs)) as [Hnone|Hsome].
  - rewrite (update_one_absent d Hd docs n res Hnone). simpl. split.
    + rewrite fmap_app. simpl. apply NoDup_app.
      split; [done |]. split; [| apply NoDup_singleton].
      intros k Hk ->%list_elem_of_singleton.
      apply list_elem_of_fmap in Hk as (o & Hko & Ho).
      by apply (proj1 (Forall_forall _ _) Hnone o).
    + intros i o Hi.
      rewrite lookup_app_l by (by eapply lookup_lt_Some).
      rewrite bool_decide_eq_false_2; [done |].
      apply (proj1 (Forall_forall _ _) Hnone o).
      by eapply list_elem_of_lookup_2.
  - apply not_Forall_Exists in Hsome; [| apply _].
    apply Exists_exists in Hsome as (o' & Ho' & Hkey).
    assert (doc_key o' = doc_key d) as Hkey'
      by (destruct (decide (doc_key o' = doc_key d)); [done | by destruct Hkey]).
    apply list_elem_of_lookup in Ho' as [j Hj].
    rewrite (update_one_found d docs Hunique n j o' res Hj Hkey'). simpl.
    assert (doc_key <$> <[j := d ∪ o']> docs = doc_key <$> docs) as Hkeys.
    { rewrite list_fmap_insert, (doc_key_union d o' Hd Hkey').
      apply list_insert_id. by rewrite list_lookup_fmap, Hj. }
    split; [by rewrite Hkeys |].
    intros i o Hi. destruct (decide (i = j)) as [-> | Hne].
    + assert (o = o') as -> by congruence.
      rewrite (list_lookup_insert_eq _ _ _ (lookup_lt_Some _ _ _ Hj)).
      by rewrite bool_decide_eq_true_2.
    + rewrite list_lookup_insert_ne by done. rewrite Hi.
      rewrite bool_decide_eq_false_2; [done |].
      intros Hsame. apply Hne.
      apply (NoDup_lookup _ _ _ (doc_key d) Hunique);
        rewrite list_lookup_fmap; [rewrite Hi | rewrite Hj]; simpl; congruence.
Qed.

Lemma doc_key_merged (d o : gmap string value) :
  keyed d →
  doc_key (if bool_decide (doc_key o = doc_key d) then d ∪ o else o) = doc_key o.
Proof.
  intros Hd. case_bool_decide; [| done]. by apply doc_key_union.
Qed.

(** A batch of keyed records leaves, where a document was, that document
    with the records of its key merged into it. *)
Lemma run_ops_documents (rs : list (gmap string value))
    (docs : list (gmap string value)) (n : nat) (res : BulkWriteResult)
    (i : nat) (o : gmap string value) :
  Forall keyed rs → NoDup (doc_key <$> docs) → docs !! i = Some o →
  (run_ops n (key_op <$> rs) docs res).1 !! i = Some (merged (doc_key o) rs o).
Proof.
  intros Hrs. revert docs n res o.
  induction Hrs as [|d rs Hd _ IH]; intros docs n res o Hunique Hi; [done |].
  change (key_op <$> d :: rs) with (key_op d :: (key_op <$> rs)).
  cbn [run_ops].
  destruct (update_one_documents d docs n res Hd Hunique) as [Hunique' Hdocs'].
  destruct (update_one n (key_op d) docs res) as [docs' res'].
  cbn [fst] in Hunique', Hdocs'. specialize (Hdocs' i o Hi).
  rewrite (IH docs' (S n) res' _ Hunique' Hdocs').
  rewrite doc_key_merged by done.
  change (merged (doc_key o) (d :: rs) o)
    with (merged (doc_key o) rs
            (if bool_decide (doc_key d = doc_key o) then d ∪ o else o)).
  by rewrite (bool_decide_ext (doc_key d = doc_key o) (doc_key o = doc_key d)).
Qed.

Lemma native_records (rs : list (gmap string value)) : native_time <$> rs = rs.
Proof.
  induction rs as [|d rs IH]; [done |].
  rewrite fmap_cons, IH. by rewrite native_time_id.
Qed.

Lemma for_each_upsert_op (rs : list (gmap string value)) :
  match for_each upsert_op rs with
  | Ok ops => Forall keyed rs ∧ ops = key_op <$> rs
  | Raise _ => ¬ Forall keyed rs
  end.
Proof.
  induction rs as [|d rs IH]; simpl; [done |].
  destruct (upsert_op d) as [op|e] eqn:Hop; simpl.
  - pose proof (upsert_op_Ok d op Hop) as Hd.
    rewrite (upsert_op_keyed d Hd) in Hop. injection Hop as <-.
    destruct (for_each upsert_op rs) as [ops|e]; simpl.
    + destruct IH as [Hrs ->]. split; [by constructor | done].
    + intros Hall. apply IH. by inversion Hall.
  - intros Hall. inversion Hall as [|? ? Hd _]; subst.
    by rewrite (upsert_op_keyed d Hd) in Hop.
Qed.

(** The order of a batch: [arrange] gives an order of the list, and every
    order of the list is given by some choices. *)
Lemma arrange_perm {A} (cs : list nat) (l : list A) : arrange cs l ≡ₚ l.
Proof.
  revert cs. induction l as [|x l IH]; intros cs; [done |].
  cbn [arrange]. rewrite <- Permutation_middle, take_drop. by rewrite IH.
Qed.

Lemma arrange_any {A} (l l' : list A) : l' ≡ₚ l → ∃ cs, arrange cs l = l'.
Proof.
  revert l'. induction l as [|x l IH]; intros l' Hp.
  - apply Permutation_nil_r in Hp as ->. by exists [].
  - assert (x ∈ l') as Hx by (rewrite Hp; left).
    apply list_elem_of_split in Hx as (l1 & l2 & ->).
    symmetry in Hp. apply Permutation_cons_app_inv in Hp.
    destruct (IH (l1 ++ l2)) as [cs Hcs]; [done |].
    exists (length l1 :: cs). cbn [arrange hd tail]. rewrite Hcs.
    by rewrite take_app_length, drop_app_length.
Qed.

Lemma arrange_nil {A} (l : list A) : arrange [] l = l.
Proof. induction l as [|x l IH]; [done |]. cbn [arrange hd tail]. by rewrite IH. Qed.

Lemma arrange_fmap {A B} (f : A → B) (cs : list nat) (l : list A) :
  arrange cs (f <$> l) = f <$> arrange cs l.
Proof.
  revert cs. induction l as [|x l IH]; intros cs; [done |].
  rewrite fmap_cons. cbn [arrange]. rewrite IH.
  by rewrite fmap_app, fmap_cons, fmap_take, fmap_drop.
Qed.

Lemma served_perm {A} (w : world) (l : list A) : served w l ≡ₚ l.
Proof. apply arrange_perm. Qed.

Lemma length_served {A} (w : world) (l : list A) : length (served w l) = length l.
Proof. by rewrite served_perm. Qed.

(** A load that gets as far as the batch, the batch being applied in
    full: what it returns and the world it leaves. *)
Lemma load_to_mongo_run (df : DataFrame) (w : world) :
  df_empty df = false →
  truthy (MONGO_URI (env w)) = true →
  mongo_reachable (env w) (mongo_connections w) = true →
  NoDup (doc_key <$> documents (store w)) →
  Forall keyed (to_dict_records df) →
  bulk_failure (env w) (mongo_writes w) = None →
  load_to_mongo df w =
    (Ok (summary
           (matched_count (run_ops 0 (key_op <$> served w (to_dict_records df))
              (documents (store w)) (mkBulkWriteResult 0 0 [])).2)
           (modified_count (run_ops 0 (key_op <$> served w (to_dict_records df))
              (documents (store w)) (mkBulkWriteResult 0 0 [])).2)
           (length (upserted_ids
              (run_ops 0 (key_op <$> served w (to_dict_records df))
                 (documents (store w)) (mkBulkWriteResult 0 0 [])).2))),
     loaded w (run_ops 0 (key_op <$> served w (to_dict_records df))
                 (documents (store w)) (mkBulkWriteResult 0 0 [])).1).
Proof.
  intros Hne Huri Hup Hunique Hkeyed Hbatch.
  unfold load_to_mongo. rewrite Hne.
  unfold bind, get_mongo_client, ping, ensure_indexes, create_index, bind.
  rewrite Huri, Hup. cbn [andb negb store documents].
  rewrite (bool_decide_eq_true_2 _ Hunique). cbn [negb].
  rewrite native_records. unfold lift.
  pose proof (for_each_upsert_op (to_dict_records df)) as Hops.
  destruct (for_each upsert_op (to_dict_records df)) as [ops|e];
    [| by destruct Hops].
  destruct Hops as [_ ->]. unfold bulk_write.
  cbn [env mongo_writes store documents indexes]. rewrite Hbatch.
  rewrite arrange_fmap. fold (served w (to_dict_records df)).
  by destruct (run_ops _ _ _ _) as [docs res].
Qed.

(** Conversely, a load of a frame that is not empty returns only after all
    that. *)
Lemma load_to_mongo_Ok (df : DataFrame) (w w' : world) (r : gmap string nat) :
  df_empty df = false →
  load_to_mongo df w = (Ok r, w') →
  truthy (MONGO_URI (env w)) = true
  ∧ mongo_reachable (env w) (mongo_connections w) = true
  ∧ NoDup (doc_key <$> documents (store w))
  ∧ Forall keyed (to_dict_records df)
  ∧ bulk_failure (env w) (mongo_writes w) = None.
Proof.
  intros Hne. unfold load_to_mongo. rewrite Hne.
  unfold bind, get_mongo_client, ping, ensure_indexes, create_index, bind.
  destruct (truthy (MONGO_URI (env w))); [| done].
  destruct (mongo_reachable (env w) (mongo_connections w)); [| done].
  cbn [andb negb store documents].
  case_bool_decide as Hunique; [| done]. cbn [negb].
  rewrite native_records. unfold lift.
  pose proof (for_each_upsert_op (to_dict_records df)) as Hops.
  destruct (for_each upsert_op (to_dict_records df)) as [ops|e]; [| done].
  destruct Hops as [Hkeyed _]. unfold bulk_write.
  cbn [env mongo_writes store documents indexes].
  destruct (bulk_failure (env w) (mongo_writes w)) as [[k f]|];
    [by destruct (run_ops _ _ _ _) | done].
Qed.

(** C9.  On a frame without rows [load_to_mongo] returns zero for
    [matched], [modified] and [upserted] and leaves the world as it was: no
    connection is counted, no batch is sent, and the collection and its
    indexes are untouched. *)
Theorem load_empty_is_noop (df : DataFrame) (w : world) :
  nrows df = 0 →
  load_to_mongo df w
  = (Ok {[ "matched" := 0; "modified" := 0; "upserted" := 0 ]}, w).
Proof.
  intros Hrows. unfold load_to_mongo, df_empty.
  apply length_zero_iff_nil in Hrows.
  by rewrite (bool_decide_eq_true_2 _ Hrows).
Qed.

(** A frame with the key columns and no rows. *)
Lemma load_empty_is_noop_witness :
  nrows (mkDataFrame [] {[ "location_name" := []; "time" := [] ]}) = 0
  ∧ load_to_mongo (mkDataFrame [] {[ "location_name" := []; "time" := [] ]})
      (fresh_world (fixed_services None None) [])
    = (Ok {[ "matched" := 0; "modified" := 0; "upserted" := 0 ]},
       fresh_world (fixed_services None None) []).
Proof.
  split; [reflexivity |].
  exact (load_empty_is_noop (mkDataFrame [] {[ "location_name" := []; "time" := [] ]})
           (fresh_world (fixed_services None None) []) eq_refl).
Defined.

(** A load of a frame with rows does reach for the server. *)
Lemma load_rows_connects (df : DataFrame) (w : world) :
  df_empty df = false →
  truthy (MONGO_URI (env w)) = true →
  mongo_connections (load_to_mongo df w).2 = S (mongo_connections w).
Proof.
  intros Hne Huri. unfold load_to_mongo. rewrite Hne.
  unfold bind, get_mongo_client, ping, ensure_indexes, create_index, bind.
  rewrite Huri.
  destruct (mongo_reachable (env w) (mongo_connections w)); [| done]. simpl.
  case_bool_decide; [| done]. simpl. unfold lift.
  destruct (for_each upsert_op _); [| done].
  unfold bulk_write. cbn [env mongo_writes store documents indexes].
  destruct (bulk_failure _ _) as [[k f]|]; by destruct (run_ops _ _ _ _).
Qed.

(** The first batch of records with new, distinct keys appends them all. *)
Lemma run_ops_insert (rs docs : list (gmap string value)) (n : nat)
    (res : BulkWriteResult) :
  Forall keyed rs →
  NoDup (doc_key <$> rs) →
  Forall (λ d, Forall (λ o, doc_key o ≠ doc_key d) docs) rs →
  run_ops n (key_op <$> rs) docs res =
    (docs ++ rs,
     mkBulkWriteResult (matched_count res) (modified_count res)
       (upserted_ids res ++ seq n (length rs))).
Proof.
  intros Hrs. revert docs n res.
  induction Hrs as [|d rs Hd _ IH]; intros docs n res Hnd Hnew.
  - simpl. rewrite !app_nil_r. by destruct res.
  - change (key_op <$> d :: rs) with (key_op d :: (key_op <$> rs)).
    cbn [run_ops].
    apply Forall_cons in Hnew as [Hd_new Hnew].
    rewrite fmap_cons in Hnd. apply NoDup_cons in Hnd as [Hd_rs Hnd].
    rewrite (update_one_absent d Hd docs n res Hd_new).
    rewrite IH; [| done |].
    + simpl. by rewrite <- !app_assoc.
    + apply Forall_forall. intros d' Hd'.
      apply Forall_app. split.
      * by apply (proj1 (Forall_forall _ _) Hnew).
      * constructor; [| done]. intros Hsame. apply Hd_rs.
        rewrite Hsame. by apply list_elem_of_fmap_2.
Qed.

(** A batch of records that are all in the collection as they are, in
    whatever order, finds every record in place and changes nothing. *)
Lemma run_ops_again (rs docs : list (gmap string value)) (n : nat)
    (res : BulkWriteResult) :
  Forall keyed rs →
  NoDup (doc_key <$> docs) →
  Forall (λ r, r ∈ docs) rs →
  run_ops n (key_op <$> rs) docs res =
    (docs,
     mkBulkWriteResult (matched_count res + length rs) (modified_count res)
       (upserted_ids res)).
Proof.
  intros Hrs Hnd. revert n res.
  induction Hrs as [|d rs Hd _ IH]; intros n res Hin.
  - simpl. rewrite Nat.add_0_r. by destruct res.
  - apply Forall_cons in Hin as [Hd_in Hin].
    apply list_elem_of_lookup in Hd_in as [j Hj].
    change (key_op <$> d :: rs) with (key_op d :: (key_op <$> rs)).
    cbn [run_ops].
    rewrite (update_one_found d docs Hnd n j d res Hj eq_refl).
    rewrite (idemp_L (∪) d), bool_decide_eq_true_2 by done.
    rewrite list_insert_id by done.
    rewrite (IH (S n) _ Hin). simpl. do 2 f_equal. lia.
Qed.

Lemma length_to_dict_records (df : DataFrame) :
  length (to_dict_records df) = nrows df.
Proof. unfold to_dict_records. by rewrite length_map, length_seq. Qed.

(** Every record of a frame has the columns of the frame as its fields. *)
Lemma record_fields (df : DataFrame) (r : gmap string value) (k : string) :
  r ∈ to_dict_records df → is_Some (r !! k) ↔ is_Some (columns df !! k).
Proof.
  unfold to_dict_records. rewrite list_elem_of_In, in_map_iff.
  intros (i & <- & _). by rewrite lookup_fmap, fmap_is_Some.
Qed.

Lemma merged_other (key : value * value) (rs : list (gmap string value))
    (o : gmap string value) :
  Forall (λ r, doc_key r ≠ key) rs → merged key rs o = o.
Proof.
  intros Hrs. revert o. induction Hrs as [|r rs Hr _ IH]; intros o; [done |].
  unfold merged in *. simpl. by rewrite bool_decide_eq_false_2.
Qed.

(** Where a key occurs once in a list it occurs once in every order of the
    list. *)
Lemma perm_split_once {A} (P : A → Prop) (l l1 l2 : list A) (d : A) :
  l ≡ₚ l1 ++ d :: l2 → Forall P l1 → Forall P l2 →
  ∃ a b, l = a ++ d :: b ∧ Forall P a ∧ Forall P b.
Proof.
  intros Hp H1 H2.
  assert (d ∈ l) as Hd by (rewrite Hp; set_solver).
  apply list_elem_of_split in Hd as (a & b & ->). exists a, b.
  split; [done |]. apply Permutation_app_inv in Hp.
  apply Forall_app. rewrite Hp. by apply Forall_app.
Qed.

(** The document there was, after a batch in which [d] is the one record
    of its key. *)
Lemma merged_only (rs l1 l2 : list (gmap string value))
    (d o : gmap string value) :
  rs ≡ₚ l1 ++ d :: l2 →
  Forall (λ r, doc_key r ≠ doc_key d) l1 →
  Forall (λ r, doc_key r ≠ doc_key d) l2 →
  merged (doc_key d) rs o = d ∪ o.
Proof.
  intros Hp H1 H2.
  destruct (perm_split_once _ _ _ _ _ Hp H1 H2) as (a & b & -> & Ha & Hb).
  unfold merged. rewrite foldl_app. simpl.
  rewrite bool_decide_eq_true_2 by done.
  fold (merged (doc_key d) a o).
  fold (merged (doc_key d) b (d ∪ merged (doc_key d) a o)).
  by rewrite (merged_other _ _ _ Hb), (merged_other _ _ _ Ha).
Qed.

(** C1 (as amended).  A load that reaches the store, and whose batch the
    server applies, merges a record whose key no other record of the frame
    has into the document that has its key: after the load that
    document has every field of the record with the record's value and
    keeps, unchanged, every field it had that the record does not carry,
    in whatever order the server applies the batch. *)
Theorem upsert_merges_fields (df : DataFrame) (w : world)
    (l1 l2 : list (gmap string value)) (d old : gmap string value) (i : nat) :
  df_empty df = false →
  truthy (MONGO_URI (env w)) = true →
  mongo_reachable (env w) (mongo_connections w) = true →
  bulk_failure (env w) (mongo_writes w) = None →
  NoDup (doc_key <$> documents (store w)) →
  Forall keyed (to_dict_records df) →
  to_dict_records df = l1 ++ d :: l2 →
  Forall (λ r, doc_key r ≠ doc_key d) l1 →
  Forall (λ r, doc_key r ≠ doc_key d) l2 →
  documents (store w) !! i = Some old →
  doc_key old = doc_key d →
  ∃ r w', load_to_mongo df w = (Ok r, w')
    ∧ documents (store w') !! i = Some (d ∪ old)
    ∧ (∀ k v, d !! k = Some v → (d ∪ old) !! k = Some v)
    ∧ (∀ k, d !! k = None → (d ∪ old) !! k = old !! k).
Proof.
  intros Hne Huri Hup Hbatch Hunique Hkeyed Hrs Hl1 Hl2 Hi Hkey.
  eexists _, _. split; [by apply load_to_mongo_run |].
  split; [| split].
  - cbn [loaded store documents].
    assert (Forall keyed (served w (to_dict_records df))) as Hkeyed'
      by (by rewrite served_perm).
    rewrite (run_ops_documents _ _ _ _ i old Hkeyed' Hunique Hi).
    rewrite Hkey. f_equal. apply (merged_only _ l1 l2); [| done | done].
    by rewrite served_perm, Hrs.
  - intros k v Hk. by apply lookup_union_Some_l.
  - intros k Hk. by apply lookup_union_r.
Qed.

(** C2 (as amended).  For a frame with rows whose records have pairwise
    distinct keys, none of them in the collection, two loads in a row that
    reach the store and whose batches the server applies give: on the
    first, nothing matched or modified and as many upserts as rows, the
    records being appended to the collection in the order the server
    applied them; on the second, as many matches as rows, nothing
    modified, nothing upserted, and the collection as the first load left
    it. *)
Theorem load_twice (df : DataFrame) (w : world) :
  df_empty df = false →
  Forall keyed (to_dict_records df) →
  NoDup (doc_key <$> to_dict_records df) →
  NoDup (doc_key <$> documents (store w)) →
  Forall (λ d, Forall (λ o, doc_key o ≠ doc_key d) (documents (store w)))
         (to_dict_records df) →
  truthy (MONGO_URI (env w)) = true →
  mongo_reachable (env w) (mongo_connections w) = true →
  mongo_reachable (env w) (S (mongo_connections w)) = true →
  bulk_failure (env w) (mongo_writes w) = None →
  bulk_failure (env w) (S (mongo_writes w)) = None →
  ∃ w1 w2,
    load_to_mongo df w
    = (Ok {[ "matched" := 0; "modified" := 0; "upserted" := nrows df ]}, w1)
    ∧ load_to_mongo df w1
      = (Ok {[ "matched" := nrows df; "modified" := 0; "upserted" := 0 ]}, w2)
    ∧ (∃ rs, rs ≡ₚ to_dict_records df
             ∧ documents (store w1) = documents (store w) ++ rs)
    ∧ documents (store w2) = documents (store w1).
Proof.
  intros Hne Hkeyed Hnd Hunique Hnew Huri Hup1 Hup2 Hbatch1 Hbatch2.
  set (rs := served w (to_dict_records df)).
  assert (rs ≡ₚ to_dict_records df) as Hperm by apply served_perm.
  assert (Forall keyed rs) as Hkeyed1 by (by rewrite Hperm).
  assert (NoDup (doc_key <$> rs)) as Hnd1 by (by rewrite Hperm).
  assert (Forall (λ d, Forall (λ o, doc_key o ≠ doc_key d) (documents (store w)))
                 rs) as Hnew1 by (by rewrite Hperm).
  assert (NoDup (doc_key <$> (documents (store w) ++ rs))) as Hboth.
  { rewrite fmap_app. apply NoDup_app. split; [done |]. split; [| done].
    intros k (o & -> & Ho)%list_elem_of_fmap (d & Hk & Hd)%list_elem_of_fmap.
    by apply (proj1 (Forall_forall _ _) (proj1 (Forall_forall _ _) Hnew1 d Hd) o). }
  assert (length rs = nrows df) as Hlen
    by (unfold rs; by rewrite length_served, length_to_dict_records).
  set (docs1 := documents (store w) ++ rs) in *.
  exists (loaded w docs1), (loaded (loaded w docs1) docs1).
  split; [| split; [| split]]; [| | by exists rs | done].
  - rewrite (load_to_mongo_run df w Hne Huri Hup1 Hunique Hkeyed Hbatch1).
    fold rs. rewrite (run_ops_insert _ _ _ _ Hkeyed1 Hnd1 Hnew1). simpl.
    by rewrite length_seq, Hlen.
  - rewrite (load_to_mongo_run df (loaded w docs1) Hne Huri Hup2 Hboth Hkeyed
               Hbatch2).
    cbn [loaded store documents].
    set (rs2 := served (loaded w docs1) (to_dict_records df)).
    assert (rs2 ≡ₚ rs) as Hperm2 by (unfold rs2; by rewrite served_perm, Hperm).
    rewrite (run_ops_again rs2 docs1).
    + simpl. unfold rs2. by rewrite length_served, length_to_dict_records.
    + by rewrite Hperm2.
    + done.
    + rewrite Hperm2. apply Forall_forall. intros r Hr.
      unfold docs1. set_solver.
Qed.

(** ** The samples *)

Example sample_staging_rows : index sample_staging = [0; 1; 2].
Proof. reflexivity. Qed.

Example sample_resolution :
  (get_lat_lon "San Jose" "cr" sample_world).1 = Ok san_jose_location.
Proof. reflexivity. Qed.

Example sample_curated_rows :
  index <$> (match transform sample_pandas sample_staging with
             | Ok out => Some out
             | Raise _ => None
             end) = Some [0; 2].
Proof. reflexivity. Qed.

Lemma sample_pandas_length_preserving : length_preserving sample_pandas.
Proof. split; intros c; apply length_map. Qed.

Lemma sample_staging_staged : staged sample_staging.
Proof.
  apply (to_staging_df_staged sample_forecast san_jose_location
           "America/Costa_Rica" sample_world
           (to_staging_df sample_forecast san_jose_location
              "America/Costa_Rica" sample_world).2).
  reflexivity.
Qed.

Lemma one_reading_records : to_dict_records one_reading = [reading 21].
Proof. reflexivity. Qed.

Lemma reading_keyed (t : nat) : keyed (reading t).
Proof. split; eexists; reflexivity. Qed.

(** ** Witnesses and counterexamples *)

(** C4 (as stated) fails: a forecast with two times and no temperature
    array makes [to_staging_df] raise. *)
Lemma staging_partial_arrays_raise :
  hourly_or_empty times_only !! "time"
  = Some [VStr "2024-05-17T00:00"; VStr "2024-05-17T01:00"]
  ∧ hourly_or_empty times_only !! "temperature_2m" = None
  ∧ (to_staging_df times_only san_jose_location "America/Costa_Rica"
       sample_world).1
    = Raise (ValueError ArraysNotSameLength).
Proof. repeat split. Qed.

(** A forecast without an hourly entry. *)
Lemma staging_of_missing_arrays_witness :
  (∀ name, name ∈ (hourly_columns (hourly_or_empty (WeatherJson HourlyAbsent))).*1 →
           hourly_or_empty (WeatherJson HourlyAbsent) !! name = None)
  ∧ ∃ df, (to_staging_df (WeatherJson HourlyAbsent) san_jose_location
             "America/Costa_Rica" sample_world).1 = Ok df
          ∧ index df = [].
Proof.
  assert (∀ name,
            name ∈ (hourly_columns (hourly_or_empty (WeatherJson HourlyAbsent))).*1 →
            hourly_or_empty (WeatherJson HourlyAbsent) !! name = None) as H.
  { intros name _. apply lookup_empty. }
  split; [exact H |].
  exact (proj2 (proj2 (staging_of_missing_arrays (WeatherJson HourlyAbsent)
                         san_jose_location "America/Costa_Rica" sample_world)) H).
Defined.

(** The sample forecast: the hour without temperature is dropped. *)
Lemma transform_drops_null_rows_witness :
  length_preserving sample_pandas
  ∧ staged sample_staging
  ∧ ∃ out, transform sample_pandas sample_staging = Ok out
           ∧ index out = [0; 2]
           ∧ nrows out = 2.
Proof.
  split; [exact sample_pandas_length_preserving |].
  split; [exact sample_staging_staged |].
  destruct (transform_drops_null_rows sample_pandas sample_staging
              sample_pandas_length_preserving sample_staging_staged)
    as (out & Hout & Hindex & Hrows & _).
  exists out. split; [exact Hout |]. split.
  - rewrite Hindex. reflexivity.
  - rewrite Hrows. reflexivity.
Defined.

(** The sample forecast again. *)
Lemma is_rain_iff_positive_witness :
  length_preserving sample_pandas
  ∧ staged sample_staging
  ∧ ∃ out, transform sample_pandas sample_staging = Ok out
           ∧ length (column "precipitation" out) = nrows out.
Proof.
  split; [exact sample_pandas_length_preserving |].
  split; [exact sample_staging_staged |].
  destruct (is_rain_iff_positive sample_pandas sample_staging
              sample_pandas_length_preserving sample_staging_staged)
    as (out & Hout & Hlen & _).
  exists out. split; [exact Hout | exact Hlen].
Defined.

(** A request for "cr" resolved to a result of country code "CR". *)
Lemma resolved_country_matches_witness :
  "cr" ≠ ""
  ∧ (∃ s, country_code san_jose_location = Some s ∧ upper s = upper "cr"
          ∧ security_validation san_jose_location "cr" = Ok ())
  ∧ raises_mismatch (run_pipeline sample_pandas "San Jose" "cr"
                       "America/Costa_Rica" sample_world).1 = false.
Proof.
  assert ("cr" ≠ "") as Hcc by discriminate.
  split; [exact Hcc |].
  destruct (resolved_country_matches sample_pandas "San Jose" "cr"
              "America/Costa_Rica" sample_world Hcc) as (Hloc & Hrun & _).
  split; [| exact Hrun].
  apply (Hloc san_jose_location (get_lat_lon "San Jose" "cr" sample_world).2).
  reflexivity.
Defined.

(** C1 (as stated) fails: a stored document with a field the new record
    does not carry keeps that field, so what is stored after the load is
    not the new record alone. *)
Lemma upsert_keeps_old_fields :
  to_dict_records one_reading = [reading 21]
  ∧ doc_key annotated_reading = doc_key (reading 21)
  ∧ documents (store (load_to_mongo one_reading
                        (mongo_world [annotated_reading])).2)
    = [<["station" := VStr "SJO"]> (reading 21)]
  ∧ (<["station" := VStr "SJO"]> (reading 21)) !! "station" = Some (VStr "SJO")
  ∧ reading 21 !! "station" = None.
Proof. repeat split. Qed.

(** One reading loaded over a stored document of its key. *)
Lemma upsert_merges_fields_witness :
  df_empty one_reading = false
  ∧ truthy (MONGO_URI (env (mongo_world [annotated_reading]))) = true
  ∧ mongo_reachable (env (mongo_world [annotated_reading]))
      (mongo_connections (mongo_world [annotated_reading])) = true
  ∧ bulk_failure (env (mongo_world [annotated_reading]))
      (mongo_writes (mongo_world [annotated_reading])) = None
  ∧ NoDup (doc_key <$> documents (store (mongo_world [annotated_reading])))
  ∧ Forall keyed (to_dict_records one_reading)
  ∧ to_dict_records one_reading = [] ++ reading 21 :: []
  ∧ Forall (λ r, doc_key r ≠ doc_key (reading 21)) []
  ∧ documents (store (mongo_world [annotated_reading])) !! 0
    = Some annotated_reading
  ∧ doc_key annotated_reading = doc_key (reading 21)
  ∧ ∃ r w', load_to_mongo one_reading (mongo_world [annotated_reading])
            = (Ok r, w')
            ∧ documents (store w') !! 0 = Some (reading 21 ∪ annotated_reading).
Proof.
  assert (NoDup (doc_key <$> documents (store (mongo_world [annotated_reading]))))
    as Hnd by apply NoDup_singleton.
  assert (Forall keyed (to_dict_records one_reading)) as Hkeyed.
  { rewrite one_reading_records. constructor; [apply reading_keyed | constructor]. }
  assert (Forall (λ r : gmap string value, doc_key r ≠ doc_key (reading 21)) [])
    as Hl2 by constructor.
  repeat (split; [first [reflexivity | assumption] |]).
  destruct (upsert_merges_fields one_reading (mongo_world [annotated_reading])
              [] [] (reading 21) annotated_reading 0
              eq_refl eq_refl eq_refl eq_refl Hnd Hkeyed eq_refl Hl2 Hl2
              eq_refl eq_refl)
    as (r & w' & Hrun & Hdoc & _).
  exists r, w'. split; [exact Hrun | exact Hdoc].
Defined.

(** With two records of one key in the frame, which of them the document
    holds after the load depends on the order in which the server applies
    the batch. *)
Example shared_key_order_decides :
  documents (store (load_to_mongo two_readings (mongo_world [])).2)
  = [reading 22]
  ∧ documents (store (load_to_mongo two_readings (reversing_world [])).2)
    = [reading 21].
Proof. split; reflexivity. Qed.

(** C2 (as stated) fails: two records of one place and hour, with different
    temperatures, loaded into an empty collection: the first load upserts
    one document, not two, and the second load modifies it twice. *)
Lemma shared_key_breaks_counts :
  df_empty two_readings = false
  ∧ nrows two_readings = 2
  ∧ documents (store (mongo_world [])) = []
  ∧ (load_to_mongo two_readings (mongo_world [])).1
    = Ok {[ "matched" := 1; "modified" := 1; "upserted" := 1 ]}
  ∧ (load_to_mongo two_readings
       (load_to_mongo two_readings (mongo_world [])).2).1
    = Ok {[ "matched" := 2; "modified" := 2; "upserted" := 0 ]}.
Proof. repeat split. Qed.

(** One reading loaded twice into an empty collection. *)
Lemma load_twice_witness :
  df_empty one_reading = false
  ∧ Forall keyed (to_dict_records one_reading)
  ∧ NoDup (doc_key <$> to_dict_records one_reading)
  ∧ NoDup (doc_key <$> documents (store (mongo_world [])))
  ∧ Forall (λ d, Forall (λ o, doc_key o ≠ doc_key d)
                        (documents (store (mongo_world []))))
           (to_dict_records one_reading)
  ∧ truthy (MONGO_URI (env (mongo_world []))) = true
  ∧ mongo_reachable (env (mongo_world []))
      (mongo_connections (mongo_world [])) = true
  ∧ mongo_reachable (env (mongo_world []))
      (S (mongo_connections (mongo_world []))) = true
  ∧ bulk_failure (env (mongo_world [])) (mongo_writes (mongo_world [])) = None
  ∧ bulk_failure (env (mongo_world [])) (S (mongo_writes (mongo_world [])))
    = None
  ∧ ∃ w1 w2,
      load_to_mongo one_reading (mongo_world [])
      = (Ok {[ "matched" := 0; "modified" := 0; "upserted" := 1 ]}, w1)
      ∧ load_to_mongo one_reading w1
        = (Ok {[ "matched" := 1; "modified" := 0; "upserted" := 0 ]}, w2)
      ∧ documents (store w2) = [reading 21].
Proof.
  assert (Forall keyed (to_dict_records one_reading)) as Hkeyed.
  { rewrite one_reading_records. constructor; [apply reading_keyed | constructor]. }
  assert (NoDup (doc_key <$> to_dict_records one_reading)) as Hnd.
  { rewrite one_reading_records. apply NoDup_singleton. }
  assert (NoDup (doc_key <$> documents (store (mongo_world [])))) as Hstore
    by apply NoDup_nil_2.
  assert (Forall (λ d, Forall (λ o, doc_key o ≠ doc_key d)
                          (documents (store (mongo_world []))))
                 (to_dict_records one_reading)) as Hnew.
  { rewrite one_reading_records. repeat constructor. }
  repeat (split; [first [reflexivity | assumption] |]).
  destruct (load_twice one_reading (mongo_world []) eq_refl Hkeyed Hnd Hstore
              Hnew eq_refl eq_refl eq_refl eq_refl eq_refl)
    as (w1 & w2 & H1 & H2 & (rs & Hrs & Hd1) & Hd2).
  exists w1, w2. split; [exact H1 |]. split; [exact H2 |].
  rewrite Hd2, Hd1. rewrite one_reading_records in Hrs.
  by apply Permutation_singleton_r in Hrs as ->.
Defined.

(* ================================================================== *)
(** * Part III.  Further properties of the code                        *)
(* ================================================================== *)

(** ** What each stage does to the world *)

Lemma get_lat_lon_world (city cc : string) (w : world) :
  (get_lat_lon city cc w).2 = with_geocoding_requests (S (geocoding_requests w)) w.
Proof.
  unfold get_lat_lon, bind, requests_get_geocoding, lift, raise.
  destruct (geocoding_service _ _ _) as [data|]; simpl; [| done].
  destruct (default [] (results data)) as [|r rs]; simpl; [done |].
  by destruct (choose cc (r :: rs)).
Qed.

Lemma fetch_hourly_weather_run (lat lon : Qc) (tz vars : string) (w : world) :
  fetch_hourly_weather lat lon tz vars w
  = (http_reply (forecast_service (env w) (forecast_requests w)
                   (ForecastParams lat lon vars tz)),
     with_forecast_requests (S (forecast_requests w)) w).
Proof. done. Qed.

Lemma to_staging_df_world (wj : weather_json) (loc : Location) (tz : string)
    (w : world) :
  (to_staging_df wj loc tz w).2
  = match DataFrame_of_dict (hourly_columns (hourly_or_empty wj)) with
    | Ok _ => with_clock_reads (S (clock_reads w)) w
    | Raise _ => w
    end.
Proof.
  unfold to_staging_df, bind, lift, datetime_now, ret.
  by destruct (DataFrame_of_dict _).
Qed.

(** ** Geocoding, further *)

(** X1.  When exactly one result passes the country filter and it has both
    coordinates, [get_lat_lon] returns the caller's city, that result's
    country code and coordinates as they are, and the name made of its
    non-empty name, region and country. *)
Theorem sole_match_verbatim (city cc : string) (w : world) (data : geo_data)
    (c : candidate) (lat lon : Qc) :
  geocoding_service (env w) (geocoding_requests w)
    (GeoParams city 10 "es" "json" cc) = Some data →
  filter (λ x, upper (or_empty (cand_country_code x)) = upper cc)
         (default [] (results data)) = [c] →
  cand_latitude c = Some lat →
  cand_longitude c = Some lon →
  (get_lat_lon city cc w).1
  = Ok (mkLocation city (cand_country_code c)
          (join ", " (non_empty_pieces [cand_name c; cand_admin1 c; cand_country c]))
          lat lon).
Proof.
  intros Hreply Hone Hlat Hlon. rewrite get_lat_lon_result, Hreply.
  destruct (default [] (results data)) as [|r rs] eqn:Hrs; [done |].
  unfold choose. rewrite Hone. simpl.
  unfold build_location. by rewrite Hlat, Hlon.
Qed.

Lemma sole_match_verbatim_witness :
  geocoding_service (env sample_world) (geocoding_requests sample_world)
    (GeoParams "San Jose" 10 "es" "json" "cr")
  = Some (GeoData (Some [san_jose_us; san_jose_cr]))
  ∧ (get_lat_lon "San Jose" "cr" sample_world).1
    = Ok (mkLocation "San Jose" (Some "CR") "San Jose, San Jose, Costa Rica"
            (Q2Qc (993 # 100)) (Q2Qc (-8408 # 100))).
Proof.
  split; [reflexivity |].
  exact (sole_match_verbatim "San Jose" "cr" sample_world
           (GeoData (Some [san_jose_us; san_jose_cr])) san_jose_cr
           (Q2Qc (993 # 100)) (Q2Qc (-8408 # 100))
           eq_refl eq_refl eq_refl eq_refl).
Defined.

(** X2.  Whatever the reply, [get_lat_lon] sends exactly one geocoding
    request and touches nothing else: no forecast request, no reading of
    the clock, no contact with the store.  A request that fails is raised
    as it is. *)
Theorem geocoding_one_request (city cc : string) (w : world) :
  (get_lat_lon city cc w).2
  = World (env w) (S (geocoding_requests w)) (forecast_requests w)
          (clock_reads w) (mongo_connections w) (mongo_writes w) (store w)
  ∧ (geocoding_service (env w) (geocoding_requests w)
       (GeoParams city 10 "es" "json" cc) = None →
     (get_lat_lon city cc w).1 = Raise RequestException).
Proof.
  split; [apply get_lat_lon_world |].
  intros Hfail. by rewrite get_lat_lon_result, Hfail.
Qed.

Lemma geocoding_one_request_witness :
  geocoding_service (env (mongo_world [])) (geocoding_requests (mongo_world []))
    (GeoParams "San Jose" 10 "es" "json" "CR") = None
  ∧ (get_lat_lon "San Jose" "CR" (mongo_world [])).1 = Raise RequestException.
Proof.
  split; [reflexivity |].
  exact (proj2 (geocoding_one_request "San Jose" "CR" (mongo_world [])) eq_refl).
Defined.

(** ** Staging, further *)

Lemma to_dict_records_lookup (df : DataFrame) (i : nat) (r : gmap string value) :
  to_dict_records df !! i = Some r →
  i < nrows df ∧ ∀ name, r !! name = (λ c : list value, c !!! i) <$> columns df !! name.
Proof.
  unfold to_dict_records. rewrite list_lookup_fmap.
  destruct (seq 0 (nrows df) !! i) as [j|] eqn:Hj; [| done].
  apply lookup_seq in Hj as [-> Hi]. simpl. intros [= <-].
  split; [done |]. intros name. by rewrite lookup_fmap.
Qed.

Lemma record_of_scalar_column (df : DataFrame) (name : string) (v : value)
    (r : gmap string value) :
  columns df !! name = Some (replicate (nrows df) v) →
  r ∈ to_dict_records df → r !! name = Some v.
Proof.
  intros Hcol [i Hi]%list_elem_of_lookup.
  apply to_dict_records_lookup in Hi as [Hlt ->].
  rewrite Hcol. simpl. by rewrite lookup_total_replicate_2.
Qed.

(** The frame [to_staging_df] returns, in terms of the frame of the five
    arrays. *)
Lemma to_staging_df_Ok (wj : weather_json) (loc : Location) (tz : string)
    (w w' : world) (df : DataFrame) :
  to_staging_df wj loc tz w = (Ok df, w') →
  w' = with_clock_reads (S (clock_reads w)) w
  ∧ Forall (λ kv : string * list value,
              length kv.2 = length (default [] (hourly_or_empty wj !! "time")))
           (hourly_columns (hourly_or_empty wj))
  ∧ df = setitem_scalar "ingested_at_utc"
           (VTime (utc_clock (env w) (clock_reads w)))
           (add_context loc tz
              (mkDataFrame (seq 0 (length (default [] (hourly_or_empty wj !! "time"))))
                 (list_to_map (hourly_columns (hourly_or_empty wj))))).
Proof.
  intros Hrun.
  pose proof (to_staging_df_result wj loc tz w) as Hres.
  pose proof (to_staging_df_world wj loc tz w) as Hw.
  rewrite Hrun in Hres, Hw. cbn [fst snd] in Hres, Hw.
  rewrite DataFrame_of_hourly in Hres, Hw.
  case_bool_decide as Hall; [| done]. cbn [rbind] in Hres.
  by injection Hres as ->.
Qed.

(** X3.  Every row of the frame [to_staging_df] returns carries the same
    context: the fields of the location, the time zone, the source tag
    "open-meteo" and one ingestion time, read from the clock once for the
    whole frame; nothing else of the world changes. *)
Theorem staging_stamps_every_row (wj : weather_json) (loc : Location)
    (tz : string) (w w' : world) (df : DataFrame) :
  to_staging_df wj loc tz w = (Ok df, w') →
  w' = World (env w) (geocoding_requests w) (forecast_requests w)
             (S (clock_reads w)) (mongo_connections w) (mongo_writes w) (store w)
  ∧ ∀ r, r ∈ to_dict_records df →
      r !! "location_name" = Some (VStr (location_name loc))
      ∧ r !! "city_input" = Some (VStr (city_input loc))
      ∧ r !! "country_code" = Some (str_or_none (country_code loc))
      ∧ r !! "latitude" = Some (VNum (latitude loc))
      ∧ r !! "longitude" = Some (VNum (longitude loc))
      ∧ r !! "timezone_name" = Some (VStr tz)
      ∧ r !! "source" = Some (VStr "open-meteo")
      ∧ r !! "ingested_at_utc" = Some (VTime (utc_clock (env w) (clock_reads w))).
Proof.
  intros Hrun. destruct (to_staging_df_Ok _ _ _ _ _ _ Hrun) as (-> & _ & ->).
  split; [done |]. intros r Hr.
  repeat split;
    (eapply record_of_scalar_column; [| exact Hr]);
    unfold nrows; simpl; rewrite ?lookup_insert_ne by done;
    by rewrite lookup_insert_eq.
Qed.

Lemma staging_stamps_every_row_witness :
  to_staging_df sample_forecast san_jose_location "America/Costa_Rica" sample_world
  = (Ok sample_staging,
     (to_staging_df sample_forecast san_jose_location "America/Costa_Rica"
        sample_world).2)
  ∧ clock_reads (to_staging_df sample_forecast san_jose_location
                   "America/Costa_Rica" sample_world).2 = 1.
Proof.
  assert (to_staging_df sample_forecast san_jose_location "America/Costa_Rica"
            sample_world
          = (Ok sample_staging,
             (to_staging_df sample_forecast san_jose_location
                "America/Costa_Rica" sample_world).2)) as Hrun by reflexivity.
  split; [exact Hrun |].
  destruct (staging_stamps_every_row _ _ _ _ _ _ Hrun) as [Hw _].
  rewrite Hw. reflexivity.
Defined.

(** X4.  The rows of the frame [to_staging_df] returns are the arrays of
    the forecast read side by side: there are as many rows as times, and
    the row at position [i] holds, under each of the five names, the entry
    at position [i] of the array of that name. *)
Theorem staging_rows_aligned (wj : weather_json) (loc : Location) (tz : string)
    (w w' : world) (df : DataFrame) :
  to_staging_df wj loc tz w = (Ok df, w') →
  nrows df = length (default [] (hourly_or_empty wj !! "time"))
  ∧ length (to_dict_records df) = nrows df
  ∧ ∀ i r name arr v,
      to_dict_records df !! i = Some r →
      name ∈ WEATHER_COLUMNS →
      hourly_or_empty wj !! name = Some arr →
      arr !! i = Some v →
      r !! name = Some v.
Proof.
  intros Hrun. destruct (to_staging_df_Ok _ _ _ _ _ _ Hrun) as (_ & _ & ->).
  split; [unfold nrows; simpl; apply length_seq |].
  split; [apply length_to_dict_records |].
  intros i r name arr v Hr Hname Harr Hv.
  apply to_dict_records_lookup in Hr as [_ ->].
  rewrite (proj2 (staged_weather_columns loc tz _ _ name Hname)). simpl.
  unfold hourly_columns. simpl. set_unfold in Hname.
  destruct Hname as [-> | [-> | [-> | [-> | [-> | []]]]]];
    rewrite ?lookup_insert_ne by done; rewrite lookup_insert_eq, Harr; simpl;
    by rewrite (list_lookup_total_correct _ _ _ Hv).
Qed.

Lemma staging_rows_aligned_witness :
  to_staging_df sample_forecast san_jose_location "America/Costa_Rica" sample_world
  = (Ok sample_staging,
     (to_staging_df sample_forecast san_jose_location "America/Costa_Rica"
        sample_world).2)
  ∧ nrows sample_staging = 3.
Proof.
  assert (to_staging_df sample_forecast san_jose_location "America/Costa_Rica"
            sample_world
          = (Ok sample_staging,
             (to_staging_df sample_forecast san_jose_location
                "America/Costa_Rica" sample_world).2)) as Hrun by reflexivity.
  split; [exact Hrun |].
  destruct (staging_rows_aligned _ _ _ _ _ _ Hrun) as [Hn _].
  rewrite Hn. reflexivity.
Defined.

(** ** Transform, further *)

Lemma curated_date (pd : pandas) (df : DataFrame) :
  column "date" (curated_frame pd df)
  = dt_date_str <$> select (complete_rows pd df) (column "time" (coerced_frame pd df)).
Proof.
  unfold column at 1. simpl.
  rewrite lookup_insert_ne by done. by rewrite lookup_insert_eq.
Qed.

Lemma curated_hour (pd : pandas) (df : DataFrame) :
  column "hour" (curated_frame pd df)
  = dt_hour_int <$> select (complete_rows pd df) (column "time" (coerced_frame pd df)).
Proof. unfold column at 1. simpl. by rewrite lookup_insert_eq. Qed.

Lemma complete_rows_length (pd : pandas) (df : DataFrame) :
  length (complete_rows pd df) = nrows df.
Proof. unfold complete_rows. by rewrite length_map, length_seq. Qed.

(** The time of a row that is kept is a timestamp. *)
Lemma curated_time_cell (pd : pandas) (df : DataFrame) (i : nat) (x : value) :
  select (complete_rows pd df) (time_cell <$> to_datetime pd (column "time" df)) !! i
  = Some x →
  ∃ t, x = VTime t.
Proof.
  intros Hx.
  assert (x ∈ select (complete_rows pd df)
                (time_cell <$> to_datetime pd (column "time" df))) as Hin
    by (by eapply list_elem_of_lookup_2).
  apply elem_of_select in Hin as (j & Hj & Hc).
  apply complete_rows_true in Hj. unfold complete_row in Hj.
  apply andb_true_iff in Hj as [Hj _]. apply bool_decide_eq_true in Hj.
  rewrite list_lookup_fmap in Hc.
  destruct (to_datetime pd (column "time" df) !! j) as [[t|]|];
    simpl in *; try by destruct Hj.
  injection Hc as <-. by exists t.
Qed.

(** X5.  In the frame [transform] returns, every row has a time that is a
    timestamp, and its [date] and [hour] are the calendar date, as text,
    and the hour of that same timestamp. *)
Theorem date_and_hour_of_time (pd : pandas) (df : DataFrame) :
  length_preserving pd → staged df →
  ∃ out, transform pd df = Ok out
    ∧ length (column "time" out) = nrows out
    ∧ ∀ i x, column "time" out !! i = Some x →
        ∃ t, x = VTime t
             ∧ column "date" out !! i = Some (VStr (date_str t))
             ∧ column "hour" out !! i = Some (VNum (of_int (dt_hour t))).
Proof.
  intros Hpd Hst. exists (curated_frame pd df).
  split; [by apply transform_result |].
  rewrite curated_date, curated_hour, curated_kept by not_among.
  rewrite coerced_time. split.
  - unfold nrows. simpl.
    apply select_length_eq; [| by rewrite complete_rows_length].
    rewrite length_fmap, (proj1 Hpd), complete_rows_length.
    by apply (staged_column df "time"); [| among].
  - intros i x Hx. destruct (curated_time_cell pd df i x Hx) as [t ->].
    exists t. split; [done |]. by rewrite !list_lookup_fmap, Hx.
Qed.

Lemma date_and_hour_of_time_witness :
  length_preserving sample_pandas
  ∧ staged sample_staging
  ∧ ∃ out, transform sample_pandas sample_staging = Ok out
           ∧ length (column "time" out) = nrows out.
Proof.
  split; [exact sample_pandas_length_preserving |].
  split; [exact sample_staging_staged |].
  destruct (date_and_hour_of_time sample_pandas sample_staging
              sample_pandas_length_preserving sample_staging_staged)
    as (out & Hout & Hlen & _).
  exists out. split; [exact Hout | exact Hlen].
Defined.

Lemma curated_well_formed (pd : pandas) (df : DataFrame) :
  length_preserving pd → staged df → well_formed (curated_frame pd df).
Proof.
  intros Hpd Hst.
  pose proof (coerced_frame_well_formed pd df Hpd Hst) as Hwf.
  assert (∀ c : list value, length c = nrows df →
            length (select (complete_rows pd df) c)
            = nrows (curated_frame pd df)) as Hsel.
  { intros c Hc. unfold nrows in Hc |- *. simpl.
    apply select_length_eq; [| by rewrite complete_rows_length].
    by rewrite Hc, complete_rows_length. }
  assert (is_Some (columns (coerced_frame pd df) !! "time")) as [ct Ht].
  { unfold coerced_frame. simpl.
    rewrite ?lookup_insert_ne by done. by rewrite lookup_insert_eq. }
  assert (is_Some (columns (coerced_frame pd df) !! "precipitation")) as [cp Hp].
  { unfold coerced_frame. simpl.
    rewrite ?lookup_insert_ne by done. by rewrite lookup_insert_eq. }
  intros name c. unfold curated_frame at 1, column. cbn [columns].
  rewrite Ht, Hp. cbn [default from_option id].
  rewrite !lookup_insert. repeat case_decide; subst.
  - intros [= <-]. rewrite length_fmap. apply Hsel. by apply (Hwf "time").
  - intros [= <-]. rewrite length_fmap. apply Hsel. by apply (Hwf "time").
  - intros [= <-]. rewrite length_fmap. apply Hsel. by apply (Hwf "precipitation").
  - rewrite lookup_fmap.
    destruct (columns (coerced_frame pd df) !! name) as [c'|] eqn:Hc'; [| done].
    cbn [fmap option_fmap option_map]. intros [= <-]. apply Hsel.
    by apply (Hwf name).
Qed.

Lemma coerced_frame_dom (pd : pandas) (df : DataFrame) :
  staged df → dom (columns (coerced_frame pd df)) = dom (columns df).
Proof.
  intros [_ Hcols]. unfold coerced_frame. cbn [columns]. rewrite !dom_insert_L.
  assert (∀ name, name ∈ WEATHER_COLUMNS → {[name]} ∪ dom (columns df) = dom (columns df))
    as Hin.
  { intros name Hname. apply subseteq_union_1_L, singleton_subseteq_l, elem_of_dom.
    by apply (proj1 (Forall_forall _ _) Hcols). }
  rewrite (Hin "time") by among.
  rewrite (Hin "temperature_2m") by among.
  rewrite (Hin "relative_humidity_2m") by among.
  rewrite (Hin "precipitation") by among.
  by rewrite (Hin "windspeed_10m") by among.
Qed.

(** X6.  [transform] keeps every column of the staged frame and adds
    exactly [is_rain], [date] and [hour]; in the frame it returns every
    column has one cell per row. *)
Theorem transform_columns (pd : pandas) (df : DataFrame) :
  length_preserving pd → staged df →
  ∃ out, transform pd df = Ok out
    ∧ dom (columns out) = {[ "is_rain"; "date"; "hour" ]} ∪ dom (columns df)
    ∧ well_formed out.
Proof.
  intros Hpd Hst. exists (curated_frame pd df).
  split; [by apply transform_result |].
  split; [| by apply curated_well_formed].
  unfold curated_frame. cbn [columns].
  rewrite !dom_insert_L, dom_fmap_L, (coerced_frame_dom pd df Hst).
  by rewrite !(assoc_L (∪)).
Qed.

Lemma transform_columns_witness :
  length_preserving sample_pandas
  ∧ staged sample_staging
  ∧ ∃ out, transform sample_pandas sample_staging = Ok out ∧ well_formed out.
Proof.
  split; [exact sample_pandas_length_preserving |].
  split; [exact sample_staging_staged |].
  destruct (transform_columns sample_pandas sample_staging
              sample_pandas_length_preserving sample_staging_staged)
    as (out & Hout & _ & Hwf).
  exists out. split; [exact Hout | exact Hwf].
Defined.

Lemma getitem_missing (name : string) (df : DataFrame) :
  columns df !! name = None → getitem name df = Raise (KeyError name).
Proof. unfold getitem. by intros ->. Qed.

Lemma coerce_numeric_missing (pd : pandas) (name : string) (out : DataFrame) :
  columns out !! name = None → coerce_numeric pd name out = Raise (KeyError name).
Proof. unfold coerce_numeric, getitem. by intros ->. Qed.

Lemma coerce_numeric_present (pd : pandas) (name : string) (out : DataFrame)
    (c : list value) :
  length_preserving pd → columns out !! name = Some c → length c = nrows out →
  coerce_numeric pd name out
  = Ok (mkDataFrame (index out)
          (<[name := num_cell <$> to_numeric pd c]> (columns out))).
Proof.
  intros [_ Hnum] Hc Hlen. unfold coerce_numeric, getitem, setitem.
  rewrite Hc. cbn [rbind]. by rewrite length_fmap, Hnum, Hlen, Nat.eqb_refl.
Qed.

Lemma coerce_time_present (pd : pandas) (out : DataFrame) (c : list value) :
  length_preserving pd → columns out !! "time" = Some c → length c = nrows out →
  (let? c := getitem "time" out in
   setitem "time" (time_cell <$> to_datetime pd c) out)
  = Ok (mkDataFrame (index out)
          (<["time" := time_cell <$> to_datetime pd c]> (columns out))).
Proof.
  intros [Hdt _] Hc Hlen. unfold getitem, setitem.
  rewrite Hc. cbn [rbind]. by rewrite length_fmap, Hdt, Hlen, Nat.eqb_refl.
Qed.

(** X7.  On a well-formed frame that lacks one of the five weather columns,
    [transform] raises [KeyError] for the first one missing, in the order
    time, temperature, humidity, precipitation, wind speed. *)
Theorem transform_missing_column (pd : pandas) (df : DataFrame)
    (pre post : list string) (name : string) :
  length_preserving pd → well_formed df →
  WEATHER_COLUMNS = pre ++ name :: post →
  Forall (λ n, is_Some (columns df !! n)) pre →
  columns df !! name = None →
  transform pd df = Raise (KeyError name).
Proof.
  intros Hpd Hwf Hsplit Hpre Hmiss. unfold transform, coerce_columns.
  destruct pre as [|n1 pre]; simpl in Hsplit.
  { injection Hsplit as <- _. by rewrite getitem_missing. }
  injection Hsplit as <- Hsplit.
  apply Forall_cons in Hpre as [[c1 Hc1] Hpre].
  pose proof (coerce_time_present pd df c1 Hpd Hc1 (Hwf _ _ Hc1)) as Hstep.
  cbn [rbind] in Hstep |- *.
  destruct (getitem "time" df) as [c|e]; [| done]. cbn [rbind] in Hstep |- *.
  rewrite Hstep. clear Hstep. cbn [rbind].
  destruct pre as [|n2 pre]; simpl in Hsplit.
  { injection Hsplit as <- _.
    rewrite coerce_numeric_missing; [done |].
    cbn [columns]. by rewrite lookup_insert_ne. }
  injection Hsplit as <- Hsplit.
  apply Forall_cons in Hpre as [[c2 Hc2] Hpre].
  rewrite (coerce_numeric_present pd "temperature_2m" _ c2 Hpd);
    [| cbn [columns]; by rewrite lookup_insert_ne | by apply (Hwf _ _ Hc2)].
  cbn [rbind index columns].
  destruct pre as [|n3 pre]; simpl in Hsplit.
  { injection Hsplit as <- _.
    rewrite coerce_numeric_missing; [done |].
    cbn [columns]. by rewrite !lookup_insert_ne. }
  injection Hsplit as <- Hsplit.
  apply Forall_cons in Hpre as [[c3 Hc3] Hpre].
  rewrite (coerce_numeric_present pd "relative_humidity_2m" _ c3 Hpd);
    [| cbn [columns]; by rewrite !lookup_insert_ne | by apply (Hwf _ _ Hc3)].
  cbn [rbind index columns].
  destruct pre as [|n4 pre]; simpl in Hsplit.
  { injection Hsplit as <- _.
    rewrite coerce_numeric_missing; [done |].
    cbn [columns]. by rewrite !lookup_insert_ne. }
  injection Hsplit as <- Hsplit.
  apply Forall_cons in Hpre as [[c4 Hc4] Hpre].
  rewrite (coerce_numeric_present pd "precipitation" _ c4 Hpd);
    [| cbn [columns]; by rewrite !lookup_insert_ne | by apply (Hwf _ _ Hc4)].
  cbn [rbind index columns].
  destruct pre as [|n5 pre]; simpl in Hsplit.
  { injection Hsplit as <- _.
    rewrite coerce_numeric_missing; [done |].
    cbn [columns]. by rewrite !lookup_insert_ne. }
  injection Hsplit as _ Hsplit. by destruct pre.
Qed.

Lemma transform_missing_column_witness :
  length_preserving sample_pandas
  ∧ well_formed one_reading
  ∧ columns one_reading !! "relative_humidity_2m" = None
  ∧ transform sample_pandas one_reading = Raise (KeyError "relative_humidity_2m").
Proof.
  assert (well_formed one_reading) as Hwf.
  { intros name c. unfold one_reading. cbn [columns].
    rewrite !lookup_insert, lookup_singleton.
    repeat case_decide; by intros [= <-]. }
  assert (Forall (λ n, is_Some (columns one_reading !! n)) ["time"; "temperature_2m"])
    as Hpre by (repeat constructor; by eexists).
  split; [exact sample_pandas_length_preserving |].
  split; [exact Hwf |]. split; [reflexivity |].
  exact (transform_missing_column sample_pandas one_reading
           ["time"; "temperature_2m"] ["precipitation"; "windspeed_10m"]
           "relative_humidity_2m" sample_pandas_length_preserving Hwf eq_refl
           Hpre eq_refl).
Defined.

Lemma curated_lookup (pd : pandas) (df : DataFrame) (name : string) :
  name ∉ ["is_rain"; "date"; "hour"] →
  columns (curated_frame pd df) !! name
  = select (complete_rows pd df) <$> columns (coerced_frame pd df) !! name.
Proof.
  intros Hname. unfold curated_frame. cbn [columns].
  rewrite !not_elem_of_cons in Hname. destruct Hname as (? & ? & ? & _).
  rewrite !lookup_insert_ne by done. by rewrite lookup_fmap.
Qed.

Lemma coerced_lookup_other (pd : pandas) (df : DataFrame) (name : string) :
  name ∉ WEATHER_COLUMNS →
  columns (coerced_frame pd df) !! name = columns df !! name.
Proof.
  intros Hname. unfold coerced_frame. cbn [columns].
  unfold WEATHER_COLUMNS in Hname. rewrite !not_elem_of_cons in Hname.
  destruct Hname as (? & ? & ? & ? & ? & _).
  by rewrite !lookup_insert_ne by done.
Qed.

Lemma curated_nrows (pd : pandas) (df : DataFrame) :
  nrows (curated_frame pd df) + dropped_rows pd df = nrows df.
Proof.
  unfold nrows, dropped_rows. cbn [index curated_frame].
  apply select_length. by rewrite complete_rows_length.
Qed.

(** A cell of a record of a well-formed frame is a cell of the column. *)
Lemma record_cell (df : DataFrame) (r : gmap string value) (name : string)
    (c : list value) :
  well_formed df → columns df !! name = Some c → r ∈ to_dict_records df →
  ∃ i x, c !! i = Some x ∧ r !! name = Some x.
Proof.
  intros Hwf Hc [i Hi]%list_elem_of_lookup.
  apply to_dict_records_lookup in Hi as [Hlt ->].
  rewrite <- (Hwf _ _ Hc) in Hlt.
  apply lookup_lt_is_Some in Hlt as [x Hx].
  exists i, x. split; [done |].
  by rewrite Hc; simpl; rewrite (list_lookup_total_correct _ _ _ Hx).
Qed.

(** X8.  Staging and transform compose: on every frame [to_staging_df]
    returns, [transform] returns a frame, with no more rows, whose every
    record has the name of the resolved location and a timestamp as its
    time; so every record carries both fields of the key of the store. *)
Theorem staged_frame_transforms (pd : pandas) (wj : weather_json)
    (loc : Location) (tz : string) (w w' : world) (df : DataFrame) :
  length_preserving pd →
  to_staging_df wj loc tz w = (Ok df, w') →
  ∃ out, transform pd df = Ok out
    ∧ nrows out ≤ nrows df
    ∧ ∀ r, r ∈ to_dict_records out →
        r !! "location_name" = Some (VStr (location_name loc))
        ∧ ∃ t, r !! "time" = Some (VTime t).
Proof.
  intros Hpd Hrun.
  pose proof (to_staging_df_staged _ _ _ _ _ _ Hrun) as Hst.
  exists (curated_frame pd df). split; [by apply transform_result |].
  split; [pose proof (curated_nrows pd df); lia |].
  pose proof (curated_well_formed pd df Hpd Hst) as Hwf.
  assert (columns df !! "location_name"
          = Some (replicate (nrows df) (VStr (location_name loc)))) as Hln.
  { destruct (to_staging_df_Ok _ _ _ _ _ _ Hrun) as (_ & _ & ->).
    unfold nrows. simpl. rewrite ?lookup_insert_ne by done.
    by rewrite lookup_insert_eq. }
  assert (columns (coerced_frame pd df) !! "time"
          = Some (time_cell <$> to_datetime pd (column "time" df))) as Ht.
  { unfold coerced_frame. cbn [columns].
    rewrite ?lookup_insert_ne by done. by rewrite lookup_insert_eq. }
  assert (columns (curated_frame pd df) !! "location_name"
          = Some (select (complete_rows pd df)
                    (replicate (nrows df) (VStr (location_name loc))))) as Hcl.
  { rewrite curated_lookup by not_among.
    rewrite coerced_lookup_other by (unfold WEATHER_COLUMNS; not_among).
    by rewrite Hln. }
  assert (columns (curated_frame pd df) !! "time"
          = Some (select (complete_rows pd df)
                    (time_cell <$> to_datetime pd (column "time" df)))) as Hct.
  { rewrite curated_lookup by not_among. by rewrite Ht. }
  intros r Hr. split.
  - destruct (record_cell _ r "location_name" _ Hwf Hcl Hr) as (i & x & Hx & ->).
    assert (x ∈ select (complete_rows pd df)
                  (replicate (nrows df) (VStr (location_name loc)))) as Hin
      by (by eapply list_elem_of_lookup_2).
    apply elem_of_select in Hin as (j & _ & Hj).
    by apply lookup_replicate in Hj as [-> _].
  - destruct (record_cell _ r "time" _ Hwf Hct Hr) as (i & x & Hx & ->).
    destruct (curated_time_cell pd df i x Hx) as [t ->]. by exists t.
Qed.

Lemma staged_frame_transforms_witness :
  length_preserving sample_pandas
  ∧ to_staging_df sample_forecast san_jose_location "America/Costa_Rica" sample_world
    = (Ok sample_staging,
       (to_staging_df sample_forecast san_jose_location "America/Costa_Rica"
          sample_world).2)
  ∧ ∃ out, transform sample_pandas sample_staging = Ok out
           ∧ nrows out ≤ nrows sample_staging.
Proof.
  assert (to_staging_df sample_forecast san_jose_location "America/Costa_Rica"
            sample_world
          = (Ok sample_staging,
             (to_staging_df sample_forecast san_jose_location
                "America/Costa_Rica" sample_world).2)) as Hrun by reflexivity.
  split; [exact sample_pandas_length_preserving |].
  split; [exact Hrun |].
  destruct (staged_frame_transforms sample_pandas _ _ _ _ _ _
              sample_pandas_length_preserving Hrun) as (out & Hout & Hle & _).
  exists out. split; [exact Hout | exact Hle].
Defined.

(** ** The store, further *)

(** [load_to_mongo] step by step. *)
Lemma load_to_mongo_steps (df : DataFrame) (w : world) :
  load_to_mongo df w =
    if df_empty df then (Ok (summary 0 0 0), w)
    else if negb (truthy (MONGO_URI (env w)))
    then (Raise (ValueError MongoUriUndefined), w)
    else if negb (mongo_reachable (env w) (mongo_connections w))
    then (Raise ServerSelectionTimeoutError, (ping w).2)
    else if negb (bool_decide (NoDup (doc_key <$> documents (store w))))
    then (Raise DuplicateKeyError, (ping w).2)
    else match for_each upsert_op (to_dict_records df) with
         | Raise e =>
             (Raise e,
              World (env w) (geocoding_requests w) (forecast_requests w)
                    (clock_reads w) (S (mongo_connections w)) (mongo_writes w)
                    (Collection (documents (store w))
                       ({["idx_city_input"]} ∪ ({["idx_date"]}
                          ∪ ({["uq_location_time"]} ∪ indexes (store w))))))
         | Ok ops =>
             match bulk_failure (env w) (mongo_writes w) with
             | None =>
                 (Ok (summary
                        (matched_count (run_ops 0 (served w ops)
                           (documents (store w)) (mkBulkWriteResult 0 0 [])).2)
                        (modified_count (run_ops 0 (served w ops)
                           (documents (store w)) (mkBulkWriteResult 0 0 [])).2)
                        (length (upserted_ids (run_ops 0 (served w ops)
                           (documents (store w)) (mkBulkWriteResult 0 0 [])).2))),
                  loaded w (run_ops 0 (served w ops) (documents (store w))
                              (mkBulkWriteResult 0 0 [])).1)
             | Some (applied, failure) =>
                 (Raise (batch_exn failure),
                  loaded w (run_ops 0 (take applied (served w ops))
                              (documents (store w))
                              (mkBulkWriteResult 0 0 [])).1)
             end
         end.
Proof.
  unfold load_to_mongo. destruct (df_empty df); [done |].
  unfold bind, get_mongo_client, ping, ensure_indexes, create_index, bind.
  destruct (truthy (MONGO_URI (env w))); [| done]. cbn [negb].
  destruct (mongo_reachable (env w) (mongo_connections w)); [| done].
  cbn [negb store documents].
  case_bool_decide as Hunique; [| done]. cbn [negb andb].
  rewrite native_records. unfold lift.
  destruct (for_each upsert_op (to_dict_records df)) as [ops|e]; [| done].
  unfold bulk_write, served. cbn [env mongo_writes store documents indexes].
  destruct (bulk_failure (env w) (mongo_writes w)) as [[k f]|];
    by destruct (run_ops _ _ _ _).
Qed.

(** The loop that builds the operations raises [KeyError] only. *)
Lemma for_each_upsert_op_raise (rs : list (gmap string value)) (e : exn) :
  for_each upsert_op rs = Raise e → ∃ k, e = KeyError k.
Proof.
  induction rs as [|d rs IH]; simpl; [done |].
  unfold upsert_op at 1, dict_get.
  destruct (d !! "location_name"); simpl; [| intros [= <-]; eauto].
  destruct (d !! "time"); simpl; [| intros [= <-]; eauto].
  destruct (for_each upsert_op rs); simpl; [done |].
  intros [= <-]. by apply IH.
Qed.

Lemma batch_exn_error (f : batch_failure) : batch_error (batch_exn f).
Proof. destruct f; [by left | by right]. Qed.

(** What a load that raises has done: nothing, unless the batch itself
    failed, and then what some of its operations do. *)
Lemma load_to_mongo_raise (df : DataFrame) (w w' : world) (e : exn) :
  load_to_mongo df w = (Raise e, w') →
  env w' = env w
  ∧ ((¬ batch_error e
      ∧ documents (store w') = documents (store w)
      ∧ mongo_writes w' = mongo_writes w)
     ∨ (batch_error e
        ∧ is_Some (bulk_failure (env w) (mongo_writes w))
        ∧ mongo_writes w' = S (mongo_writes w)
        ∧ ∃ applied, applied ⊆+ to_dict_records df
            ∧ documents (store w')
              = (run_ops 0 (key_op <$> applied) (documents (store w))
                   (mkBulkWriteResult 0 0 [])).1)).
Proof.
  rewrite load_to_mongo_steps.
  destruct (df_empty df); [done |].
  destruct (truthy (MONGO_URI (env w))); cbn [negb].
  2: { intros [= <- <-]. split; [done |]. left.
       split; [by intros [|] | done]. }
  destruct (mongo_reachable (env w) (mongo_connections w)) eqn:Hup; cbn [negb].
  2: { intros [= <- <-]. unfold ping. rewrite Hup. split; [done |]. left.
       split; [by intros [|] | done]. }
  case_bool_decide as Hunique; cbn [negb].
  2: { intros [= <- <-]. unfold ping. rewrite Hup. split; [done |]. left.
       split; [by intros [|] | done]. }
  pose proof (for_each_upsert_op (to_dict_records df)) as Hops.
  destruct (for_each upsert_op (to_dict_records df)) as [ops|e0] eqn:Hloop.
  2: { intros [= <- <-]. split; [done |]. left. split; [| done].
       destruct (for_each_upsert_op_raise _ _ Hloop) as [k ->]. by intros [|]. }
  destruct Hops as [Hkeyed ->].
  destruct (bulk_failure (env w) (mongo_writes w)) as [[k f]|] eqn:Hbatch;
    [| done].
  intros [= <- <-]. split; [done |]. right.
  split; [apply batch_exn_error |]. split; [done |]. split; [done |].
  exists (take k (served w (to_dict_records df))). split.
  - rewrite <- (served_perm w (to_dict_records df)) at 2.
    apply sublist_submseteq, sublist_take.
  - cbn [loaded store documents]. unfold served.
    by rewrite arrange_fmap, fmap_take.
Qed.



Lemma pipeline_indexes_union (I : gset string) :
  {["idx_city_input"]} ∪ ({["idx_date"]} ∪ ({["uq_location_time"]} ∪ I))
  = PIPELINE_INDEXES ∪ I.
Proof.
  unfold PIPELINE_INDEXES. apply set_eq. intros x.
  rewrite !elem_of_union. tauto.
Qed.





(** What one upsert does to the counts and to the size of the collection. *)
Lemma update_one_counts (i : nat) (op : UpdateOne)
    (docs : list (gmap string value)) (res : BulkWriteResult) :
  uo_upsert op = true →
  let '(docs', res') := update_one i op docs res in
  matched_count res' + length (upserted_ids res')
  = S (matched_count res + length (upserted_ids res))
  ∧ modified_count res' + matched_count res
    ≤ modified_count res + matched_count res'
  ∧ modified_count res ≤ modified_count res'
  ∧ length docs' + length (upserted_ids res)
    = length docs + length (upserted_ids res').
Proof.
  intros Hup. unfold update_one.
  destruct (list_find _ docs) as [[j old]|]; [| rewrite Hup]; simpl.
  - rewrite length_insert. case_bool_decide; lia.
  - rewrite !length_app. simpl. lia.
Qed.

Lemma run_ops_counts (ops : list UpdateOne) (i : nat)
    (docs : list (gmap string value)) (res : BulkWriteResult) :
  Forall (λ op, uo_upsert op = true) ops →
  matched_count (run_ops i ops docs res).2
  + length (upserted_ids (run_ops i ops docs res).2)
  = matched_count res + length (upserted_ids res) + length ops
  ∧ modified_count (run_ops i ops docs res).2 + matched_count res
    ≤ modified_count res + matched_count (run_ops i ops docs res).2
  ∧ modified_count res ≤ modified_count (run_ops i ops docs res).2
  ∧ length (run_ops i ops docs res).1 + length (upserted_ids res)
    = length docs + length (upserted_ids (run_ops i ops docs res).2).
Proof.
  intros Hops. revert i docs res.
  induction Hops as [|op ops Hop _ IH]; intros i docs res; simpl; [lia |].
  pose proof (update_one_counts i op docs res Hop) as Hone.
  destruct (update_one i op docs res) as [docs' res'].
  specialize (IH (S i) docs' res'). lia.
Qed.

Lemma key_ops_upsert (rs : list (gmap string value)) :
  Forall (λ op, uo_upsert op = true) (key_op <$> rs).
Proof. apply Forall_fmap, Forall_true. by intros r. Qed.

(** What a load that returns returns, and the world it leaves. *)
Lemma load_to_mongo_returns (df : DataFrame) (w w' : world) (r : gmap string nat) :
  df_empty df = false →
  load_to_mongo df w = (Ok r, w') →
  NoDup (doc_key <$> documents (store w))
  ∧ Forall keyed (to_dict_records df)
  ∧ r = summary
          (matched_count (run_ops 0 (key_op <$> served w (to_dict_records df))
             (documents (store w)) (mkBulkWriteResult 0 0 [])).2)
          (modified_count (run_ops 0 (key_op <$> served w (to_dict_records df))
             (documents (store w)) (mkBulkWriteResult 0 0 [])).2)
          (length (upserted_ids
             (run_ops 0 (key_op <$> served w (to_dict_records df))
                (documents (store w)) (mkBulkWriteResult 0 0 [])).2))
  ∧ w' = loaded w (run_ops 0 (key_op <$> served w (to_dict_records df))
                     (documents (store w)) (mkBulkWriteResult 0 0 [])).1.
Proof.
  intros Hne Hrun.
  destruct (load_to_mongo_Ok df w w' r Hne Hrun)
    as (Huri & Hup & Hunique & Hkeyed & Hbatch).
  rewrite (load_to_mongo_run df w Hne Huri Hup Hunique Hkeyed Hbatch) in Hrun.
  by injection Hrun as <- <-.
Qed.

(** X11.  The counts a successful load of a frame that is not empty
    returns add up: every record is either matched or upserted, no more
    documents are modified than matched, and the collection grows by the
    number of upserts. *)
Theorem load_counts_add_up (df : DataFrame) (w w' : world) (r : gmap string nat) :
  df_empty df = false →
  load_to_mongo df w = (Ok r, w') →
  ∃ matched modified upserted,
    r = {[ "matched" := matched; "modified" := modified; "upserted" := upserted ]}
    ∧ matched + upserted = nrows df
    ∧ modified ≤ matched
    ∧ length (documents (store w')) = length (documents (store w)) + upserted.
Proof.
  intros Hne Hrun.
  destruct (load_to_mongo_returns df w w' r Hne Hrun) as (_ & _ & -> & ->).
  pose proof (run_ops_counts (key_op <$> served w (to_dict_records df)) 0
                (documents (store w)) (mkBulkWriteResult 0 0 [])
                (key_ops_upsert _)) as Hc.
  rewrite length_fmap, length_served, length_to_dict_records in Hc.
  simpl in Hc.
  eexists _, _, _. split; [done |]. simpl. lia.
Qed.

Lemma load_counts_add_up_witness :
  df_empty two_readings = false
  ∧ load_to_mongo two_readings (mongo_world [])
    = (Ok {[ "matched" := 1; "modified" := 1; "upserted" := 1 ]},
       (load_to_mongo two_readings (mongo_world [])).2)
  ∧ ∃ matched modified upserted,
      ({[ "matched" := 1; "modified" := 1; "upserted" := 1 ]} : gmap string nat)
      = {[ "matched" := matched; "modified" := modified; "upserted" := upserted ]}
      ∧ matched + upserted = nrows two_readings.
Proof.
  assert (load_to_mongo two_readings (mongo_world [])
          = (Ok {[ "matched" := 1; "modified" := 1; "upserted" := 1 ]},
             (load_to_mongo two_readings (mongo_world [])).2)) as Hrun
    by reflexivity.
  split; [reflexivity |]. split; [exact Hrun |].
  destruct (load_counts_add_up two_readings _ _ _ eq_refl Hrun)
    as (m & md & u & Hr & Hsum & _).
  exists m, md, u. split; [exact Hr | exact Hsum].
Defined.

Lemma run_ops_unique (rs : list (gmap string value))
    (docs : list (gmap string value)) (n : nat) (res : BulkWriteResult) :
  Forall keyed rs → NoDup (doc_key <$> docs) →
  NoDup (doc_key <$> (run_ops n (key_op <$> rs) docs res).1).
Proof.
  intros Hrs. revert docs n res.
  induction Hrs as [|d rs Hd _ IH]; intros docs n res Hunique; [done |].
  change (key_op <$> d :: rs) with (key_op d :: (key_op <$> rs)).
  cbn [run_ops].
  destruct (update_one_documents d docs n res Hd Hunique) as [Hunique' _].
  destruct (update_one n (key_op d) docs res) as [docs' res'].
  by apply IH.
Qed.

Lemma doc_key_merged_all (key : value * value) (rs : list (gmap string value))
    (o : gmap string value) :
  Forall keyed rs → doc_key o = key → doc_key (merged key rs o) = key.
Proof.
  intros Hrs. revert o. induction Hrs as [|d rs Hd _ IH]; intros o Ho; [done |].
  unfold merged in *. simpl. apply IH. case_bool_decide as Hk; [| done].
  rewrite doc_key_union; congruence.
Qed.

Lemma merged_lookup_other (key : value * value) (rs : list (gmap string value))
    (o : gmap string value) (k : string) :
  Forall (λ r, r !! k = None) rs → merged key rs o !! k = o !! k.
Proof.
  intros Hrs. revert o. induction Hrs as [|d rs Hd _ IH]; intros o; [done |].
  unfold merged in *. simpl. rewrite IH. case_bool_decide; [| done].
  by rewrite lookup_union_r.
Qed.

(** X12.  A successful load deletes and re-keys nothing: the keys of the
    collection stay pairwise distinct; every document there was is still
    at its place with the key it had; the fields that are no column of
    the frame are as they were; and a document whose key no record has is
    unchanged. *)
Theorem load_keeps_documents (df : DataFrame) (w w' : world) (r : gmap string nat) :
  df_empty df = false →
  load_to_mongo df w = (Ok r, w') →
  NoDup (doc_key <$> documents (store w'))
  ∧ ∀ i o, documents (store w) !! i = Some o →
      ∃ o', documents (store w') !! i = Some o'
            ∧ doc_key o' = doc_key o
            ∧ (∀ k, columns df !! k = None → o' !! k = o !! k)
            ∧ (Forall (λ d, doc_key d ≠ doc_key o) (to_dict_records df) → o' = o).
Proof.
  intros Hne Hrun.
  destruct (load_to_mongo_returns df w w' r Hne Hrun)
    as (Hunique & Hkeyed & _ & ->).
  cbn [loaded store documents].
  assert (Forall keyed (served w (to_dict_records df))) as Hkeyed'
    by (by rewrite served_perm).
  split; [by apply run_ops_unique |].
  intros i o Hi. exists (merged (doc_key o) (served w (to_dict_records df)) o).
  split; [by apply run_ops_documents |].
  split; [by apply doc_key_merged_all |]. split.
  - intros k Hk. apply merged_lookup_other, Forall_forall. intros d Hd.
    rewrite served_perm in Hd.
    apply eq_None_not_Some. rewrite (record_fields df d k Hd), Hk.
    by intros [? ?].
  - intros Hother. apply merged_other. by rewrite served_perm.
Qed.

Lemma load_keeps_documents_witness :
  df_empty one_reading = false
  ∧ load_to_mongo one_reading (mongo_world [annotated_reading])
    = (Ok {[ "matched" := 1; "modified" := 1; "upserted" := 0 ]},
       (load_to_mongo one_reading (mongo_world [annotated_reading])).2)
  ∧ NoDup (doc_key <$> documents (store (load_to_mongo one_reading
                                           (mongo_world [annotated_reading])).2)).
Proof.
  assert (load_to_mongo one_reading (mongo_world [annotated_reading])
          = (Ok {[ "matched" := 1; "modified" := 1; "upserted" := 0 ]},
             (load_to_mongo one_reading (mongo_world [annotated_reading])).2))
    as Hrun by reflexivity.
  split; [reflexivity |]. split; [exact Hrun |].
  exact (proj1 (load_keeps_documents one_reading _ _ _ eq_refl Hrun)).
Defined.

Lemma run_ops_app (l1 l2 : list UpdateOne) (n : nat)
    (docs : list (gmap string value)) (res : BulkWriteResult) :
  run_ops n (l1 ++ l2) docs res
  = run_ops (n + length l1) l2 (run_ops n l1 docs res).1 (run_ops n l1 docs res).2.
Proof.
  revert n docs res. induction l1 as [|op l1 IH]; intros n docs res; simpl.
  - by rewrite Nat.add_0_r.
  - destruct (update_one n op docs res) as [docs' res'].
    rewrite IH. by rewrite Nat.add_succ_r.
Qed.

(** After the update of a keyed record, a document of its key that holds
    its fields is in the collection. *)
Lemma update_one_stores (d : gmap string value)
    (docs : list (gmap string value)) (n : nat) (res : BulkWriteResult) :
  keyed d → NoDup (doc_key <$> docs) →
  ∃ j x, (update_one n (key_op d) docs res).1 !! j = Some x
         ∧ doc_key x = doc_key d
         ∧ ∀ k v, d !! k = Some v → x !! k = Some v.
Proof.
  intros Hd Hunique.
  destruct (decide (Forall (λ o, doc_key o ≠ doc_key d) docs)) as [Hnone|Hsome].
  - rewrite (update_one_absent d Hd docs n res Hnone). simpl.
    exists (length docs), d. split; [| done].
    by rewrite lookup_app_r, Nat.sub_diag.
  - apply not_Forall_Exists in Hsome; [| apply _].
    apply Exists_exists in Hsome as (o & Ho & Hkey).
    assert (doc_key o = doc_key d) as Hkey'
      by (destruct (decide (doc_key o = doc_key d)); [done | by destruct Hkey]).
    apply list_elem_of_lookup in Ho as [j Hj].
    rewrite (update_one_found d docs Hunique n j o res Hj Hkey'). simpl.
    exists j, (d ∪ o).
    split; [by rewrite (list_lookup_insert_eq _ _ _ (lookup_lt_Some _ _ _ Hj)) |].
    split; [by rewrite doc_key_union |].
    intros k v Hk. by apply lookup_union_Some_l.
Qed.

(** X13.  What is loaded can be found: after a successful load, for every
    record of the frame whose key no other record of the frame has, the
    collection holds a document of that key with every field of the record
    at the record's value, in whatever order the server applied the
    batch. *)
Theorem loaded_records_are_stored (df : DataFrame) (w w' : world)
    (r : gmap string nat) (l1 l2 : list (gmap string value))
    (d : gmap string value) :
  df_empty df = false →
  load_to_mongo df w = (Ok r, w') →
  to_dict_records df = l1 ++ d :: l2 →
  Forall (λ d', doc_key d' ≠ doc_key d) l1 →
  Forall (λ d', doc_key d' ≠ doc_key d) l2 →
  ∃ j x, documents (store w') !! j = Some x
         ∧ doc_key x = doc_key d
         ∧ ∀ k v, d !! k = Some v → x !! k = Some v.
Proof.
  intros Hne Hrun Hrs Hl1 Hl2.
  destruct (load_to_mongo_returns df w w' r Hne Hrun)
    as (Hunique & Hkeyed & _ & ->).
  cbn [loaded store documents].
  assert (served w (to_dict_records df) ≡ₚ l1 ++ d :: l2) as Hperm
    by (by rewrite served_perm, Hrs).
  destruct (perm_split_once _ _ _ _ _ Hperm Hl1 Hl2) as (a & b & Hab & _ & Hb).
  rewrite <- (served_perm w) in Hkeyed. rewrite Hab in Hkeyed |- *.
  apply Forall_app in Hkeyed as [Hk1 Hk2].
  apply Forall_cons in Hk2 as [Hd Hk2].
  rewrite fmap_app, run_ops_app, fmap_cons. cbn [run_ops].
  pose proof (run_ops_unique a (documents (store w)) 0
                (mkBulkWriteResult 0 0 []) Hk1 Hunique) as Hunique1.
  destruct (run_ops 0 (key_op <$> a) (documents (store w))
              (mkBulkWriteResult 0 0 [])) as [docs1 res1].
  cbn [fst snd] in *.
  destruct (update_one_stores d docs1 (0 + length (key_op <$> a)) res1 Hd Hunique1)
    as (j & x & Hj & Hkey & Hfields).
  destruct (update_one_documents d docs1 (0 + length (key_op <$> a)) res1 Hd
              Hunique1) as [Hunique2 _].
  destruct (update_one (0 + length (key_op <$> a)) (key_op d) docs1 res1)
    as [docs2 res2].
  cbn [fst] in *. exists j, x. split; [| done].
  rewrite (run_ops_documents b docs2 _ res2 j x Hk2 Hunique2 Hj).
  f_equal. apply merged_other. by rewrite Hkey.
Qed.

Lemma loaded_records_are_stored_witness :
  df_empty one_reading = false
  ∧ load_to_mongo one_reading (mongo_world [annotated_reading])
    = (Ok {[ "matched" := 1; "modified" := 1; "upserted" := 0 ]},
       (load_to_mongo one_reading (mongo_world [annotated_reading])).2)
  ∧ to_dict_records one_reading = [] ++ reading 21 :: []
  ∧ ∃ j x, documents (store (load_to_mongo one_reading
                               (mongo_world [annotated_reading])).2) !! j
           = Some x
           ∧ doc_key x = doc_key (reading 21)
           ∧ x !! "temperature_2m" = Some (VNum (of_int 21)).
Proof.
  assert (load_to_mongo one_reading (mongo_world [annotated_reading])
          = (Ok {[ "matched" := 1; "modified" := 1; "upserted" := 0 ]},
             (load_to_mongo one_reading (mongo_world [annotated_reading])).2))
    as Hrun by reflexivity.
  assert (to_dict_records one_reading = [] ++ reading 21 :: [])
    as Hrs by reflexivity.
  split; [reflexivity |]. split; [exact Hrun |]. split; [exact Hrs |].
  destruct (loaded_records_are_stored one_reading _ _ _ [] []
              (reading 21) eq_refl Hrun Hrs (Forall_nil_2 _) (Forall_nil_2 _))
    as (j & x & Hj & Hkey & Hfields).
  exists j, x. split; [exact Hj |]. split; [exact Hkey |].
  by apply Hfields.
Defined.

Lemma ensure_indexes_run (w : world) :
  ensure_indexes w =
    if bool_decide (NoDup (doc_key <$> documents (store w)))
    then (Ok (),
          World (env w) (geocoding_requests w) (forecast_requests w)
                (clock_reads w) (mongo_connections w) (mongo_writes w)
                (Collection (documents (store w))
                   (PIPELINE_INDEXES ∪ indexes (store w))))
    else (Raise DuplicateKeyError, w).
Proof.
  unfold ensure_indexes, create_index, bind. cbn [andb negb store documents].
  case_bool_decide; cbn [negb]; [| done].
  cbn [store documents indexes]. by rewrite pipeline_indexes_union.
Qed.

(** X14.  [ensure_indexes] can be run at every load: when it succeeds it
    leaves the documents alone and adds the three indexes of the pipeline
    to those there were, and running it again succeeds and changes
    nothing. *)
Theorem ensure_indexes_idempotent (w w1 : world) :
  ensure_indexes w = (Ok (), w1) →
  documents (store w1) = documents (store w)
  ∧ indexes (store w1) = PIPELINE_INDEXES ∪ indexes (store w)
  ∧ ensure_indexes w1 = (Ok (), w1).
Proof.
  rewrite ensure_indexes_run. case_bool_decide as Hunique; [| done].
  intros [= <-]. split; [done |]. split; [done |].
  rewrite ensure_indexes_run. cbn [store documents indexes].
  rewrite (bool_decide_eq_true_2 _ Hunique). do 3 f_equal.
  apply set_eq. intros x. rewrite !elem_of_union. tauto.
Qed.

Lemma ensure_indexes_idempotent_witness :
  ensure_indexes (mongo_world [reading 20])
  = (Ok (), (ensure_indexes (mongo_world [reading 20])).2)
  ∧ ensure_indexes (ensure_indexes (mongo_world [reading 20])).2
    = (Ok (), (ensure_indexes (mongo_world [reading 20])).2).
Proof.
  assert (ensure_indexes (mongo_world [reading 20])
          = (Ok (), (ensure_indexes (mongo_world [reading 20])).2)) as Hrun
    by reflexivity.
  split; [exact Hrun |].
  exact (proj2 (proj2 (ensure_indexes_idempotent _ _ Hrun))).
Defined.

(** A batch of records over the stored documents of their keys merges each
    record into its document. *)
Lemma run_ops_reload (rs os pre : list (gmap string value)) (n : nat)
    (res : BulkWriteResult) :
  Forall keyed rs →
  Forall2 (λ r o, doc_key o = doc_key r) rs os →
  NoDup (doc_key <$> (pre ++ os)) →
  run_ops n (key_op <$> rs) (pre ++ os) res =
    (pre ++ zip_with (∪) rs os,
     mkBulkWriteResult (matched_count res + length rs)
       (modified_count res + changed rs os) (upserted_ids res)).
Proof.
  intros Hrs Hkeys. revert pre n res Hrs.
  induction Hkeys as [|r o rs os Hkey _ IH]; intros pre n res Hrs Hnd.
  - simpl. rewrite !Nat.add_0_r. by destruct res.
  - apply Forall_cons in Hrs as [Hr Hrs].
    change (key_op <$> r :: rs) with (key_op r :: (key_op <$> rs)).
    cbn [run_ops].
    rewrite (update_one_found r (pre ++ o :: os) Hnd n (length pre) o res);
      [| by rewrite list_lookup_middle | done].
    assert (<[length pre := r ∪ o]> (pre ++ o :: os) = (pre ++ [r ∪ o]) ++ os)
      as ->.
    { rewrite insert_app_r_alt, Nat.sub_diag by done. simpl.
      by rewrite <- app_assoc. }
    rewrite IH; [| done |].
    + simpl. rewrite <- app_assoc. simpl. f_equal. f_equal; [lia |].
      case_bool_decide; lia.
    + rewrite <- app_assoc. simpl.
      rewrite !fmap_app, !fmap_cons in Hnd |- *.
      by rewrite (doc_key_union r o Hr Hkey).
Qed.

(** Merging a record into the document of its key leaves the keys of the
    collection as they are. *)
Lemma keys_insert_merged (d o : gmap string value)
    (docs : list (gmap string value)) (j : nat) :
  keyed d → docs !! j = Some o → doc_key o = doc_key d →
  doc_key <$> <[j := d ∪ o]> docs = doc_key <$> docs.
Proof.
  intros Hd Hj Hkey. rewrite list_fmap_insert, (doc_key_union d o Hd Hkey).
  apply list_insert_id. by rewrite list_lookup_fmap, Hj.
Qed.

Lemma stored_lookup (d : gmap string value) (docs : list (gmap string value)) :
  doc_key d ∈ doc_key <$> docs →
  ∃ j o, docs !! j = Some o ∧ doc_key o = doc_key d.
Proof.
  intros (o & Hkey & Ho)%list_elem_of_fmap.
  apply list_elem_of_lookup in Ho as [j Hj]. by exists j, o.
Qed.

(** For records of pairwise distinct keys that are all in the collection,
    the order of the operations in the batch plays no part. *)
Lemma run_ops_stored_perm (rs rs' : list (gmap string value)) :
  rs ≡ₚ rs' →
  ∀ (docs : list (gmap string value)) (n : nat) (res : BulkWriteResult),
    Forall keyed rs →
    NoDup (doc_key <$> rs) →
    NoDup (doc_key <$> docs) →
    Forall (λ r, doc_key r ∈ doc_key <$> docs) rs →
    run_ops n (key_op <$> rs) docs res = run_ops n (key_op <$> rs') docs res.
Proof.
  induction 1 as [|x l l' Hp IH|x y l|l l' l'' Hp1 IH1 Hp2 IH2];
    intros docs n res Hkeyed Hnd Hunique Hin.
  - done.
  - apply Forall_cons in Hkeyed as [Hx Hkeyed].
    apply Forall_cons in Hin as [Hx_in Hin].
    rewrite fmap_cons in Hnd. apply NoDup_cons in Hnd as [_ Hnd].
    destruct (stored_lookup x docs Hx_in) as (j & o & Hj & Hkey).
    rewrite !fmap_cons. cbn [run_ops].
    rewrite (update_one_found x docs Hunique n j o res Hj Hkey).
    apply IH; try done; by rewrite (keys_insert_merged x o docs j Hx Hj Hkey).
  - apply Forall_cons in Hkeyed as [Hy Hkeyed].
    apply Forall_cons in Hkeyed as [Hx Hkeyed].
    apply Forall_cons in Hin as [Hy_in Hin].
    apply Forall_cons in Hin as [Hx_in Hin].
    rewrite !fmap_cons in Hnd. apply NoDup_cons in Hnd as [Hyx Hnd].
    assert (doc_key x ≠ doc_key y) as Hne
      by (intros Heq; apply Hyx; rewrite Heq; left).
    destruct (stored_lookup x docs Hx_in) as (jx & ox & Hjx & Hkx).
    destruct (stored_lookup y docs Hy_in) as (jy & oy & Hjy & Hky).
    assert (jx ≠ jy) as Hj by (intros ->; congruence).
    rewrite !fmap_cons. cbn [run_ops].
    rewrite (update_one_found y docs Hunique n jy oy res Hjy Hky).
    rewrite (update_one_found x docs Hunique n jx ox res Hjx Hkx).
    rewrite (update_one_found x (<[jy := y ∪ oy]> docs)) with (j := jx) (o := ox);
      [| by rewrite (keys_insert_merged y oy docs jy Hy Hjy Hky)
       | by rewrite list_lookup_insert_ne | done].
    rewrite (update_one_found y (<[jx := x ∪ ox]> docs)) with (j := jy) (o := oy);
      [| by rewrite (keys_insert_merged x ox docs jx Hx Hjx Hkx)
       | by rewrite list_lookup_insert_ne | done].
    cbn [matched_count modified_count upserted_ids].
    rewrite (list_insert_insert_ne _ jx jy) by done.
    do 2 f_equal. repeat case_bool_decide; done.
  - assert (Forall keyed l') by (by rewrite <- Hp1).
    assert (NoDup (doc_key <$> l')) by (by rewrite <- Hp1).
    assert (Forall (λ r, doc_key r ∈ doc_key <$> docs) l') by (by rewrite <- Hp1).
    rewrite IH1 by done. by apply IH2.
Qed.

(** X15.  Loading records whose keys are all stored, document for
    document, the server applying the batch: every record is matched,
    none is upserted, the documents counted as modified are those the
    merge changes, and each stored document becomes the record laid over
    it, in whatever order the server applies the batch. *)
Theorem reload_modifies_changed (df : DataFrame) (w : world)
    (pre os : list (gmap string value)) :
  df_empty df = false →
  truthy (MONGO_URI (env w)) = true →
  mongo_reachable (env w) (mongo_connections w) = true →
  bulk_failure (env w) (mongo_writes w) = None →
  NoDup (doc_key <$> documents (store w)) →
  Forall keyed (to_dict_records df) →
  documents (store w) = pre ++ os →
  Forall2 (λ r o, doc_key o = doc_key r) (to_dict_records df) os →
  ∃ w', load_to_mongo df w
        = (Ok {[ "matched" := nrows df;
                 "modified" := changed (to_dict_records df) os;
                 "upserted" := 0 ]}, w')
        ∧ documents (store w') = pre ++ zip_with (∪) (to_dict_records df) os.
Proof.
  intros Hne Huri Hup Hbatch Hunique Hkeyed Hdocs Hkeys.
  eexists. rewrite (load_to_mongo_run df w Hne Huri Hup Hunique Hkeyed Hbatch).
  rewrite Hdocs in Hunique |- *.
  assert (doc_key <$> to_dict_records df = doc_key <$> os) as Hsame.
  { clear -Hkeys. induction Hkeys as [|r o rs os' Hk _ IH]; [done |].
    rewrite !fmap_cons. congruence. }
  rewrite <- (run_ops_stored_perm (to_dict_records df)
                (served w (to_dict_records df))).
  - rewrite (run_ops_reload _ _ _ _ _ Hkeyed Hkeys Hunique). simpl.
    by rewrite length_to_dict_records.
  - symmetry. apply served_perm.
  - done.
  - rewrite Hsame. rewrite fmap_app in Hunique.
    by apply NoDup_app in Hunique as (_ & _ & Hos).
  - done.
  - apply Forall_forall. intros r Hr.
    rewrite fmap_app, elem_of_app. right. rewrite <- Hsame.
    by apply list_elem_of_fmap_2.
Qed.

Lemma reload_modifies_changed_witness :
  df_empty one_reading = false
  ∧ truthy (MONGO_URI (env (mongo_world [annotated_reading]))) = true
  ∧ mongo_reachable (env (mongo_world [annotated_reading]))
      (mongo_connections (mongo_world [annotated_reading])) = true
  ∧ bulk_failure (env (mongo_world [annotated_reading]))
      (mongo_writes (mongo_world [annotated_reading])) = None
  ∧ NoDup (doc_key <$> documents (store (mongo_world [annotated_reading])))
  ∧ Forall keyed (to_dict_records one_reading)
  ∧ documents (store (mongo_world [annotated_reading])) = [] ++ [annotated_reading]
  ∧ Forall2 (λ r o, doc_key o = doc_key r) (to_dict_records one_reading)
            [annotated_reading]
  ∧ ∃ w', load_to_mongo one_reading (mongo_world [annotated_reading])
          = (Ok {[ "matched" := 1; "modified" := 1; "upserted" := 0 ]}, w').
Proof.
  assert (NoDup (doc_key <$> documents (store (mongo_world [annotated_reading]))))
    as Hnd by apply NoDup_singleton.
  assert (Forall keyed (to_dict_records one_reading)) as Hkeyed.
  { rewrite one_reading_records. constructor; [apply reading_keyed | constructor]. }
  assert (Forall2 (λ r o, doc_key o = doc_key r) (to_dict_records one_reading)
                  [annotated_reading]) as Hkeys.
  { rewrite one_reading_records. constructor; [reflexivity | constructor]. }
  repeat (split; [first [reflexivity | assumption] |]).
  destruct (reload_modifies_changed one_reading (mongo_world [annotated_reading])
              [] [annotated_reading] eq_refl eq_refl eq_refl eq_refl Hnd Hkeyed
              eq_refl Hkeys) as (w' & Hrun & _).
  exists w'. exact Hrun.
Defined.

(** ** The pipeline, further *)

Lemma get_lat_lon_run (city cc : string) (w : world) :
  get_lat_lon city cc w
  = ((get_lat_lon city cc w).1,
     with_geocoding_requests (S (geocoding_requests w)) w).
Proof.
  rewrite <- (get_lat_lon_world city cc w). by destruct (get_lat_lon city cc w).
Qed.

Lemma to_staging_df_run (wj : weather_json) (loc : Location) (tz : string)
    (w : world) (df : DataFrame) :
  (to_staging_df wj loc tz w).1 = Ok df →
  to_staging_df wj loc tz w = (Ok df, with_clock_reads (S (clock_reads w)) w).
Proof.
  intros Hdf. destruct (to_staging_df wj loc tz w) as [res w'] eqn:Hrun.
  cbn [fst] in Hdf. subst res.
  by destruct (to_staging_df_Ok _ _ _ _ _ _ Hrun) as (-> & _).
Qed.

(** The result of [get_lat_lon] depends on the world through the
    geocoding service and the number of requests made so far only. *)
Lemma get_lat_lon_at (city cc : string) (w1 w2 : world) :
  env w1 = env w2 → geocoding_requests w1 = geocoding_requests w2 →
  (get_lat_lon city cc w1).1 = (get_lat_lon city cc w2).1.
Proof. intros He Hn. by rewrite !get_lat_lon_result, He, Hn. Qed.

(** The same for [to_staging_df], with the clock. *)
Lemma to_staging_df_at (wj : weather_json) (loc : Location) (tz : string)
    (w1 w2 : world) :
  env w1 = env w2 → clock_reads w1 = clock_reads w2 →
  (to_staging_df wj loc tz w1).1 = (to_staging_df wj loc tz w2).1.
Proof. intros He Hn. by rewrite !to_staging_df_result, He, Hn. Qed.

(** [run_pipeline], stage by stage, when the first four stages succeed. *)
Lemma run_pipeline_stages (pd : pandas) (city cc tz : string) (w : world)
    (loc : Location) (wj : weather_json) (staging : DataFrame) :
  length_preserving pd →
  cc ≠ "" →
  (get_lat_lon city cc w).1 = Ok loc →
  forecast_service (env w) (forecast_requests w)
    (ForecastParams (latitude loc) (longitude loc) DEFAULT_HOURLY_VARS tz)
  = Some wj →
  (to_staging_df wj loc tz w).1 = Ok staging →
  run_pipeline pd city cc tz w
  = load_to_mongo (curated_frame pd staging)
      (World (env w) (S (geocoding_requests w)) (S (forecast_requests w))
             (S (clock_reads w)) (mongo_connections w) (mongo_writes w)
             (store w)).
Proof.
  intros Hpd Hcc Hloc Hreply Hst.
  pose proof (to_staging_df_run _ _ _ _ _ Hst) as Hrun.
  pose proof (to_staging_df_staged _ _ _ _ _ _ Hrun) as Hstaged.
  unfold run_pipeline, bind. rewrite get_lat_lon_run, Hloc.
  destruct (security_validation_passes loc cc Hcc) as (s & _ & _ & Hsec).
  { apply (get_lat_lon_country city cc w
             (with_geocoding_requests (S (geocoding_requests w)) w)).
    by rewrite get_lat_lon_run, Hloc. }
  unfold lift at 1. rewrite Hsec.
  rewrite fetch_hourly_weather_run. cbn [env forecast_requests with_geocoding_requests].
  rewrite Hreply. cbn [http_reply].
  assert (to_staging_df wj loc tz
            (with_forecast_requests (S (forecast_requests w))
               (with_geocoding_requests (S (geocoding_requests w)) w))
          = (Ok staging,
             with_clock_reads (S (clock_reads w))
               (with_forecast_requests (S (forecast_requests w))
                  (with_geocoding_requests (S (geocoding_requests w)) w))))
    as ->.
  { apply (to_staging_df_run wj loc tz
             (with_forecast_requests (S (forecast_requests w))
                (with_geocoding_requests (S (geocoding_requests w)) w))).
    by rewrite <- Hst; apply to_staging_df_at. }
  unfold lift. rewrite (transform_result pd staging Hpd Hstaged).
  unfold ret.
  by destruct (load_to_mongo (curated_frame pd staging) _) as [[r|e] w'].
Qed.

(** X16.  The stages compose: when the city resolves, the requested
    country code is not empty, the forecast request is answered and its
    five arrays, missing ones read as empty, have one length, then
    [run_pipeline] is [load_to_mongo] on the frame [transform] makes of the
    staged forecast, in the world after one geocoding request, one
    forecast request and one reading of the clock. *)
Theorem run_pipeline_loads_curated (pd : pandas) (city cc tz : string)
    (w : world) (loc : Location) (wj : weather_json) :
  length_preserving pd →
  cc ≠ "" →
  (get_lat_lon city cc w).1 = Ok loc →
  forecast_service (env w) (forecast_requests w)
    (ForecastParams (latitude loc) (longitude loc) DEFAULT_HOURLY_VARS tz)
  = Some wj →
  Forall (λ kv : string * list value,
            length kv.2 = length (default [] (hourly_or_empty wj !! "time")))
         (hourly_columns (hourly_or_empty wj)) →
  ∃ staging curated,
    (to_staging_df wj loc tz w).1 = Ok staging
    ∧ transform pd staging = Ok curated
    ∧ run_pipeline pd city cc tz w
      = load_to_mongo curated
          (World (env w) (S (geocoding_requests w)) (S (forecast_requests w))
                 (S (clock_reads w)) (mongo_connections w) (mongo_writes w)
                 (store w)).
Proof.
  intros Hpd Hcc Hloc Hreply Hall.
  assert (∃ staging, (to_staging_df wj loc tz w).1 = Ok staging) as [staging Hst].
  { rewrite to_staging_df_result, DataFrame_of_hourly.
    rewrite (bool_decide_eq_true_2 _ Hall). simpl. eauto. }
  pose proof (to_staging_df_run _ _ _ _ _ Hst) as Hrun.
  pose proof (to_staging_df_staged _ _ _ _ _ _ Hrun) as Hstaged.
  exists staging, (curated_frame pd staging).
  split; [done |]. split; [by apply transform_result |].
  by apply (run_pipeline_stages pd city cc tz w loc wj staging).
Qed.

Lemma run_pipeline_loads_curated_witness :
  length_preserving sample_pandas
  ∧ "cr" ≠ ""
  ∧ (get_lat_lon "San Jose" "cr" sample_world).1 = Ok san_jose_location
  ∧ forecast_service (env sample_world) (forecast_requests sample_world)
      (ForecastParams (latitude san_jose_location) (longitude san_jose_location)
         DEFAULT_HOURLY_VARS "America/Costa_Rica") = Some sample_forecast
  ∧ ∃ staging curated,
      (to_staging_df sample_forecast san_jose_location "America/Costa_Rica"
         sample_world).1 = Ok staging
      ∧ transform sample_pandas staging = Ok curated.
Proof.
  assert ("cr" ≠ "") as Hcc by discriminate.
  assert (Forall (λ kv : string * list value,
                    length kv.2
                    = length (default [] (hourly_or_empty sample_forecast !! "time")))
                 (hourly_columns (hourly_or_empty sample_forecast))) as Hall
    by (repeat constructor).
  split; [exact sample_pandas_length_preserving |].
  split; [exact Hcc |]. split; [reflexivity |]. split; [reflexivity |].
  destruct (run_pipeline_loads_curated sample_pandas "San Jose" "cr"
              "America/Costa_Rica" sample_world san_jose_location sample_forecast
              sample_pandas_length_preserving Hcc eq_refl eq_refl Hall)
    as (staging & curated & Hst & Htr & _).
  exists staging, curated. split; [exact Hst | exact Htr].
Defined.



(** The stages before the load leave the collection and the count of
    batches as they were. *)
Lemma to_staging_df_store (wj : weather_json) (loc : Location) (tz : string)
    (w : world) :
  env (to_staging_df wj loc tz w).2 = env w
  ∧ store (to_staging_df wj loc tz w).2 = store w
  ∧ mongo_writes (to_staging_df wj loc tz w).2 = mongo_writes w.
Proof. rewrite to_staging_df_world. by destruct (DataFrame_of_dict _). Qed.



(** ** The Prefect tasks and flow *)

Lemma bind_run {A B} (c : M A) (k : A → M B) (w : world) :
  bind c k w
  = match c w with
    | (Ok a, w') => k a w'
    | (Raise e, w') => (Raise e, w')
    end.
Proof. done. Qed.

(** A task that returns at once is not run again. *)
Lemma with_retries_Ok {A} (n : nat) (task : M A) (w w' : world) (a : A) :
  task w = (Ok a, w') → with_retries n task w = (Ok a, w').
Proof. intros Hrun. destruct n; simpl; by rewrite Hrun. Qed.

(** X19.  [task_geocode] asks the geocoding service at most three times:
    it returns what the first attempt that does not raise returns, or
    raises what the third attempt raises, every failure before being
    retried whatever its kind, the "no results" and "ambiguous"
    [ValueError]s included; each attempt makes one request, and nothing
    else of the world changes. *)
Theorem task_geocode_attempts (city cc : string) (w : world) :
  ∃ k, k ≤ 2
    ∧ task_geocode city cc w
      = ((get_lat_lon city cc
            (with_geocoding_requests (k + geocoding_requests w) w)).1,
         with_geocoding_requests (S k + geocoding_requests w) w)
    ∧ (∀ j, j < k →
         ∃ e, (get_lat_lon city cc
                 (with_geocoding_requests (j + geocoding_requests w) w)).1
              = Raise e)
    ∧ (k = 2
       ∨ ∃ loc, (get_lat_lon city cc
                   (with_geocoding_requests (k + geocoding_requests w) w)).1
                = Ok loc).
Proof.
  set (attempt j := (get_lat_lon city cc
                       (with_geocoding_requests (j + geocoding_requests w) w)).1).
  assert ((get_lat_lon city cc w).1 = attempt 0) as H0
    by (by apply get_lat_lon_at).
  unfold task_geocode. cbn [with_retries].
  rewrite get_lat_lon_run, H0.
  destruct (attempt 0) as [loc|e0] eqn:Ha0.
  { exists 0. fold (attempt 0). rewrite Ha0.
    split; [lia |]. split; [done |]. split; [intros j ?; lia | eauto]. }
  rewrite get_lat_lon_run. cbn [with_geocoding_requests geocoding_requests env
    forecast_requests clock_reads mongo_connections mongo_writes store].
  rewrite (get_lat_lon_at city cc _
             (with_geocoding_requests (1 + geocoding_requests w) w)) by done.
  fold (attempt 1).
  destruct (attempt 1) as [loc|e1] eqn:Ha1.
  { exists 1. fold (attempt 1). rewrite Ha1.
    split; [lia |]. split; [done |]. split; [| eauto].
    intros [|j] ?; [fold (attempt 0); eauto | lia]. }
  rewrite get_lat_lon_run. cbn [with_geocoding_requests geocoding_requests env
    forecast_requests clock_reads mongo_connections mongo_writes store].
  rewrite (get_lat_lon_at city cc _
             (with_geocoding_requests (2 + geocoding_requests w) w)) by done.
  fold (attempt 2).
  exists 2. fold (attempt 2).
  split; [lia |]. split; [by destruct (attempt 2) |]. split; [| auto].
  intros [|[|j]] ?; [fold (attempt 0); eauto | fold (attempt 1); eauto | lia].
Qed.

(** X20.  The flow does what the script does when nothing fails: if the
    forecast service never answers with a null [hourly] and [run_pipeline]
    returns in the world after one reading of the clock, the reading
    [weather_etl_flow] starts with, then [weather_etl_flow] returns the
    same counts and leaves the same world, no task being run twice. *)
Theorem flow_runs_pipeline (pd : pandas) (city cc tz : string) (w w' : world)
    (r : gmap string nat) :
  (∀ n p wj, forecast_service (env w) n p = Some wj → hourly wj ≠ HourlyNull) →
  run_pipeline pd city cc tz (with_clock_reads (S (clock_reads w)) w)
  = (Ok r, w') →
  weather_etl_flow pd city cc tz w = (Ok r, w').
Proof.
  intros Hnull Hrun. unfold weather_etl_flow. unfold run_pipeline in Hrun.
  rewrite bind_run. unfold datetime_now at 1.
  fold (with_clock_reads (S (clock_reads w)) w).
  set (w1 := with_clock_reads (S (clock_reads w)) w) in *.
  rewrite bind_run in Hrun |- *.
  destruct (get_lat_lon city cc w1) as [[loc|e0] w2] eqn:Hgeo; [| done].
  unfold task_geocode. rewrite (with_retries_Ok 2 _ _ _ _ Hgeo).
  rewrite get_lat_lon_run in Hgeo. injection Hgeo as _ <-.
  set (w2 := with_geocoding_requests _ w1) in *.
  rewrite bind_run in Hrun |- *. unfold lift at 1. unfold lift at 1 in Hrun.
  destruct (security_validation loc cc); [| done].
  rewrite bind_run in Hrun |- *.
  destruct (fetch_hourly_weather (latitude loc) (longitude loc) tz
              DEFAULT_HOURLY_VARS w2) as [[wj|e1] w3] eqn:Hfc; [| done].
  assert (hourly wj ≠ HourlyNull) as Hwj.
  { rewrite fetch_hourly_weather_run in Hfc.
    destruct (forecast_service (env w2) _ _) as [wj'|] eqn:Hrep; [| done].
    injection Hfc as <- _. exact (Hnull _ _ _ Hrep). }
  unfold task_fetch_forecast.
  rewrite (with_retries_Ok 2 _ w2 w3 wj).
  2: { rewrite bind_run, Hfc. by destruct (hourly wj). }
  rewrite bind_run in Hrun |- *.
  destruct (to_staging_df wj loc tz w3) as [[st|e2] w4] eqn:Hst; [| done].
  unfold task_stage. rewrite (with_retries_Ok 0 _ _ _ _ Hst).
  rewrite bind_run in Hrun |- *. unfold task_transform.
  destruct (lift (transform pd st) w4) as [[cur|e3] w5] eqn:Htr; [| done].
  rewrite (with_retries_Ok 0 _ _ _ _ Htr).
  rewrite bind_run in Hrun |- *. unfold task_load.
  destruct (load_to_mongo cur w5) as [[r'|e4] w6] eqn:Hload; [| done].
  by rewrite (with_retries_Ok 1 _ _ _ _ Hload).
Qed.

Lemma flow_runs_pipeline_witness :
  (∀ n p wj, forecast_service (env sample_world) n p = Some wj →
             hourly wj ≠ HourlyNull)
  ∧ (weather_etl_flow sample_pandas "San Jose" "cr" "America/Costa_Rica"
       sample_world).1
    = Ok {[ "matched" := 0; "modified" := 0; "upserted" := 2 ]}.
Proof.
  assert (∀ n p wj, forecast_service (env sample_world) n p = Some wj →
                    hourly wj ≠ HourlyNull) as Hnull.
  { intros n p wj [= <-]. discriminate. }
  split; [exact Hnull |].
  assert (run_pipeline sample_pandas "San Jose" "cr" "America/Costa_Rica"
            (with_clock_reads (S (clock_reads sample_world)) sample_world)
          = (Ok {[ "matched" := 0; "modified" := 0; "upserted" := 2 ]},
             (run_pipeline sample_pandas "San Jose" "cr" "America/Costa_Rica"
                (with_clock_reads (S (clock_reads sample_world))
                   sample_world)).2)) as Hrun
    by (by vm_compute).
  by rewrite (flow_runs_pipeline sample_pandas "San Jose" "cr"
                "America/Costa_Rica" sample_world _ _ Hnull Hrun).
Defined.




Lemma nothing_written_trans (w1 w2 w3 : world) :
  nothing_written w1 w2 → nothing_written w2 w3 → nothing_written w1 w3.
Proof. intros (H1 & H2 & H3) (H4 & H5 & H6). repeat split; congruence. Qed.

(** A task that never writes does not write when it is retried. *)
Lemma with_retries_nothing_written {A} (task : M A) (n : nat) :
  (∀ w, nothing_written w (task w).2) →
  ∀ w, nothing_written w (with_retries n task w).2.
Proof.
  intros Htask. induction n as [|n IH]; intros w; simpl;
    pose proof (Htask w) as Hw; destruct (task w) as [[a|e] w1]; try done.
  eapply nothing_written_trans; [exact Hw | apply IH].
Qed.

(** A task that, when the server would apply the next batch, writes
    nothing when it fails, has written nothing when its last retry
    fails. *)
Lemma with_retries_raise_nothing_written {A} (task : M A) (n : nat) :
  (∀ w e w', bulk_failure (env w) (mongo_writes w) = None →
             task w = (Raise e, w') → nothing_written w w') →
  ∀ w e w', bulk_failure (env w) (mongo_writes w) = None →
            with_retries n task w = (Raise e, w') → nothing_written w w'.
Proof.
  intros Htask. induction n as [|n IH]; intros w e w' Hbatch; simpl;
    destruct (task w) as [[a|e1] w1] eqn:Hrun; try done.
  - intros [= _ <-]. by eapply Htask.
  - intros Hrest. pose proof (Htask _ _ _ Hbatch Hrun) as Hw.
    eapply nothing_written_trans; [exact Hw |]. eapply IH; [| done].
    destruct Hw as (-> & _ & ->). done.
Qed.

Lemma get_lat_lon_nothing_written (city cc : string) (w : world) :
  nothing_written w (get_lat_lon city cc w).2.
Proof. by rewrite get_lat_lon_world. Qed.

Lemma to_staging_df_nothing_written (wj : weather_json) (loc : Location)
    (tz : string) (w : world) :
  nothing_written w (to_staging_df wj loc tz w).2.
Proof.
  destruct (to_staging_df_store wj loc tz w) as (He & Hs & Hm).
  split; [done |]. split; [by rewrite Hs | done].
Qed.

Lemma load_to_mongo_nothing_written (df : DataFrame) (w w' : world) (e : exn) :
  bulk_failure (env w) (mongo_writes w) = None →
  load_to_mongo df w = (Raise e, w') → nothing_written w w'.
Proof.
  intros Hbatch Hrun.
  destruct (load_to_mongo_raise df w w' e Hrun)
    as [He [(_ & Hd & Hm) | (_ & [x Hx] & _)]]; [done | congruence].
Qed.

(** X22.  A flow run that fails writes nothing, retries included, when
    the server would apply the next batch: whatever [weather_etl_flow]
    raises then, after however many attempts of its tasks, the documents
    of the collection are those there were and no batch was sent. *)
Theorem failed_flow_writes_nothing (pd : pandas) (city cc tz : string)
    (w w' : world) (e : exn) :
  bulk_failure (env w) (mongo_writes w) = None →
  weather_etl_flow pd city cc tz w = (Raise e, w') →
  documents (store w') = documents (store w)
  ∧ mongo_writes w' = mongo_writes w.
Proof.
  intros Hbatch.
  enough (weather_etl_flow pd city cc tz w = (Raise e, w') → nothing_written w w')
    as Hn by (intros Hrun; by destruct (Hn Hrun) as (_ & ? & ?)).
  unfold weather_etl_flow. rewrite bind_run. unfold datetime_now at 1.
  set (w1 := World _ _ _ _ _ _ _).
  assert (nothing_written w w1) as N1 by done.
  rewrite bind_run.
  pose proof (with_retries_nothing_written _ 2
                (get_lat_lon_nothing_written city cc) w1) as N2.
  fold (task_geocode city cc) in N2.
  destruct (task_geocode city cc w1) as [[loc|e1] w2]; cbn [snd] in N2.
  2: { intros [= _ <-]. by eapply nothing_written_trans. }
  rewrite bind_run. unfold lift at 1.
  destruct (security_validation loc cc).
  2: { intros [= _ <-]. by eapply nothing_written_trans. }
  rewrite bind_run.
  assert (nothing_written w2
            (task_fetch_forecast (latitude loc) (longitude loc) tz
               DEFAULT_HOURLY_VARS w2).2) as N3.
  { apply with_retries_nothing_written. intros w0.
    rewrite bind_run, fetch_hourly_weather_run.
    destruct (http_reply _) as [wj|]; [| done]. by destruct (hourly wj). }
  destruct (task_fetch_forecast _ _ _ _ w2) as [[wj|e3] w3]; cbn [snd] in N3.
  all: pose proof (nothing_written_trans _ _ _ N1 N2) as N12.
  all: pose proof (nothing_written_trans _ _ _ N12 N3) as N13.
  2: { intros [= _ <-]. exact N13. }
  rewrite bind_run.
  pose proof (with_retries_nothing_written _ 0
                (to_staging_df_nothing_written wj loc tz) w3) as N4.
  fold (task_stage wj loc tz) in N4.
  destruct (task_stage wj loc tz w3) as [[st|e4] w4]; cbn [snd] in N4.
  all: pose proof (nothing_written_trans _ _ _ N13 N4) as N14.
  2: { intros [= _ <-]. exact N14. }
  rewrite bind_run.
  assert (nothing_written w4 (task_transform pd st w4).2) as N5.
  { apply with_retries_nothing_written. intros w0. unfold lift.
    by destruct (transform pd st). }
  destruct (task_transform pd st w4) as [[cur|e5] w5]; cbn [snd] in N5.
  all: pose proof (nothing_written_trans _ _ _ N14 N5) as N15.
  2: { intros [= _ <-]. exact N15. }
  rewrite bind_run.
  destruct (task_load cur w5) as [[r|e6] w6] eqn:Hload; [done |].
  intros [= _ <-].
  assert (nothing_written w5 w6) as N6.
  { revert Hload. apply with_retries_raise_nothing_written.
    - intros w0 e0 w0'. apply load_to_mongo_nothing_written.
    - destruct N15 as (-> & _ & ->). exact Hbatch. }
  exact (nothing_written_trans _ _ _ N15 N6).
Qed.

Lemma failed_flow_writes_nothing_witness :
  bulk_failure (env clashing_world) (mongo_writes clashing_world) = None
  ∧ (weather_etl_flow sample_pandas "San Jose" "cr" "America/Costa_Rica"
       clashing_world).1 = Raise DuplicateKeyError
  ∧ mongo_connections (weather_etl_flow sample_pandas "San Jose" "cr"
                         "America/Costa_Rica" clashing_world).2 = 2
  ∧ documents (store (weather_etl_flow sample_pandas "San Jose" "cr"
                        "America/Costa_Rica" clashing_world).2)
    = documents (store clashing_world).
Proof.
  split; [reflexivity |]. split; [by vm_compute |]. split; [by vm_compute |].
  apply (failed_flow_writes_nothing sample_pandas "San Jose" "cr"
           "America/Costa_Rica" clashing_world _ DuplicateKeyError eq_refl).
  by vm_compute.
Defined.

(** Without that it can have written: a batch that times out after its
    first operation, then a retry that cannot reach the server, and the
    flow raises the retry's error over a collection that has one document
    more. *)
Example failed_flow_may_have_written :
  (weather_etl_flow sample_pandas "San Jose" "cr" "America/Costa_Rica"
     timeout_world).1 = Raise ServerSelectionTimeoutError
  ∧ documents (store timeout_world) = []
  ∧ length (documents (store (weather_etl_flow sample_pandas "San Jose" "cr"
                                "America/Costa_Rica" timeout_world).2)) = 1.
Proof. by vm_compute. Qed.

(** ** The connection test *)


